(** * SkyInsight: the analytics pipeline and the insight generator

    A shallow embedding of [data_processor.py] (class [MarketAnalyzer]) and
    [api_integration.py] (class [InsightsGenerator]), and of the step of
    [main.py] that hands the analysis of the first to the second.

    Numbers.  Python and pandas compute on IEEE doubles.  The embedding keeps
    the special values (NaN, plus and minus infinity) and writes a finite
    double as a rational; NaN propagation, division by zero and comparisons
    that are false on NaN follow IEEE as numpy applies it.  Rounding is
    modelled where a printed digit or an exception depends on it:
    [Float.round64] is the nearest double, and the price change of the
    statistics and the arithmetic of the insight generator round each
    operation with it.  Elsewhere the operations are exact, and the theorems
    that depend on a sum ask for whole numbers that total 2^53 at most, which
    pandas adds up as they are, as doubles and as 64-bit integers.  The slope
    of [np.polyfit] is the exact one.

    Objects.  A pandas DataFrame is a mutable object.  The analyzer works on
    references into a store of frames, so that copying, in-place column
    assignment and rebinding are distinguished as they are in the source.

    Inputs.  What the code reads from outside is a parameter of the model:
    the text parsers of pandas, Python's [repr] of a double, the sample
    standard deviation (irrational in general), the clock, and the replies of
    the network.

    The embedding comes first: the library model ([Float], [Calendar], frames
    and the store), then [MarketAnalyzer], the string methods that the
    generator calls ([Text]), [InsightsGenerator] and [App], each function
    under the name it has in the source.  The properties follow. *)

From Stdlib Require Import ZArith QArith Qround Qpower Lia Lqa Bool.
From Stdlib Require Import Strings.String Strings.Ascii Numbers.DecimalString.
From stdpp Require Import gmap strings list sorting.

Set Default Proof Using "Type".
Local Open Scope Z_scope.

(** ** Idealised doubles *)

Module Float.

Inductive float :=
| NaN
| NegInf
| PosInf
| Fin (q : Q).

Definition of_Z (z : Z) : float := Fin (inject_Z z).

Definition Qltb (a b : Q) : bool := negb (Qle_bool b a).

Definition is_nan (x : float) : bool :=
  match x with NaN => true | _ => false end.

(** [x < y], false as soon as one side is NaN. *)
Definition ltb (x y : float) : bool :=
  match x, y with
  | NaN, _ | _, NaN => false
  | NegInf, NegInf => false
  | NegInf, _ => true
  | _, NegInf => false
  | PosInf, _ => false
  | _, PosInf => true
  | Fin a, Fin b => Qltb a b
  end.

Definition leb (x y : float) : bool :=
  match x, y with
  | NaN, _ | _, NaN => false
  | NegInf, _ => true
  | _, NegInf => false
  | _, PosInf => true
  | PosInf, _ => false
  | Fin a, Fin b => Qle_bool a b
  end.

Definition gtb (x y : float) : bool := ltb y x.
Definition geb (x y : float) : bool := leb y x.

Definition neg (x : float) : float :=
  match x with
  | NaN => NaN
  | NegInf => PosInf
  | PosInf => NegInf
  | Fin a => Fin (Qred (- a))
  end.

Definition add (x y : float) : float :=
  match x, y with
  | NaN, _ | _, NaN => NaN
  | PosInf, NegInf | NegInf, PosInf => NaN
  | PosInf, _ | _, PosInf => PosInf
  | NegInf, _ | _, NegInf => NegInf
  | Fin a, Fin b => Fin (Qred (a + b))
  end.

Definition sub (x y : float) : float := add x (neg y).

(** Sign of a non-NaN value: -1, 0 or 1. *)
Definition sgn (x : float) : Z :=
  match x with
  | NaN => 0
  | NegInf => -1
  | PosInf => 1
  | Fin a => Z.sgn (Qnum a)
  end.

Definition inf_of_sign (s : Z) : float :=
  if s <? 0 then NegInf else PosInf.

Definition mul (x y : float) : float :=
  match x, y with
  | NaN, _ | _, NaN => NaN
  | Fin a, Fin b => Fin (Qred (a * b))
  | _, _ =>
      (* one side is infinite *)
      if (sgn x * sgn y =? 0) then NaN else inf_of_sign (sgn x * sgn y)
  end.

(** numpy's true division: [0/0] is NaN, [x/0] is a signed infinity, no
    exception is raised. *)
Definition div (x y : float) : float :=
  match x, y with
  | NaN, _ | _, NaN => NaN
  | Fin a, Fin b =>
      if Qeq_bool b 0 then
        if Qeq_bool a 0 then NaN else inf_of_sign (Z.sgn (Qnum a))
      else Fin (Qred (a / b))
  | Fin _, _ => Fin 0
  | _, Fin b => if Qltb b 0 then neg x else x
  | _, _ => NaN
  end.

(** Python's builtin [max(a, b)]: [b] when [b > a], else [a]. *)
Definition py_max (a b : float) : float := if gtb b a then b else a.
(** Python's builtin [min(a, b)]: [b] when [b < a], else [a]. *)
Definition py_min (a b : float) : float := if ltb b a then b else a.

(** [Series.clip(lo, hi)] on one value: NaN stays NaN. *)
Definition clip (lo hi : Q) (x : float) : float :=
  match x with
  | NaN => NaN
  | NegInf => Fin lo
  | PosInf => Fin hi
  | Fin a => if Qltb a lo then Fin lo else if Qltb hi a then Fin hi else Fin a
  end.

(** Round half to even, to an integer. *)
Definition Qrint (a : Q) : Z :=
  let f := Qfloor a in
  let r := (a - inject_Z f)%Q in
  match (r ?= 1 # 2)%Q with
  | Lt => f
  | Gt => f + 1
  | Eq => if Z.even f then f else f + 1
  end.

(** [round(x, d)]: round half to even at [d] decimals. *)
Definition Qround_dec (d : nat) (a : Q) : Q :=
  let p := inject_Z (10 ^ Z.of_nat d) in
  Qred (inject_Z (Qrint (a * p)) / p).

Definition round_dec (d : nat) (x : float) : float :=
  match x with Fin a => Fin (Qround_dec d a) | _ => x end.

(** Sum and mean of a numeric series; pandas skips NaN ([skipna=True]). *)
Definition sum (xs : list float) : float :=
  foldl add (Fin 0) (filter (λ x, is_nan x = false) xs).

Definition count (xs : list float) : nat :=
  length (filter (λ x, is_nan x = false) xs).

Definition mean (xs : list float) : float :=
  match count xs with
  | O => NaN
  | n => div (sum xs) (of_Z (Z.of_nat n))
  end.

Fixpoint insert_sorted (x : float) (l : list float) : list float :=
  match l with
  | [] => [x]
  | y :: l' => if ltb x y then x :: l else y :: insert_sorted x l'
  end.

Definition sort (l : list float) : list float := foldr insert_sorted [] l.

(** [Series.quantile(p)], linear interpolation between the two nearest order
    statistics of the non-missing values; NaN on an empty series. *)
Definition quantile (p : Q) (xs : list float) : float :=
  let s := sort (filter (λ x, is_nan x = false) xs) in
  match s with
  | [] => NaN
  | _ =>
      let pos := (inject_Z (Z.of_nat (length s) - 1) * p)%Q in
      let lo := Qfloor pos in
      let frac := Qred (pos - inject_Z lo) in
      let a := nth (Z.to_nat lo) s NaN in
      if Qeq_bool frac 0 then a
      else
        let b := nth (Z.to_nat lo + 1) s NaN in
        add a (mul (sub b a) (Fin frac))
  end.

(** The double nearest to a rational: IEEE 754 binary64, round to nearest,
    ties to even.  A double has 53 significant bits from 2^-1022 on and is
    a multiple of 2^-1074 below; what rounds to 2^1024 or beyond is an
    infinity. *)
Definition ilog2 (a : Q) : Z :=
  let e := Z.log2 (Qnum a) - Z.log2 (Zpos (Qden a)) in
  if Qltb a (2 ^ e)%Q then e - 1 else e.

Definition round64 (q : Q) : float :=
  if Qeq_bool q 0 then Fin 0
  else
    let a := if Qltb q 0 then Qred (- q) else q in
    let e := Z.max (ilog2 a) (-1022) in
    let ulp := (2 ^ (e - 52))%Q in
    let r := Qred (inject_Z (Qrint (a / ulp)) * ulp) in
    if Qle_bool (2 ^ 1024)%Q r then inf_of_sign (Z.sgn (Qnum q))
    else if Qltb q 0 then Fin (Qred (- r)) else Fin r.

(** The result of one operation on doubles, as the processor rounds it. *)
Definition rounded (x : float) : float :=
  match x with Fin q => round64 q | _ => x end.

(** [int(x)]: truncation toward zero; [None] where Python raises
    (ValueError on NaN, OverflowError on an infinity). *)
Definition to_int (x : float) : option Z :=
  match x with
  | Fin a => Some (Z.quot (Qnum a) (Zpos (Qden a)))
  | _ => None
  end.

End Float.

Export Float(float).
Abbreviation NaN := Float.NaN.
Abbreviation Fin := Float.Fin.

(** ** Calendar: what the [.dt] accessor reads off a timestamp

    A timestamp is kept at day resolution, as the number of days since
    1970-01-01 (the time of day plays no part in the analyses below). *)

Module Calendar.

Definition Timestamp := Z.

(** Proleptic Gregorian calendar from a day count. *)
Definition civil (d : Timestamp) : Z * Z * Z :=
  let z := d + 719468 in
  let era := z / 146097 in
  let doe := z - era * 146097 in
  let yoe := (doe - doe / 1460 + doe / 36524 - doe / 146096) / 365 in
  let doy := doe - (365 * yoe + yoe / 4 - yoe / 100) in
  let mp := (5 * doy + 2) / 153 in
  let day := doy - (153 * mp + 2) / 5 + 1 in
  let m := (mp + 2) mod 12 + 1 in
  let y := yoe + era * 400 + (if m <=? 2 then 1 else 0) in
  (y, m, day).

Definition year (d : Timestamp) : Z := fst (fst (civil d)).
Definition month (d : Timestamp) : Z := snd (fst (civil d)).
Definition day (d : Timestamp) : Z := snd (civil d).

Definition days_from_civil (y m d : Z) : Timestamp :=
  let y' := if m <=? 2 then y - 1 else y in
  let era := y' / 400 in
  let yoe := y' - era * 400 in
  let mp := (m + 9) mod 12 in
  let doy := (153 * mp + 2) / 5 + d - 1 in
  let doe := yoe * 365 + yoe / 4 - yoe / 100 + doy in
  era * 146097 + doe - 719468.

(** [dt.weekday]: Monday is 0, Sunday is 6. *)
Definition weekday (d : Timestamp) : Z := (d + 3) mod 7.

Definition day_names : list string :=
  ["Monday"; "Tuesday"; "Wednesday"; "Thursday"; "Friday"; "Saturday";
   "Sunday"]%string.

(** [dt.day_name()] *)
Definition day_name (d : Timestamp) : string :=
  nth (Z.to_nat (weekday d)) day_names EmptyString.

(** Number of ISO weeks of a year: 53 when 1 January is a Thursday, or a
    Wednesday in a leap year. *)
Definition is_leap (y : Z) : bool :=
  ((y mod 4 =? 0) && negb (y mod 100 =? 0)) || (y mod 400 =? 0).

Definition iso_weeks_in_year (y : Z) : Z :=
  let jan1 := weekday (days_from_civil y 1 1) in
  if (jan1 =? 3) || ((jan1 =? 2) && is_leap y) then 53 else 52.

(** [dt.isocalendar().week] *)
Definition isoweek (d : Timestamp) : Z :=
  let y := year d in
  let doy := d - days_from_civil y 1 1 + 1 in
  let w := (doy - (weekday d + 1) + 10) / 7 in
  if w <? 1 then iso_weeks_in_year (y - 1)
  else if iso_weeks_in_year y <? w then 1
  else w.

(** [dt.weekday.isin([5, 6])] *)
Definition is_weekend (d : Timestamp) : bool :=
  (weekday d =? 5) || (weekday d =? 6).

End Calendar.

(** ** Python values that raise: outcomes and exceptions *)

Inductive exn :=
| KeyError (key : string)
| ValueError (msg : string)
| TypeError (msg : string)
| AttributeError (msg : string)
| IndexError (msg : string)
| UnboundLocalError (name : string)
| ReferenceError
| ZeroDivisionError (msg : string)
| OverflowError (msg : string).

Inductive outcome (A : Type) :=
| Ret (a : A)
| Raise (e : exn).
Arguments Ret {A} a.
Arguments Raise {A} e.

Definition obind {A B} (o : outcome A) (k : A → outcome B) : outcome B :=
  match o with
  | Ret a => k a
  | Raise e => Raise e
  end.

Fixpoint omapM {A B} (f : A → outcome B) (l : list A) : outcome (list B) :=
  match l with
  | [] => Ret []
  | x :: l' => obind (f x) (λ y, obind (omapM f l') (λ ys, Ret (y :: ys)))
  end.

(** ** DataFrames *)

Inductive cell :=
| NA                                   (* None, NaT *)
| Num (x : float)
| Str (s : string)
| Date (d : Calendar.Timestamp)
| Flag (b : bool).

(** [isna]: None, NaT and NaN are the missing values. *)
Definition isna (c : cell) : bool :=
  match c with
  | NA | Num NaN => true
  | _ => false
  end.

(** The double a cell holds in a numeric column. *)
Definition as_float (c : cell) : float :=
  match c with
  | Num x => x
  | Flag b => Float.of_Z (if b then 1 else 0)
  | _ => NaN
  end.

Record DataFrame := mkDataFrame {
  columns : list string;
  rows : list (gmap string cell);
}.

Definition row_get (c : string) (r : gmap string cell) : cell :=
  default NA (r !! c).

Definition has_column (c : string) (t : DataFrame) : bool :=
  bool_decide (c ∈ columns t).

(** [t[c]]: the column as a list, KeyError when there is no such column. *)
Definition getitem (c : string) (t : DataFrame) : outcome (list cell) :=
  if has_column c t then Ret (row_get c <$> rows t) else Raise (KeyError c).

(** The frame after [t[c] = v]: the column is replaced, or appended when
    new. *)
Definition set_col (c : string) (v : list cell) (t : DataFrame) : DataFrame :=
  {| columns := if has_column c t then columns t else columns t ++ [c];
     rows := zip_with (λ r x, <[c := x]> r) (rows t) v |}.

(** [t[c] = v]; pandas raises ValueError when the lengths differ. *)
Definition setitem (c : string) (v : list cell) (t : DataFrame)
  : outcome DataFrame :=
  if bool_decide (length v = length (rows t)) then Ret (set_col c v t)
  else Raise (ValueError "Length of values does not match length of index").

(** [t.dropna(subset=cs)]: a new frame without the rows that miss one of
    [cs]; KeyError when a column of [cs] does not exist. *)
Definition dropna (cs : list string) (t : DataFrame) : outcome DataFrame :=
  match filter (λ c, has_column c t = false) cs with
  | c :: _ => Raise (KeyError c)
  | [] =>
      Ret {| columns := columns t;
             rows := filter (λ r, forallb (λ c, negb (isna (row_get c r))) cs = true)
                            (rows t) |}
  end.

Fixpoint select_rows (mask : list bool) (rs : list (gmap string cell))
  : list (gmap string cell) :=
  match mask, rs with
  | b :: mask', r :: rs' =>
      if b then r :: select_rows mask' rs' else select_rows mask' rs'
  | _, _ => []
  end.

(** [t[mask]]: a new frame with the rows where the boolean mask holds. *)
Definition select (mask : list bool) (t : DataFrame) : DataFrame :=
  {| columns := columns t; rows := select_rows mask (rows t) |}.

(** ** The object store *)

Definition ref := nat.
Definition store := list DataFrame.

Definition M (A : Type) : Type := store → outcome A * store.

Definition ret {A} (a : A) : M A := λ h, (Ret a, h).
Definition raise {A} (e : exn) : M A := λ h, (Raise e, h).
Definition bind {A B} (m : M A) (k : A → M B) : M B :=
  λ h, match m h with
       | (Ret a, h') => k a h'
       | (Raise e, h') => (Raise e, h')
       end.
Definition lift {A} (o : outcome A) : M A := λ h, (o, h).

(** [try: body except Exception as e: handler] *)
Definition try_except {A} (body : M A) (handler : exn → M A) : M A :=
  λ h, match body h with
       | (Ret a, h') => (Ret a, h')
       | (Raise e, h') => handler e h'
       end.

Declare Scope py_scope.
Delimit Scope py_scope with py.
Notation "x <- m ;; k" := (bind m (λ x, k))
  (at level 100, m at next level, right associativity) : py_scope.
Notation "m ;;; k" := (bind m (λ _, k))
  (at level 100, right associativity) : py_scope.
Local Open Scope py_scope.

Fixpoint for_each {A} (l : list A) (body : A → M unit) : M unit :=
  match l with
  | [] => ret tt
  | x :: l' => body x ;;; for_each l' body
  end.

Definition df_read (r : ref) : M DataFrame :=
  λ h, match h !! r with
       | Some t => (Ret t, h)
       | None => (Raise ReferenceError, h)
       end.

(** A new object; its reference is the next free slot. *)
Definition df_new (t : DataFrame) : M ref :=
  λ h, (Ret (length h), h ++ [t]).

(** Overwrite the object at [r] (mutation in place). *)
Definition df_write (r : ref) (t : DataFrame) : M unit :=
  λ h, (Ret tt, <[r := t]> h).

(** [r.copy()] *)
Definition df_copy (r : ref) : M ref :=
  t <- df_read r ;; df_new t.

(** [r.columns] *)
Definition df_columns (r : ref) : M (list string) :=
  t <- df_read r ;; ret (columns t).

(** [r[c]] *)
Definition df_getitem (r : ref) (c : string) : M (list cell) :=
  t <- df_read r ;; lift (getitem c t).

(** [r[c] = v] *)
Definition df_setitem (r : ref) (c : string) (v : list cell) : M unit :=
  t <- df_read r ;; t' <- lift (setitem c v t) ;; df_write r t'.

(** [r.dropna(subset=cs)] *)
Definition df_dropna (r : ref) (cs : list string) : M ref :=
  t <- df_read r ;; t' <- lift (dropna cs t) ;; df_new t'.

(** [r[mask]] *)
Definition df_select (r : ref) (mask : list bool) : M ref :=
  t <- df_read r ;; df_new (select mask t).

(** * data_processor.py: class MarketAnalyzer *)

Module MarketAnalyzer.

Section Analyzer.

(** The two parsers of pandas that [_clean_data] relies on are inputs of the
    model: what [pd.to_datetime] and [pd.to_numeric] read out of a text cell,
    [None] where the text does not parse. *)
Variable parse_datetime : string → option Calendar.Timestamp.
Variable parse_numeric : string → option Q.

Definition ns_per_day : Q := inject_Z 86400000000000.

(** [pd.to_datetime] on one cell (default [errors='raise'], numbers are
    nanoseconds since the epoch). *)
Definition to_datetime1 (c : cell) : outcome cell :=
  match c with
  | NA | Num NaN => Ret NA
  | Num (Fin q) => Ret (Date (Qfloor (q / ns_per_day)))
  | Num _ => Raise (ValueError "cannot convert float infinity to datetime")
  | Str s =>
      match parse_datetime s with
      | Some d => Ret (Date d)
      | None => Raise (ValueError "Unknown datetime string format")
      end
  | Date d => Ret (Date d)
  | Flag _ => Raise (TypeError "bool is not convertible to datetime")
  end.

Definition to_datetime (v : list cell) : outcome (list cell) :=
  omapM to_datetime1 v.

(** [pd.to_numeric(errors='coerce')] on one cell: what does not parse
    becomes NaN. *)
Definition to_numeric1 (c : cell) : cell :=
  match c with
  | NA => Num NaN
  | Num x => Num x
  | Str s =>
      match parse_numeric s with
      | Some q => Num (Fin q)
      | None => Num NaN
      end
  | Date d => Num (Float.mul (Float.of_Z d) (Fin ns_per_day))
  | Flag b => Num (Float.of_Z (if b then 1 else 0))
  end.

Definition to_numeric (v : list cell) : list cell := to_numeric1 <$> v.

Definition numeric_columns : list string :=
  ["price"; "bookings"; "capacity"]%string.

(** Element-wise [a / b] of two numeric columns. *)
Definition col_div (a b : list cell) : list cell :=
  zip_with (λ x y, Num (Float.div (as_float x) (as_float y))) a b.

(** [Series.clip(0, 1)] *)
Definition col_clip (lo hi : Q) (v : list cell) : list cell :=
  (λ x, Num (Float.clip lo hi (as_float x))) <$> v.

(** The [.dt] accessors on the date column. *)
Definition dt_day_name (c : cell) : cell :=
  match c with Date d => Str (Calendar.day_name d) | _ => NA end.
Definition dt_month (c : cell) : cell :=
  match c with Date d => Num (Float.of_Z (Calendar.month d)) | _ => Num NaN end.
Definition dt_week (c : cell) : cell :=
  match c with Date d => Num (Float.of_Z (Calendar.isoweek d)) | _ => NA end.
Definition dt_is_weekend (c : cell) : cell :=
  match c with Date d => Flag (Calendar.is_weekend d) | _ => Flag false end.

(** The body of the [try] of [_clean_data], one definition per commented
    block of the source. *)

(** Convert date column to datetime *)
Definition convert_date (cleaned_data : ref) : M unit :=
  date <- df_getitem cleaned_data "date" ;;
  date <- lift (to_datetime date) ;;
  df_setitem cleaned_data "date" date.

(** Ensure numeric columns are numeric *)
Definition ensure_numeric (cleaned_data : ref) : M unit :=
  for_each numeric_columns (λ col,
    cols <- df_columns cleaned_data ;;
    if bool_decide (col ∈ cols) then
      v <- df_getitem cleaned_data col ;;
      df_setitem cleaned_data col (to_numeric v)
    else ret tt).

(** Remove outliers (prices beyond reasonable range) *)
Definition remove_outliers (cleaned_data : ref) : M ref :=
  price <- df_getitem cleaned_data "price" ;;
  let price_q1 := Float.quantile (1 # 4) (as_float <$> price) in
  let price_q3 := Float.quantile (3 # 4) (as_float <$> price) in
  let price_iqr := Float.sub price_q3 price_q1 in
  let lower_bound := Float.sub price_q1 (Float.mul (Fin (3 # 2)) price_iqr) in
  let upper_bound := Float.add price_q3 (Float.mul (Fin (3 # 2)) price_iqr) in
  let lo := Float.py_max lower_bound (Float.of_Z 50) in
  let hi := Float.py_min upper_bound (Float.of_Z 2000) in
  df_select cleaned_data
    ((λ p, Float.geb (as_float p) lo && Float.leb (as_float p) hi) <$> price).

(** Add calculated fields *)
Definition add_load_factor (cleaned_data : ref) : M unit :=
  cols <- df_columns cleaned_data ;;
  if bool_decide ("bookings"%string ∈ cols) && bool_decide ("capacity"%string ∈ cols)
  then
    bookings <- df_getitem cleaned_data "bookings" ;;
    capacity <- df_getitem cleaned_data "capacity" ;;
    df_setitem cleaned_data "load_factor" (col_div bookings capacity) ;;;
    load_factor <- df_getitem cleaned_data "load_factor" ;;
    df_setitem cleaned_data "load_factor" (col_clip 0 1 load_factor)
  else ret tt.

(** Add time-based features *)
Definition add_time_features (cleaned_data : ref) : M unit :=
  date <- df_getitem cleaned_data "date" ;;
  df_setitem cleaned_data "day_of_week" (dt_day_name <$> date) ;;;
  date <- df_getitem cleaned_data "date" ;;
  df_setitem cleaned_data "month" (dt_month <$> date) ;;;
  date <- df_getitem cleaned_data "date" ;;
  df_setitem cleaned_data "week" (dt_week <$> date) ;;;
  date <- df_getitem cleaned_data "date" ;;
  df_setitem cleaned_data "is_weekend" (dt_is_weekend <$> date).

Definition clean_body (data : ref) : M ref :=
  (* Make a copy to avoid modifying original *)
  cleaned_data <- df_copy data ;;
  convert_date cleaned_data ;;;
  ensure_numeric cleaned_data ;;;
  (* Remove rows with invalid data *)
  cleaned_data <- df_dropna cleaned_data ["date"; "price"]%string ;;
  cleaned_data <- remove_outliers cleaned_data ;;
  add_load_factor cleaned_data ;;;
  add_time_features cleaned_data ;;;
  ret cleaned_data.

(** [MarketAnalyzer._clean_data] *)
Definition _clean_data (data : ref) : M ref :=
  try_except (clean_body data) (λ _, ret data).

(** *** Reading a cleaned frame

    The aggregations read columns by name (KeyError when absent).  A cell of
    another kind than the one [_clean_data] stores in the column is read as
    missing: text in a numeric column, a non-date in the date column. *)

Definition numeric (c : string) (t : DataFrame) : outcome (list float) :=
  obind (getitem c t) (λ v, Ret (as_float <$> v)).

Definition row_num (c : string) (r : gmap string cell) : float :=
  as_float (row_get c r).

Definition nums (c : string) (rs : list (gmap string cell)) : list float :=
  row_num c <$> rs.

Definition require (cs : list string) (t : DataFrame) : outcome unit :=
  match filter (λ c, has_column c t = false) cs with
  | c :: _ => Raise (KeyError c)
  | [] => Ret tt
  end.

(** [groupby(key)]: the groups in ascending key order, rows in frame order
    inside a group; rows with a missing key are left out. *)
Section GroupBy.
Context {K A : Type} (ltb : K → K → bool) (key : A → option K).

Fixpoint group_insert (k : K) (r : A) (gs : list (K * list A))
  : list (K * list A) :=
  match gs with
  | [] => [(k, [r])]
  | (k', rs) :: gs' =>
      if ltb k k' then (k, [r]) :: gs
      else if ltb k' k then (k', rs) :: group_insert k r gs'
      else (k', rs ++ [r]) :: gs'
  end.

Definition groupby (rs : list A) : list (K * list A) :=
  foldl (λ gs r, match key r with
                 | Some k => group_insert k r gs
                 | None => gs
                 end) [] rs.
End GroupBy.

Definition num_key (c : string) (r : gmap string cell) : option Q :=
  match row_get c r with
  | Num (Fin q) => Some q
  | _ => None
  end.

Definition str_key (c : string) (r : gmap string cell) : option string :=
  match row_get c r with
  | Str s => Some s
  | _ => None
  end.

Definition flag_key (c : string) (r : gmap string cell) : option bool :=
  match row_get c r with
  | Flag b => Some b
  | _ => None
  end.

Definition date_key (c : string) (r : gmap string cell)
  : option Calendar.Timestamp :=
  match row_get c r with
  | Date d => Some d
  | _ => None
  end.

Definition route_key (r : gmap string cell) : option (string * string) :=
  match str_key "origin" r, str_key "destination" r with
  | Some o, Some d => Some (o, d)
  | _, _ => None
  end.

Definition bool_ltb (a b : bool) : bool := negb a && b.

Definition route_ltb (a b : string * string) : bool :=
  match String.compare (fst a) (fst b) with
  | Lt => true
  | Gt => false
  | Eq => String.ltb (snd a) (snd b)
  end.

(** [sort_values(by)], ascending, missing keys last.  pandas does not
    promise the order of equal keys; the model keeps the frame order. *)
Section SortValues.
Context {K : Type} (ltb : K → K → bool) (key : gmap string cell → option K).

Definition key_lt (a b : gmap string cell) : bool :=
  match key a, key b with
  | Some x, Some y => ltb x y
  | Some _, None => true
  | None, _ => false
  end.

Fixpoint sort_insert (r : gmap string cell) (l : list (gmap string cell)) :=
  match l with
  | [] => [r]
  | r' :: l' => if key_lt r' r then r' :: sort_insert r l' else r :: l
  end.

Definition sort_rows (rs : list (gmap string cell)) :=
  foldr sort_insert [] rs.
End SortValues.

Definition sort_by_date (rs : list (gmap string cell)) :=
  sort_rows Z.ltb (date_key "date") rs.

(** [head(n)] and [tail(n)] *)
Definition head {A} (n : nat) (l : list A) : list A := take n l.
Definition tail {A} (n : nat) (l : list A) : list A :=
  drop (length l - n) l.

(** *** Text *)

Definition str_Z (z : Z) : string := NilZero.string_of_int (Z.to_int z).

(** Python's [repr] of a double that is not an integer is an input of the
    model. *)
Variable repr_float : float → string.

Definition is_integral (q : Q) : bool :=
  Qeq_bool q (inject_Z (Qfloor q)).

(** [str(m)] for a number read from an integer column. *)
Definition str_num (x : float) : string :=
  match x with
  | Fin q => if is_integral q then str_Z (Qfloor q) else repr_float x
  | _ => repr_float x
  end.

(** Formatting with ['+.1f'] *)
Definition format_plus_1f (x : float) : string :=
  match x with
  | NaN => "+nan"
  | Float.PosInf => "+inf"
  | Float.NegInf => "-inf"
  | Fin a =>
      let t := Float.Qrint (a * 10) in
      (if Float.Qltb a 0 then "-" else "+") +:+
      str_Z (Z.abs t / 10) +:+ "." +:+ str_Z (Z.abs t mod 10)
  end.

Definition pad (w : nat) (s : string) : string :=
  String.concat EmptyString (replicate (w - String.length s) "0"%string) +:+ s.

(** [strftime('%Y-%m-%d')] *)
Definition strftime (d : Calendar.Timestamp) : string :=
  pad 4 (str_Z (Calendar.year d)) +:+ "-" +:+
  pad 2 (str_Z (Calendar.month d)) +:+ "-" +:+
  pad 2 (str_Z (Calendar.day d)).

(** [idxmax] / [idxmin] of a series given with its index: the first
    position of the extreme non-missing value, ValueError when every value
    is missing; on an empty series as well. *)
Fixpoint idx_extreme {I} (better : float → float → bool)
    (best : option (I * float)) (l : list (I * float)) : option I :=
  match l with
  | [] => fst <$> best
  | (i, x) :: l' =>
      if Float.is_nan x then idx_extreme better best l'
      else match best with
           | Some (_, b) =>
               if better x b then idx_extreme better (Some (i, x)) l'
               else idx_extreme better best l'
           | None => idx_extreme better (Some (i, x)) l'
           end
  end.

Definition idxmax {I} (l : list (I * float)) : outcome I :=
  match idx_extreme Float.gtb None l with
  | Some i => Ret i
  | None => Raise (ValueError "attempt to get argmax of an empty sequence")
  end.

Definition idxmin {I} (l : list (I * float)) : outcome I :=
  match idx_extreme Float.ltb None l with
  | Some i => Ret i
  | None => Raise (ValueError "attempt to get argmin of an empty sequence")
  end.

Definition fillna (d : float) (x : float) : float :=
  if Float.is_nan x then d else x.

(** *** [_analyze_peak_periods] *)

Record PeakPeriods := mkPeakPeriods {
  peak_hour : option string;
  off_peak_hour : option string;
  peak_day : option string;
  high_demand : option string;
  low_demand : option string;
}.

Definition default_peak_periods : PeakPeriods :=
  {| peak_hour := None; off_peak_hour := None; peak_day := None;
     high_demand := Some "Friday-Sunday"%string;
     low_demand := Some "Tuesday-Wednesday"%string |}.

Definition peak_periods_body (data : DataFrame) : outcome PeakPeriods :=
  if has_column "hour" data then
    (* Hour-based analysis if available *)
    obind (require ["hour"; "bookings"]%string data) (λ _,
    let hourly_bookings :=
      (λ g, (fst g, Float.sum (nums "bookings" (snd g)))) <$>
      groupby Float.Qltb (num_key "hour") (rows data) in
    obind (idxmax hourly_bookings) (λ peak_hour,
    obind (idxmin hourly_bookings) (λ off_peak,
    Ret {| peak_hour := Some (str_num (Fin peak_hour) +:+ ":00");
           off_peak_hour := Some (str_num (Fin off_peak) +:+ ":00");
           peak_day := None; high_demand := None; low_demand := None |})))
  else
    (* Day-based analysis *)
    obind (require ["date"; "bookings"]%string data) (λ _,
    let daily_bookings :=
      (λ g, (fst g, Float.sum (nums "bookings" (snd g)))) <$>
      groupby Z.ltb (date_key "date") (rows data) in
    match daily_bookings with
    | _ :: _ =>
        obind (idxmax daily_bookings) (λ d,
        Ret {| peak_hour := None; off_peak_hour := None;
               peak_day := Some (Calendar.day_name d);
               high_demand := Some "Friday-Sunday"%string;
               low_demand := Some "Tuesday-Wednesday"%string |})
    | [] => Ret default_peak_periods
    end).

Definition _analyze_peak_periods (data : DataFrame) : PeakPeriods :=
  match peak_periods_body data with
  | Ret p => p
  | Raise _ => default_peak_periods
  end.

(** *** [_analyze_demand_patterns] *)

Record DailyPatterns := mkDailyPatterns {
  dp_labels : list string;
  dp_bookings : list float;
  dp_avg_prices : list float;
}.

Record MonthlyPatterns := mkMonthlyPatterns {
  mp_labels : list string;
  mp_bookings : list float;
  mp_avg_prices : list float;
}.

Record WeekendAnalysis := mkWeekendAnalysis {
  weekday_bookings : float;
  weekend_bookings : float;
  weekday_price : float;
  weekend_price : float;
}.

Record DemandPatterns := mkDemandPatterns {
  daily_patterns : DailyPatterns;
  monthly_patterns : MonthlyPatterns;
  weekend_analysis : WeekendAnalysis;
  peak_periods : PeakPeriods;
}.

Definition day_order : list string :=
  ["Monday"; "Tuesday"; "Wednesday"; "Thursday"; "Friday"; "Saturday";
   "Sunday"]%string.

Definition default_demand_patterns : DemandPatterns :=
  {| daily_patterns :=
       {| dp_labels := day_order;
          dp_bookings := Float.of_Z <$> [850; 720; 680; 790; 1200; 1450; 1300];
          dp_avg_prices := Float.of_Z <$> [420; 410; 400; 430; 480; 520; 500] |};
     monthly_patterns :=
       {| mp_labels := ["Month 1"; "Month 2"; "Month 3"]%string;
          mp_bookings := Float.of_Z <$> [2500; 2200; 2800];
          mp_avg_prices := Float.of_Z <$> [450; 420; 470] |};
     weekend_analysis :=
       {| weekday_bookings := Float.of_Z 750;
          weekend_bookings := Float.of_Z 1200;
          weekday_price := Float.of_Z 430;
          weekend_price := Float.of_Z 480 |};
     peak_periods := default_peak_periods |}.

(** [.iloc[0]] of the rows selected by [is_weekend == b] *)
Definition iloc0 {A} (b : bool) (wa : list (bool * A)) : outcome A :=
  match filter (λ g, fst g = b) wa with
  | g :: _ => Ret (snd g)
  | [] => Raise (IndexError "single positional indexer is out-of-bounds")
  end.

Definition demand_patterns_body (data : DataFrame) : outcome DemandPatterns :=
  (* Day of week analysis *)
  obind (require ["day_of_week"; "bookings"; "price"]%string data) (λ _,
  let by_day :=
    groupby String.ltb (str_key "day_of_week") (rows data) in
  let demand_by_day :=
    (λ d, match filter (λ g, fst g = d) by_day with
          | g :: _ => (Float.sum (nums "bookings" (snd g)),
                       Float.mean (nums "price" (snd g)))
          | [] => (Float.of_Z 0, Float.of_Z 0)
          end) <$> day_order in
  (* Monthly demand *)
  obind (require ["month"]%string data) (λ _,
  let monthly_demand :=
    (λ g, (fst g, Float.sum (nums "bookings" (snd g)),
           Float.mean (nums "price" (snd g)))) <$>
    groupby Float.Qltb (num_key "month") (rows data) in
  (* Weekend vs weekday analysis *)
  obind (require ["is_weekend"; "load_factor"]%string data) (λ _,
  let weekend_analysis :=
    (λ g, (fst g, (Float.mean (nums "bookings" (snd g)),
                   Float.mean (nums "price" (snd g)),
                   Float.mean (nums "load_factor" (snd g))))) <$>
    groupby bool_ltb (flag_key "is_weekend") (rows data) in
  (* Peak hours analysis (if time data available) *)
  let peak_analysis := _analyze_peak_periods data in
  let wa_field (b : bool) (f : float * float * float → float)
               (guard : bool) : outcome float :=
    if guard then obind (iloc0 b weekend_analysis) (λ x, Ret (f x))
    else Ret (Float.of_Z 0) in
  let nonempty := bool_decide (0 < length weekend_analysis)%nat in
  let both := bool_decide (1 < length weekend_analysis)%nat in
  obind (wa_field false (λ x, fst (fst x)) nonempty) (λ wd_b,
  obind (wa_field true (λ x, fst (fst x)) both) (λ we_b,
  obind (wa_field false (λ x, snd (fst x)) nonempty) (λ wd_p,
  obind (wa_field true (λ x, snd (fst x)) both) (λ we_p,
  Ret {| daily_patterns :=
           {| dp_labels := day_order;
              dp_bookings := (λ x, fillna (Float.of_Z 0) (fst x)) <$> demand_by_day;
              dp_avg_prices :=
                (λ x, Float.round_dec 0 (fillna (Float.of_Z 0) (snd x))) <$> demand_by_day |};
         monthly_patterns :=
           {| mp_labels := (λ m, "Month " +:+ str_num (Fin (fst (fst m)))) <$> monthly_demand;
              mp_bookings := (λ m, snd (fst m)) <$> monthly_demand;
              mp_avg_prices := (λ m, Float.round_dec 0 (snd m)) <$> monthly_demand |};
         weekend_analysis :=
           {| weekday_bookings := wd_b; weekend_bookings := we_b;
              weekday_price := wd_p; weekend_price := we_p |};
         peak_periods := peak_analysis |}))))))).

Definition _analyze_demand_patterns (data : DataFrame) : DemandPatterns :=
  match demand_patterns_body data with
  | Ret d => d
  | Raise _ => default_demand_patterns
  end.

(** *** [_analyze_popular_routes] *)

Record RouteStat := mkRouteStat {
  rs_route : string;
  rs_bookings : float;
  rs_price : float;
  rs_load_factor : float;
}.

Record PopularRoutes := mkPopularRoutes {
  tr_labels : list string;
  tr_bookings : list float;
  tr_avg_prices : list float;
  tr_market_share : list float;
  ra_total_routes : nat;
  ra_top_route : string;
  ra_avg_load_factor : float;
}.

Definition default_popular_routes : PopularRoutes :=
  {| tr_labels := ["SYD-MEL"; "MEL-SYD"; "SYD-BNE"; "BNE-SYD"; "SYD-PER"; "PER-SYD"]%string;
     tr_bookings := Float.of_Z <$> [2850; 2640; 2280; 2160; 2040; 1950];
     tr_avg_prices := Float.of_Z <$> [320; 325; 380; 375; 650; 645];
     tr_market_share :=
       Fin <$> [185 # 10; 172 # 10; 148 # 10; 140 # 10; 132 # 10; 127 # 10]%Q;
     ra_total_routes := 24;
     ra_top_route := "SYD-MEL";
     ra_avg_load_factor := Fin (78 # 100) |}.

(** [sort_values('bookings', ascending=False)]: missing values last, equal
    values in frame order. *)
Definition goes_before (y x : float) : bool :=
  if Float.is_nan x then negb (Float.is_nan y) else Float.gtb y x.

Fixpoint insert_desc (x : RouteStat) (l : list RouteStat) : list RouteStat :=
  match l with
  | [] => [x]
  | y :: l' =>
      if goes_before (rs_bookings y) (rs_bookings x)
      then y :: insert_desc x l' else x :: l
  end.

Definition sort_desc (l : list RouteStat) : list RouteStat :=
  foldr insert_desc [] l.

Definition route_stats_of (data : DataFrame) : list RouteStat :=
  (λ g, {| rs_route := fst (fst g) +:+ "-" +:+ snd (fst g);
           rs_bookings := Float.sum (nums "bookings" (snd g));
           rs_price := Float.mean (nums "price" (snd g));
           rs_load_factor := Float.mean (nums "load_factor" (snd g)) |}) <$>
  groupby route_ltb route_key (rows data).

Definition market_share (total_bookings : float) (r : RouteStat) : float :=
  Float.round_dec 1
    (Float.mul (Float.div (rs_bookings r) total_bookings) (Float.of_Z 100)).

Definition popular_routes_body (data : DataFrame) : outcome PopularRoutes :=
  (* Route popularity analysis *)
  obind (require ["origin"; "destination"; "bookings"; "price"; "load_factor"]%string data)
  (λ _,
  let route_stats := sort_desc (route_stats_of data) in
  (* Market share analysis *)
  let total_bookings := Float.sum (rs_bookings <$> route_stats) in
  Ret {| tr_labels := rs_route <$> head 10 route_stats;
         tr_bookings := rs_bookings <$> head 10 route_stats;
         tr_avg_prices := (λ r, Float.round_dec 0 (rs_price r)) <$> head 10 route_stats;
         tr_market_share := market_share total_bookings <$> head 10 route_stats;
         ra_total_routes := length route_stats;
         ra_top_route := match route_stats with
                         | r :: _ => rs_route r
                         | [] => "N/A"
                         end;
         ra_avg_load_factor := Float.mean (rs_load_factor <$> route_stats) |}).

Definition _analyze_popular_routes (data : DataFrame) : PopularRoutes :=
  match popular_routes_body data with
  | Ret p => p
  | Raise _ => default_popular_routes
  end.

(** *** [_analyze_seasonal_trends] *)

Record MonthlyTrends := mkMonthlyTrends {
  mt_labels : list string;
  mt_bookings : list float;
  mt_prices : list float;
}.

Record SeasonalAnalysis := mkSeasonalAnalysis {
  peak_season : string;
  low_season : string;
  price_variation : float;
}.

Record SeasonalTrends := mkSeasonalTrends {
  monthly_trends : MonthlyTrends;
  seasonal_analysis : SeasonalAnalysis;
}.

(** The sample standard deviation ([Series.std]) is not rational; it is an
    input of the model. *)
Variable std : list float → float.

Definition month_names : list string :=
  ["Jan"; "Feb"; "Mar"; "Apr"; "May"; "Jun";
   "Jul"; "Aug"; "Sep"; "Oct"; "Nov"; "Dec"]%string.

Definition default_seasonal_trends : SeasonalTrends :=
  {| monthly_trends :=
       {| mt_labels := month_names;
          mt_bookings := Float.of_Z <$>
            [2550; 2340; 2460; 2250; 2100; 1950; 2700; 2550; 2250; 2400; 2640; 2850];
          mt_prices := Float.of_Z <$>
            [520; 480; 460; 440; 420; 400; 450; 460; 440; 460; 500; 540] |};
     seasonal_analysis :=
       {| peak_season := "Summer"; low_season := "Winter";
          price_variation := Fin (452 # 10) |} |}.

Definition seasonal_mapping (m : Q) : option string :=
  if is_integral m then
    match Qfloor m with
    | 12 | 1 | 2 => Some "Summer"
    | 3 | 4 | 5 => Some "Autumn"
    | 6 | 7 | 8 => Some "Winter"
    | 9 | 10 | 11 => Some "Spring"
    | _ => None
    end%string
  else None.

Record MonthStat := mkMonthStat {
  ms_month : Q;
  ms_bookings : float;
  ms_price : float;
  ms_load_factor : float;
}.

Definition monthly_stats_of (data : DataFrame) : list MonthStat :=
  (λ g, {| ms_month := fst g;
           ms_bookings := Float.sum (nums "bookings" (snd g));
           ms_price := Float.mean (nums "price" (snd g));
           ms_load_factor := Float.mean (nums "load_factor" (snd g)) |}) <$>
  groupby Float.Qltb (num_key "month") (rows data).

(** [full_year.merge(monthly_stats, on='month', how='left')]: one row per
    month of [range(1, 13)], with the statistics of that month or NaN. *)
Definition merge_full_year (monthly_stats : list MonthStat)
  : list (Z * float * float) :=
  (λ m, match filter (λ s, Qeq_bool (ms_month s) (inject_Z m) = true) monthly_stats with
        | s :: _ => (m, ms_bookings s, ms_price s)
        | [] => (m, NaN, NaN)
        end) <$> ((λ i, Z.of_nat i) <$> seq 1 12).

Definition seasonal_trends_body (data : DataFrame) : outcome SeasonalTrends :=
  (* Monthly analysis *)
  obind (require ["month"; "bookings"; "price"; "load_factor"]%string data) (λ _,
  let monthly_stats := monthly_stats_of data in
  (* Seasonal categories *)
  let seasonal_stats :=
    (λ g, (fst g, Float.mean (ms_bookings <$> snd g))) <$>
    groupby String.ltb (λ s, seasonal_mapping (ms_month s)) monthly_stats in
  (* Create full year data *)
  let monthly_complete := merge_full_year monthly_stats in
  let bookings := (λ r, fillna (Float.of_Z 0) (snd (fst r))) <$> monthly_complete in
  let price_mean := Float.mean (snd <$> monthly_complete) in
  let price := (λ r, fillna price_mean (snd r)) <$> monthly_complete in
  obind (match seasonal_stats with
         | _ :: _ => idxmax seasonal_stats
         | [] => Ret "Summer"%string
         end) (λ peak,
  obind (match seasonal_stats with
         | _ :: _ => idxmin seasonal_stats
         | [] => Ret "Winter"%string
         end) (λ low,
  Ret {| monthly_trends :=
           {| mt_labels := month_names;
              mt_bookings := bookings;
              mt_prices := Float.round_dec 0 <$> price |};
         seasonal_analysis :=
           {| peak_season := peak; low_season := low;
              price_variation := std price |} |}))).

Definition _analyze_seasonal_trends (data : DataFrame) : SeasonalTrends :=
  match seasonal_trends_body data with
  | Ret s => s
  | Raise _ => default_seasonal_trends
  end.

(** *** [_calculate_trend] *)

Definition Qsum (l : list Q) : Q := foldr Qplus 0%Q l.

Definition finite (x : float) : option Q :=
  match x with Fin q => Some q | _ => None end.

(** Slope of the least-squares line through [(0, y0), (1, y1), ...]
    ([np.polyfit(x, y, 1)[0]]). *)
Definition polyfit_slope (ys : list Q) : Q :=
  let n := inject_Z (Z.of_nat (length ys)) in
  let xs := (λ i, inject_Z (Z.of_nat i)) <$> seq 0 (length ys) in
  let sx := Qsum xs in
  let sy := Qsum ys in
  let sxy := Qsum (zip_with Qmult xs ys) in
  let sxx := Qsum (zip_with Qmult xs xs) in
  Qred ((n * sxy - sx * sy) / (n * sxx - sx * sx)).

(** The slope is the exact one.  numpy fits in double arithmetic, and the
    last digits of its slope, which decide the sign when the series is all
    but flat, are no part of the model.  A NaN in the series goes through
    the fit: the slope is NaN (so is the model's for an infinity, where
    numpy answers NaN or an infinity). *)
Definition _calculate_trend (series : list float) : float :=
  if bool_decide (length series < 2)%nat then Float.of_Z 0
  else match mapM finite series with
       | Some ys => Fin (polyfit_slope ys)
       | None => NaN
       end.

(** *** [_calculate_market_health] *)

(** [data.groupby(['origin', 'destination'])]: the groups of rows.  With
    both columns the frame is grouped by their values.  Without one of them
    pandas raises KeyError, except on a frame of exactly two rows: a list
    of keys that is as long as the frame and does not name columns only is
    taken for the labels of the rows, here "origin" for the first row and
    "destination" for the second, and each row is a group. *)
Definition groupby_routes (data : DataFrame)
  : outcome (list (list (gmap string cell))) :=
  match require ["origin"; "destination"]%string data with
  | Ret _ => Ret (snd <$> groupby route_ltb route_key (rows data))
  | Raise e =>
      match rows data with
      | [r0; r1] => Ret [[r1]; [r0]]
      | _ => Raise e
      end
  end.

(** [len(data.groupby(['origin', 'destination']))] *)
Definition unique_routes_of (data : DataFrame) : outcome nat :=
  obind (groupby_routes data) (λ routes, Ret (length routes)).

Definition market_health_body (data : DataFrame) : outcome string :=
  obind (numeric "price" data) (λ price,
  (* Price stability (less volatility is better) *)
  let price_cv := Float.div (std price) (Float.mean price) in
  let s1 := if Float.ltb price_cv (Fin (2 # 10)) then 2
            else if Float.ltb price_cv (Fin (3 # 10)) then 1 else 0 in
  (* Load factor (higher is better) *)
  let s2 :=
    if has_column "load_factor" data then
      let avg_load_factor := Float.mean (nums "load_factor" (rows data)) in
      if Float.gtb avg_load_factor (Fin (8 # 10)) then 2
      else if Float.gtb avg_load_factor (Fin (7 # 10)) then 1 else 0
    else 0 in
  (* Route diversity (more routes is better) *)
  obind (unique_routes_of data) (λ unique_routes,
  let s3 := if bool_decide (10 < unique_routes)%nat then 2
            else if bool_decide (5 < unique_routes)%nat then 1 else 0 in
  let health_score := s1 + s2 + s3 in
  Ret (if 5 <=? health_score then "Excellent"%string
       else if 3 <=? health_score then "Good"%string
       else if 1 <=? health_score then "Fair"%string
       else "Poor"%string))).

Definition _calculate_market_health (data : DataFrame) : string :=
  match market_health_body data with
  | Ret s => s
  | Raise _ => "Good"
  end.

(** *** [_calculate_comprehensive_statistics] *)

Record DateRange := mkDateRange {
  dr_start : string;
  dr_end : string;
  dr_days : Z;
}.

Record Statistics := mkStatistics {
  st_total_flights : Z;
  st_avg_price : Z;
  st_median_price : Z;
  st_price_std : float;
  st_min_price : Z;
  st_max_price : Z;
  st_total_bookings : Z;
  st_avg_bookings : Z;
  st_total_capacity : Z;
  st_avg_load_factor : float;
  st_unique_routes : Z;
  st_date_range : DateRange;
  st_price_change : string;
  st_market_health : string;
}.

(** [datetime.now()], at day resolution, as read during the call. *)
Variable now : Calendar.Timestamp.

Definition default_statistics (total_flights : Z) : Statistics :=
  {| st_total_flights := total_flights;
     st_avg_price := 485; st_median_price := 470;
     st_price_std := Fin (955 # 10);
     st_min_price := 280; st_max_price := 850;
     st_total_bookings := 15000; st_avg_bookings := 125;
     st_total_capacity := 19500;
     st_avg_load_factor := Fin (769 # 1000);
     st_unique_routes := 24;
     st_date_range := {| dr_start := strftime (now - 30);
                         dr_end := strftime now; dr_days := 30 |};
     st_price_change := "+12.3%";
     st_market_health := "Good" |}.

(** [int(x)] *)
Definition int (x : float) : outcome Z :=
  match Float.to_int x with
  | Some z => Ret z
  | None => Raise (ValueError "cannot convert float NaN to integer")
  end.

Definition median (xs : list float) : float :=
  let s := Float.sort (filter (λ x, Float.is_nan x = false) xs) in
  match s with
  | [] => NaN
  | _ =>
      let n := length s in
      if Nat.even n then
        Float.div (Float.add (nth (n / 2 - 1) s NaN) (nth (n / 2) s NaN))
                  (Float.of_Z 2)
      else nth (n / 2) s NaN
  end.

Definition series_min (xs : list float) : float :=
  match Float.sort (filter (λ x, Float.is_nan x = false) xs) with
  | x :: _ => x
  | [] => NaN
  end.

Definition series_max (xs : list float) : float :=
  List.last (Float.sort (filter (λ x, Float.is_nan x = false) xs)) NaN.

(** [data['date'].min()] and [.max()], NaT ([None]) without any date *)
Definition date_min (rs : list (gmap string cell)) : option Z :=
  match omap (date_key "date") rs with
  | d :: ds => Some (foldr Z.min d ds)
  | [] => None
  end.

Definition date_max (rs : list (gmap string cell)) : option Z :=
  match omap (date_key "date") rs with
  | d :: ds => Some (foldr Z.max d ds)
  | [] => None
  end.

Definition nat_strftime (d : option Z) : outcome string :=
  match d with
  | Some d => Ret (strftime d)
  | None => Raise (ValueError "NaTType does not support strftime")
  end.

(** The price change between the two chronological halves.  One decimal
    of the change is printed, and at a tie the last bit of the double
    decides which: here the model rounds as the processor does, the mean of
    each half (the sum, which is exact for prices that are whole numbers,
    divided by the count) and then each of the three operations. *)
Definition mean_price (rs : list (gmap string cell)) : float :=
  Float.rounded (Float.mean (nums "price" rs)).

Definition percent_change (m1 m2 : float) : float :=
  Float.rounded
    (Float.mul (Float.rounded (Float.div (Float.rounded (Float.sub m2 m1)) m1))
               (Float.of_Z 100)).

Definition price_change_of (data : DataFrame) : string :=
  if bool_decide (1 < length (rows data))%nat then
    let recent_data := sort_by_date (rows data) in
    let first_week := head (length recent_data / 2) recent_data in
    let last_week := tail (length recent_data / 2) recent_data in
    match first_week, last_week with
    | _ :: _, _ :: _ =>
        let price_change :=
          percent_change (mean_price first_week) (mean_price last_week) in
        format_plus_1f price_change +:+ "%"
    | _, _ => "0.0%"
    end
  else "0.0%".

Definition statistics_body (data : DataFrame) : outcome Statistics :=
  obind (numeric "price" data) (λ price,
  obind (int (Float.mean price)) (λ avg_price,
  obind (int (median price)) (λ median_price,
  obind (int (series_min price)) (λ min_price,
  obind (int (series_max price)) (λ max_price,
  obind (if has_column "bookings" data
         then int (Float.sum (nums "bookings" (rows data))) else Ret 0) (λ total_bookings,
  obind (if has_column "bookings" data
         then int (Float.mean (nums "bookings" (rows data))) else Ret 0) (λ avg_bookings,
  obind (if has_column "capacity" data
         then int (Float.sum (nums "capacity" (rows data))) else Ret 0) (λ total_capacity,
  let avg_load_factor :=
    if has_column "load_factor" data
    then Float.round_dec 3 (Float.mean (nums "load_factor" (rows data)))
    else Fin 0 in
  obind (unique_routes_of data) (λ unique_routes,
  obind (require ["date"]%string data) (λ _,
  obind (nat_strftime (date_min (rows data))) (λ start,
  obind (nat_strftime (date_max (rows data))) (λ end_,
  let days := default 0 (date_max (rows data)) - default 0 (date_min (rows data)) in
  Ret {| st_total_flights := Z.of_nat (length (rows data));
         st_avg_price := avg_price;
         st_median_price := median_price;
         st_price_std := Float.round_dec 2 (std price);
         st_min_price := min_price;
         st_max_price := max_price;
         st_total_bookings := total_bookings;
         st_avg_bookings := avg_bookings;
         st_total_capacity := total_capacity;
         st_avg_load_factor := avg_load_factor;
         st_unique_routes := Z.of_nat unique_routes;
         st_date_range := {| dr_start := start; dr_end := end_; dr_days := days |};
         (* Calculate price change trend *)
         st_price_change := price_change_of data;
         (* Market health indicators *)
         st_market_health := _calculate_market_health data |})))))))))))).

Definition _calculate_comprehensive_statistics (data : DataFrame) : Statistics :=
  match statistics_body data with
  | Ret s => s
  | Raise _ => default_statistics 0
  end.

(** *** [_generate_forecasts] *)

Record Forecast := mkForecast {
  pf_next_week : Z;
  pf_confidence : string;
  pf_trend : string;
  df_next_week : string;
  df_seasonal_factor : Q;
}.

Definition default_forecast : Forecast :=
  {| pf_next_week := 495; pf_confidence := "Medium"; pf_trend := "stable";
     df_next_week := "Medium"; df_seasonal_factor := 1 |}.

Definition seasonal_factors (m : Z) : option Q :=
  match m with
  | 1 => Some (12 # 10)%Q
  | 2 => Some (11 # 10)%Q
  | 3 => Some 1%Q
  | 4 => Some (9 # 10)%Q
  | 5 => Some (9 # 10)%Q
  | 6 => Some (8 # 10)%Q
  | 7 => Some (9 # 10)%Q
  | 8 => Some (9 # 10)%Q
  | 9 => Some (9 # 10)%Q
  | 10 => Some 1%Q
  | 11 => Some (11 # 10)%Q
  | 12 => Some (13 # 10)%Q
  | _ => None
  end.

(** A local variable that is read before any assignment to it. *)
Definition local {A} (name : string) (v : option A) : outcome A :=
  match v with
  | Some a => Ret a
  | None => Raise (UnboundLocalError name)
  end.

Definition forecasts_body (data : DataFrame) : outcome Forecast :=
  (* Simple moving average forecast *)
  obind (require ["date"; "price"]%string data) (λ _,
  let recent_prices := tail 7 (nums "price" (sort_by_date (rows data))) in
  let forecast_price := Float.mean recent_prices in
  (* Trend-based forecast: [trend] is assigned in this branch only *)
  let '(trend, forecast_price) :=
    if bool_decide (7 < length (rows data))%nat then
      let trend := _calculate_trend (nums "price" (sort_by_date (rows data))) in
      (Some trend, Float.add forecast_price (Float.mul trend (Float.of_Z 7)))
    else (None, forecast_price) in
  (* Seasonal adjustment *)
  let current_month := Calendar.month now in
  let factor := default 1%Q (seasonal_factors current_month) in
  let forecast_price := Float.mul forecast_price (Fin factor) in
  obind (int forecast_price) (λ next_week,
  obind (local "trend" trend) (λ trend,
  Ret {| pf_next_week := next_week;
         pf_confidence := "Medium";
         pf_trend := if Float.gtb trend (Float.of_Z 0) then "increasing"
                     else if Float.ltb trend (Float.of_Z 0) then "decreasing"
                     else "stable";
         df_next_week :=
           if bool_decide (current_month ∈ [12; 1; 6; 7]) then "High" else "Medium";
         df_seasonal_factor := factor |}))).

Definition _generate_forecasts (data : DataFrame) : Forecast :=
  match forecasts_body data with
  | Ret f => f
  | Raise _ => default_forecast
  end.

(** *** [analyze_market_trends] *)

(** The sections [price_trends], [airline_performance],
    [capacity_utilization] and [market_insights] are parameters of the
    pipeline: each of them reads the frame it is given, guards its own
    failures and returns a dictionary.  Their models follow the pipeline. *)
Variable OtherSections : Type.
Variable other_sections : DataFrame → OtherSections.
Variable default_other_sections : OtherSections.

Record Analysis := mkAnalysis {
  an_demand_patterns : DemandPatterns;
  an_popular_routes : PopularRoutes;
  an_seasonal_trends : SeasonalTrends;
  an_statistics : Statistics;
  an_forecasting : Forecast;
  an_other : OtherSections;
}.

Definition _get_default_analysis : Analysis :=
  {| an_demand_patterns :=
       {| daily_patterns :=
            {| dp_labels := day_order;
               dp_bookings := Float.of_Z <$> [650; 590; 800; 810; 1200; 1350; 1100];
               dp_avg_prices := Float.of_Z <$> [420; 410; 400; 430; 480; 520; 500] |};
          monthly_patterns := monthly_patterns default_demand_patterns;
          weekend_analysis := weekend_analysis default_demand_patterns;
          peak_periods := default_peak_periods |};
     an_popular_routes := default_popular_routes;
     an_seasonal_trends := default_seasonal_trends;
     an_statistics := default_statistics 450;
     an_forecasting := default_forecast;
     an_other := default_other_sections |}.

(** The analyzer object: [self.processed_data] *)
Record Analyzer := mkAnalyzer {
  processed_data : option ref;
}.

(** [DataFrame.empty] *)
Definition df_empty (t : DataFrame) : bool :=
  match columns t, rows t with
  | _ :: _, _ :: _ => false
  | _, _ => true
  end.

(** The nine aggregations only read the frame bound to [flight_data]; the
    model reads the object once and hands its value to each of them. *)
Definition analyze_market_trends (self : Analyzer) (flight_data : ref)
  : M (Analysis * Analyzer) :=
  try_except
    (t <- df_read flight_data ;;
     if df_empty t then ret (_get_default_analysis, self)
     else
       (* Ensure data quality *)
       flight_data <- _clean_data flight_data ;;
       (* Perform comprehensive analysis *)
       data <- df_read flight_data ;;
       let analysis :=
         {| an_demand_patterns := _analyze_demand_patterns data;
            an_popular_routes := _analyze_popular_routes data;
            an_seasonal_trends := _analyze_seasonal_trends data;
            an_statistics := _calculate_comprehensive_statistics data;
            an_forecasting := _generate_forecasts data;
            an_other := other_sections data |} in
       ret (analysis, {| processed_data := Some flight_data |}))
    (λ _, ret (_get_default_analysis, self)).

(** *** The sections that [analyze_market_trends] takes as parameters

    What follows gives the four remaining sections their models; the
    pipeline is [analyze_market_trends] at [Sections], [sections] and
    [default_sections]. *)

(** Formatting with ['.0f'] *)
Definition format_0f (x : float) : string :=
  match x with
  | NaN => "nan"
  | Float.PosInf => "inf"
  | Float.NegInf => "-inf"
  | Fin a =>
      (if Float.Qltb a 0 then "-" else EmptyString) +:+
      str_Z (Z.abs (Float.Qrint a))
  end.

(** Formatting with ['.1%'] *)
Definition format_1pct (x : float) : string :=
  match x with
  | NaN => "nan%"
  | Float.PosInf => "inf%"
  | Float.NegInf => "-inf%"
  | Fin a =>
      let t := Float.Qrint (a * 1000) in
      (if Float.Qltb a 0 then "-" else EmptyString) +:+
      str_Z (Z.abs t / 10) +:+ "." +:+ str_Z (Z.abs t mod 10) +:+ "%"
  end.

(** [abs(x)] *)
Definition fabs (x : float) : float :=
  if Float.ltb x (Float.of_Z 0) then Float.neg x else x.

(** [sort_values(by, ascending=False)] on the rows of an aggregate: missing
    values last, equal values in frame order. *)
Section SortDescending.
Context {A : Type} (by_ : A → float).

Fixpoint insert_desc_by (x : A) (l : list A) : list A :=
  match l with
  | [] => [x]
  | y :: l' =>
      if goes_before (by_ y) (by_ x) then y :: insert_desc_by x l' else x :: l
  end.

Definition sort_desc_by (l : list A) : list A := foldr insert_desc_by [] l.
End SortDescending.

(** The dates of the static daily series: the seven days before today. *)
Definition last_seven_days : list string :=
  (λ i, strftime (now - i)) <$> [7; 6; 5; 4; 3; 2; 1].

(** *** [_analyze_price_trends] *)

Record PriceTrends := mkPriceTrends {
  wt_labels : list string;
  wt_avg_prices : list float;
  wt_min_prices : list float;
  wt_max_prices : list float;
  dt_dates : list string;
  dt_prices : list float;
  ta_direction : string;
  ta_volatility : float;
  ta_trend_strength : float;
}.

Definition default_price_trends : PriceTrends :=
  {| wt_labels := ["Week 1"; "Week 2"; "Week 3"; "Week 4"]%string;
     wt_avg_prices := Float.of_Z <$> [420; 465; 485; 510];
     wt_min_prices := Float.of_Z <$> [380; 420; 440; 460];
     wt_max_prices := Float.of_Z <$> [480; 520; 540; 580];
     dt_dates := last_seven_days;
     dt_prices := Float.of_Z <$> [450; 460; 470; 480; 475; 485; 490];
     ta_direction := "increasing";
     ta_volatility := Fin (255 # 10);
     ta_trend_strength := Fin (3 # 10) |}.

Record WeekStat := mkWeekStat {
  ws_week : Q;
  ws_avg_price : float;
  ws_min_price : float;
  ws_max_price : float;
  ws_price_std : float;
}.

Definition price_trends_body (data : DataFrame) : outcome PriceTrends :=
  (* Weekly price trends *)
  obind (require ["week"; "price"]%string data) (λ _,
  let weekly_prices :=
    (λ g, let price := nums "price" (snd g) in
          {| ws_week := fst g;
             ws_avg_price := Float.round_dec 0 (Float.mean price);
             ws_min_price := Float.round_dec 0 (series_min price);
             ws_max_price := Float.round_dec 0 (series_max price);
             ws_price_std := Float.round_dec 0 (std price) |}) <$>
    groupby Float.Qltb (num_key "week") (rows data) in
  (* Daily price trends *)
  obind (require ["date"]%string data) (λ _,
  let daily_prices :=
    (λ g, (fst g, Float.mean (nums "price" (snd g)))) <$>
    groupby Z.ltb (date_key "date") (rows data) in
  (* Price trend analysis *)
  let '(price_trend, price_volatility) :=
    if bool_decide (1 < length daily_prices)%nat
    then (_calculate_trend (snd <$> daily_prices), std (snd <$> daily_prices))
    else (Float.of_Z 0, Float.of_Z 0) in
  obind (omapM (λ w, obind (int (Fin (ws_week w))) (λ z, Ret ("Week " +:+ str_Z z)))
               (head 8 weekly_prices)) (λ labels,
  Ret {| wt_labels := labels;
         wt_avg_prices := ws_avg_price <$> head 8 weekly_prices;
         wt_min_prices := ws_min_price <$> head 8 weekly_prices;
         wt_max_prices := ws_max_price <$> head 8 weekly_prices;
         dt_dates := tail 14 ((λ d, strftime (fst d)) <$> daily_prices);
         dt_prices := tail 14 ((λ d, Float.round_dec 0 (snd d)) <$> daily_prices);
         ta_direction :=
           if Float.gtb price_trend (Float.of_Z 0) then "increasing"
           else if Float.ltb price_trend (Float.of_Z 0) then "decreasing"
           else "stable";
         ta_volatility := Float.round_dec 2 price_volatility;
         ta_trend_strength := fabs price_trend |}))).

Definition _analyze_price_trends (data : DataFrame) : PriceTrends :=
  match price_trends_body data with
  | Ret p => p
  | Raise _ => default_price_trends
  end.

(** *** [_analyze_airline_performance] *)

(** A section that is either a report or [{'error': msg}]. *)
Inductive report (A : Type) :=
| NotAvailable (error : string)
| Report (a : A).
Arguments NotAvailable {A} error.
Arguments Report {A} a.

Record AirlinePerformance := mkAirlinePerformance {
  ms_labels : list string;
  ms_shares : list float;
  pm_airlines : list string;
  pm_avg_prices : list float;
  pm_load_factors : list float;
}.

Definition default_airline_performance : AirlinePerformance :=
  {| ms_labels := ["Qantas"; "Jetstar"; "Virgin Australia"; "Tigerair"]%string;
     ms_shares := Fin <$> [325 # 10; 283 # 10; 247 # 10; 145 # 10]%Q;
     pm_airlines := ["Qantas"; "Jetstar"; "Virgin Australia"; "Tigerair"]%string;
     pm_avg_prices := Float.of_Z <$> [520; 380; 450; 350];
     pm_load_factors := Fin <$> [82 # 100; 78 # 100; 75 # 100; 73 # 100]%Q |}.

Record AirlineStat := mkAirlineStat {
  as_airline : string;
  as_bookings : float;
  as_price : float;
  as_load_factor : float;
}.

(** [airline_names], with the code itself for an airline it does not
    list. *)
Definition airline_name (code : string) : string :=
  if String.eqb code "QF" then "Qantas"
  else if String.eqb code "JQ" then "Jetstar"
  else if String.eqb code "VA" then "Virgin Australia"
  else if String.eqb code "TT" then "Tigerair"
  else if String.eqb code "3K" then "Jetstar Asia"
  else if String.eqb code "SQ" then "Singapore Airlines"
  else code.

Definition share_of (total : float) (bookings : float) : float :=
  Float.round_dec 1 (Float.mul (Float.div bookings total) (Float.of_Z 100)).

Definition airline_performance_body (data : DataFrame)
  : outcome (report AirlinePerformance) :=
  if negb (has_column "airline" data) then
    Ret (NotAvailable "Airline data not available")
  else
    obind (require ["bookings"; "price"; "load_factor"]%string data) (λ _,
    let airline_stats :=
      (λ g, {| as_airline := fst g;
               as_bookings := Float.sum (nums "bookings" (snd g));
               as_price := Float.mean (nums "price" (snd g));
               as_load_factor := Float.mean (nums "load_factor" (snd g)) |}) <$>
      groupby String.ltb (str_key "airline") (rows data) in
    (* Calculate market share *)
    let total_bookings := Float.sum (as_bookings <$> airline_stats) in
    let market_share := λ s, share_of total_bookings (as_bookings s) in
    let airline_stats := sort_desc_by market_share airline_stats in
    Ret (Report
      {| ms_labels := (λ s, airline_name (as_airline s)) <$> head 6 airline_stats;
         ms_shares := market_share <$> head 6 airline_stats;
         pm_airlines := (λ s, airline_name (as_airline s)) <$> head 6 airline_stats;
         pm_avg_prices := (λ s, Float.round_dec 0 (as_price s)) <$> head 6 airline_stats;
         pm_load_factors :=
           (λ s, Float.round_dec 2 (as_load_factor s)) <$> head 6 airline_stats |})).

Definition _analyze_airline_performance (data : DataFrame)
  : report AirlinePerformance :=
  match airline_performance_body data with
  | Ret p => p
  | Raise _ => Report default_airline_performance
  end.

(** *** [_analyze_capacity_utilization] *)

Record CapacityUtilization := mkCapacityUtilization {
  overall_utilization : float;
  du_dates : list string;
  du_utilization : list float;
  ru_routes : list string;
  ru_utilization : list float;
}.

Definition default_capacity_utilization : CapacityUtilization :=
  {| overall_utilization := Fin (785 # 10);
     du_dates := last_seven_days;
     du_utilization :=
       Fin <$> [752 # 10; 785 # 10; 821 # 10; 798 # 10; 853 # 10; 887 # 10; 832 # 10]%Q;
     ru_routes := ["SYD-MEL"; "MEL-SYD"; "SYD-BNE"; "BNE-SYD"]%string;
     ru_utilization := Fin <$> [855 # 10; 832 # 10; 798 # 10; 773 # 10]%Q |}.

(** [bookings / capacity * 100], rounded to one decimal *)
Definition utilization_of (rs : list (gmap string cell)) : float :=
  Float.round_dec 1
    (Float.mul (Float.div (Float.sum (nums "bookings" rs))
                          (Float.sum (nums "capacity" rs)))
               (Float.of_Z 100)).

Definition capacity_utilization_body (data : DataFrame)
  : outcome (report CapacityUtilization) :=
  if negb (has_column "capacity" data) || negb (has_column "bookings" data) then
    Ret (NotAvailable "Capacity data not available")
  else
    (* Overall utilization *)
    let total_capacity := Float.sum (nums "capacity" (rows data)) in
    let total_bookings := Float.sum (nums "bookings" (rows data)) in
    let overall_utilization :=
      if Float.gtb total_capacity (Float.of_Z 0)
      then Float.mul (Float.div total_bookings total_capacity) (Float.of_Z 100)
      else Float.of_Z 0 in
    (* Daily utilization *)
    obind (require ["date"]%string data) (λ _,
    let daily_util :=
      (λ g, (fst g, utilization_of (snd g))) <$>
      groupby Z.ltb (date_key "date") (rows data) in
    (* Route utilization *)
    obind (require ["origin"; "destination"]%string data) (λ _,
    let route_util :=
      sort_desc_by snd
        ((λ g, (fst (fst g) +:+ "-" +:+ snd (fst g), utilization_of (snd g))) <$>
         groupby route_ltb route_key (rows data)) in
    Ret (Report
      {| overall_utilization := Float.round_dec 1 overall_utilization;
         du_dates := tail 14 ((λ d, strftime (fst d)) <$> daily_util);
         du_utilization := tail 14 (snd <$> daily_util);
         ru_routes := fst <$> head 10 route_util;
         ru_utilization := snd <$> head 10 route_util |}))).

Definition _analyze_capacity_utilization (data : DataFrame)
  : report CapacityUtilization :=
  match capacity_utilization_body data with
  | Ret c => c
  | Raise _ => Report default_capacity_utilization
  end.

(** *** [_generate_market_insights] *)

Record MarketInsight := mkMarketInsight {
  mi_type : string;
  mi_title : string;
  mi_content : string;
}.

(** The rows selected by [data[data['is_weekend']]] and by
    [data[~data['is_weekend']]]. *)
Definition flagged (b : bool) (rs : list (gmap string cell))
  : list (gmap string cell) :=
  filter (λ r, flag_key "is_weekend" r = Some b) rs.

Definition market_insights_body (data : DataFrame) : outcome (list MarketInsight) :=
  let insights := [] in
  (* Price volatility insight *)
  obind (numeric "price" data) (λ price,
  let price_std := std price in
  let insights :=
    if Float.gtb price_std (Float.of_Z 100) then
      insights ++
      [{| mi_type := "warning"; mi_title := "High Price Volatility";
          mi_content := "Price volatility is high ($" +:+ format_0f price_std +:+
                        "), indicating market uncertainty." |}]
    else insights in
  (* Load factor insight *)
  let insights :=
    if has_column "load_factor" data then
      let avg_load_factor := Float.mean (nums "load_factor" (rows data)) in
      if Float.gtb avg_load_factor (Fin (85 # 100)) then
        insights ++
        [{| mi_type := "opportunity"; mi_title := "High Demand Opportunity";
            mi_content := "Average load factor is " +:+ format_1pct avg_load_factor +:+
                          ", suggesting capacity constraints." |}]
      else insights
    else insights in
  (* Weekend pricing insight *)
  let insights :=
    if has_column "is_weekend" data then
      let weekend_premium :=
        Float.sub
          (Float.div (Float.mean (nums "price" (flagged true (rows data))))
                     (Float.mean (nums "price" (flagged false (rows data)))))
          (Float.of_Z 1) in
      if Float.gtb weekend_premium (Fin (1 # 10)) then
        insights ++
        [{| mi_type := "info"; mi_title := "Weekend Premium";
            mi_content := "Weekend flights cost " +:+ format_1pct weekend_premium +:+
                          " more than weekday flights." |}]
      else insights
    else insights in
  (* Route concentration insight *)
  obind (groupby_routes data) (λ routes,
  let route_counts := length <$> routes in
  let insights :=
    if bool_decide (0 < length route_counts)%nat then
      let top_route_share :=
        Float.div (Float.of_Z (Z.of_nat (foldr Nat.max 0%nat route_counts)))
                  (Float.of_Z (Z.of_nat (length (rows data)))) in
      if Float.gtb top_route_share (Fin (3 # 10)) then
        insights ++
        [{| mi_type := "info"; mi_title := "Route Concentration";
            mi_content := "Top route accounts for " +:+ format_1pct top_route_share +:+
                          " of all flights." |}]
      else insights
    else insights in
  Ret insights)).

Definition default_market_insights : list MarketInsight :=
  [{| mi_type := "info"; mi_title := "Market Analysis";
      mi_content := "Market data processed successfully with standard patterns observed." |}].

Definition _generate_market_insights (data : DataFrame) : list MarketInsight :=
  match market_insights_body data with
  | Ret insights => insights
  | Raise _ => default_market_insights
  end.

(** *** The four sections together *)

Record Sections := mkSections {
  price_trends : PriceTrends;
  airline_performance : report AirlinePerformance;
  capacity_utilization : report CapacityUtilization;
  market_insights : list MarketInsight;
}.

Definition sections (data : DataFrame) : Sections :=
  {| price_trends := _analyze_price_trends data;
     airline_performance := _analyze_airline_performance data;
     capacity_utilization := _analyze_capacity_utilization data;
     market_insights := _generate_market_insights data |}.

(** Their part of [_get_default_analysis] *)
Definition default_sections : Sections :=
  {| price_trends :=
       {| wt_labels := ["Week 1"; "Week 2"; "Week 3"; "Week 4"; "Week 5"; "Week 6"]%string;
          wt_avg_prices := Float.of_Z <$> [420; 465; 485; 510; 495; 485];
          wt_min_prices := Float.of_Z <$> [380; 420; 440; 460; 450; 440];
          wt_max_prices := Float.of_Z <$> [480; 520; 540; 580; 560; 540];
          dt_dates := last_seven_days;
          dt_prices := Float.of_Z <$> [450; 460; 470; 480; 475; 485; 490];
          ta_direction := "increasing";
          ta_volatility := Fin (255 # 10);
          ta_trend_strength := Fin (3 # 10) |};
     airline_performance := Report default_airline_performance;
     capacity_utilization := Report default_capacity_utilization;
     market_insights :=
       [{| mi_type := "info"; mi_title := "Market Stability";
           mi_content := "Market shows stable pricing patterns with normal seasonal variations." |};
        {| mi_type := "opportunity"; mi_title := "Weekend Premium";
           mi_content := "Weekend flights show 15% premium pricing opportunity." |}] |}.

End Analyzer.

Arguments an_demand_patterns {OtherSections} _.
Arguments an_popular_routes {OtherSections} _.
Arguments an_seasonal_trends {OtherSections} _.
Arguments an_statistics {OtherSections} _.
Arguments an_forecasting {OtherSections} _.
Arguments an_other {OtherSections} _.
Arguments NotAvailable {A} error.
Arguments Report {A} a.

End MarketAnalyzer.


(** * Python strings

    The methods of [str] that the insight generator applies to the text of
    a reply and to the content of an insight.  A [str] is modelled by the
    sequence of its characters, kept to the code points below 256. *)

Module Text.

(** [c.isspace()] *)
Definition isspace (c : ascii) : bool :=
  let n := nat_of_ascii c in
  ((9 <=? n) && (n <=? 13) || (28 <=? n) && (n <=? 32) || (n =? 133) || (n =? 160))%nat.

Fixpoint lstrip (s : string) : string :=
  match s with
  | String c s' => if isspace c then lstrip s' else s
  | EmptyString => EmptyString
  end.

Fixpoint rstrip (s : string) : string :=
  match s with
  | EmptyString => EmptyString
  | String c s' =>
      match rstrip s' with
      | EmptyString => if isspace c then EmptyString else String c EmptyString
      | t => String c t
      end
  end.

(** [s.strip()] *)
Definition strip (s : string) : string := rstrip (lstrip s).

(** [s.split(sep)] for a one-character [sep] *)
Fixpoint split (sep : ascii) (s : string) : list string :=
  match s with
  | EmptyString => [EmptyString]
  | String c s' =>
      if Ascii.eqb c sep then EmptyString :: split sep s'
      else match split sep s' with
           | cur :: rest => String c cur :: rest
           | [] => [String c EmptyString]
           end
  end.

(** [s.split(sep, 1)]: the text before and after the first [sep], [None]
    when [s] has no [sep] (the result is then the one-element list
    [[s]]). *)
Fixpoint split1 (sep : ascii) (s : string) : option (string * string) :=
  match s with
  | EmptyString => None
  | String c s' =>
      if Ascii.eqb c sep then Some (EmptyString, s')
      else match split1 sep s' with
           | Some (a, b) => Some (String c a, b)
           | None => None
           end
  end.

(** [s.startswith(p)] and [s.endswith(p)] *)
Definition startswith (p s : string) : bool := String.prefix p s.

Definition endswith (p s : string) : bool :=
  (String.length p <=? String.length s)%nat &&
  String.eqb (String.substring (String.length s - String.length p) (String.length p) s) p.

(** [s.replace(old, '')] for a non-empty [old]: the occurrences of [old]
    are removed from the left, [skip] counts the characters of an occurrence
    that are still to be dropped. *)
Fixpoint remove_from (old : string) (skip : nat) (s : string) : string :=
  match s with
  | EmptyString => EmptyString
  | String c s' =>
      match skip with
      | S k => remove_from old k s'
      | O =>
          if String.prefix old s then remove_from old (String.length old - 1) s'
          else String c (remove_from old O s')
      end
  end.

Definition remove (old s : string) : string := remove_from old 0 s.

(** [s.lower()] *)
Definition lower_char (c : ascii) : ascii :=
  let n := nat_of_ascii c in
  if ((65 <=? n) && (n <=? 90) || (192 <=? n) && (n <=? 222) && negb (n =? 215))%nat
  then ascii_of_nat (n + 32) else c.

Fixpoint lower (s : string) : string :=
  match s with
  | EmptyString => EmptyString
  | String c s' => String (lower_char c) (lower s')
  end.

(** [needle in s] *)
Fixpoint contains (needle s : string) : bool :=
  String.prefix needle s ||
  match s with
  | EmptyString => false
  | String _ s' => contains needle s'
  end.

End Text.

(** * api_integration.py: class InsightsGenerator *)

Module InsightsGenerator.

(** ** Python values of the analysis dictionary *)

#[warnings="-register-all"]
Inductive value :=
| VNone
| VBool (b : bool)
| VInt (z : Z)
| VFloat (x : float)
| VStr (s : string)
| VList (l : list value)
| VDict (d : gmap string value).

Record Insight := mkInsight {
  title : string;
  content : string;
}.

(** What the generator does besides returning: log records, HTTP requests
    and pauses, in the order they happen. *)
Inductive event :=
| LogInfo (msg : string)
| LogWarning (msg : string)
| LogError (msg : string)
| HttpPost (attempt : nat)
| Sleep (seconds : Z).

(** Truth value of an object ([bool(v)]) *)
Definition truthy (v : value) : bool :=
  match v with
  | VNone => false
  | VBool b => b
  | VInt z => negb (z =? 0)
  | VFloat x =>
      match x with Fin q => negb (Qeq_bool q 0) | _ => true end
  | VStr s => negb (String.eqb s EmptyString)
  | VList l => match l with [] => false | _ => true end
  | VDict d => negb (bool_decide (dom d = ∅))
  end.

Definition is_dict (v : value) : bool :=
  match v with VDict _ => true | _ => false end.

(** [v.get(key, default)]: only a dictionary has the method. *)
Definition get (v : value) (key : string) (dflt : value) : outcome value :=
  match v with
  | VDict d => Ret (default dflt (d !! key))
  | _ => Raise (AttributeError "object has no attribute 'get'")
  end.

(** [v[key]] on a dictionary *)
Definition getitem (v : value) (key : string) : outcome value :=
  match v with
  | VDict d =>
      match d !! key with
      | Some x => Ret x
      | None => Raise (KeyError key)
      end
  | _ => Raise (TypeError "object is not subscriptable")
  end.

(** The number an object stands for in a comparison or in arithmetic;
    TypeError for an object that is not a number. *)
Definition number (v : value) : outcome float :=
  match v with
  | VInt z => Ret (Float.of_Z z)
  | VFloat x => Ret x
  | VBool b => Ret (Float.of_Z (if b then 1 else 0))
  | _ => Raise (TypeError "not supported between instances")
  end.

(** [v > n] *)
Definition gt (v : value) (n : Z) : outcome bool :=
  obind (number v) (λ x, Ret (Float.gtb x (Float.of_Z n))).

(** [v < n] *)
Definition lt (v : value) (n : Z) : outcome bool :=
  obind (number v) (λ x, Ret (Float.ltb x (Float.of_Z n))).

(** Arithmetic.  Python keeps integers exact; an operation with a double
    converts the integer operand, and a true division of integers gives the
    double nearest to the quotient.  Where that double would be beyond the
    largest one, which is from [huge] on, Python raises OverflowError, while
    an operation on doubles gives an infinity. *)
Definition huge : Z := 2 ^ 1024 - 2 ^ 970.

Definition integer (v : value) : option Z :=
  match v with
  | VInt z => Some z
  | VBool b => Some (if b then 1 else 0)
  | _ => None
  end.

Definition to_float (v : value) : outcome float :=
  match v with
  | VFloat x => Ret x
  | _ =>
      match integer v with
      | Some z =>
          if huge <=? Z.abs z
          then Raise (OverflowError "int too large to convert to float")
          else Ret (Float.round64 (inject_Z z))
      | None => Raise (TypeError "unsupported operand type(s)")
      end
  end.

(** [a - b] *)
Definition py_sub (a b : value) : outcome value :=
  match integer a, integer b with
  | Some x, Some y => Ret (VInt (x - y))
  | _, _ =>
      obind (to_float a) (λ x,
      obind (to_float b) (λ y, Ret (VFloat (Float.rounded (Float.sub x y)))))
  end.

(** [a * b] *)
Definition py_mul (a b : value) : outcome value :=
  match integer a, integer b with
  | Some x, Some y => Ret (VInt (x * y))
  | _, _ =>
      obind (to_float a) (λ x,
      obind (to_float b) (λ y, Ret (VFloat (Float.rounded (Float.mul x y)))))
  end.

Definition is_zero (x : float) : bool :=
  match x with Fin q => Qeq_bool q 0 | _ => false end.

(** [a / b] *)
Definition py_truediv (a b : value) : outcome value :=
  match integer a, integer b with
  | Some x, Some y =>
      if y =? 0 then Raise (ZeroDivisionError "division by zero")
      else if huge * Z.abs y <=? Z.abs x
      then Raise (OverflowError "integer division result too large for a float")
      else Ret (VFloat (Float.round64 (inject_Z x / inject_Z y)))
  | _, _ =>
      obind (to_float a) (λ x,
      obind (to_float b) (λ y,
      if is_zero y then Raise (ZeroDivisionError "float division by zero")
      else Ret (VFloat (Float.rounded (Float.div x y)))))
  end.

(** [max(v)] and [min(v)] of a list of numbers: the first extreme element.
    The model raises TypeError on every other argument (Python accepts some
    of them, such as a list of strings). *)
Fixpoint extreme (better : float → float → bool) (best : value * float)
    (l : list value) : outcome value :=
  match l with
  | [] => Ret (fst best)
  | v :: l' =>
      obind (number v) (λ x,
      if better x (snd best) then extreme better (v, x) l'
      else extreme better best l')
  end.

Definition extreme_of (better : float → float → bool) (v : value)
  : outcome value :=
  match v with
  | VList (v0 :: l) => obind (number v0) (λ x, extreme better (v0, x) l)
  | VList [] => Raise (ValueError "arg is an empty sequence")
  | _ => Raise (TypeError "object is not iterable")
  end.

Definition py_max : value → outcome value := extreme_of Float.gtb.
Definition py_min : value → outcome value := extreme_of Float.ltb.

Section Generator.

(** Python's [repr] of a float, a list or a dictionary is an input of the
    model. *)
Variable py_repr : value → string.

(** [str(v)] *)
Definition str (v : value) : string :=
  match v with
  | VNone => "None"
  | VBool b => if b then "True" else "False"
  | VInt z => MarketAnalyzer.str_Z z
  | VStr s => s
  | _ => py_repr v
  end.

(** [c in s] for a one-character [c] *)
Fixpoint contains (c : ascii) (s : string) : bool :=
  match s with
  | EmptyString => false
  | String a s' => Ascii.eqb a c || contains c s'
  end.

(** Formatting with ['.0f'] *)
Definition format_0f (x : float) : string :=
  match x with
  | NaN => "nan"
  | Float.PosInf => "inf"
  | Float.NegInf => "-inf"
  | Fin a =>
      (if Float.Qltb a 0 then "-" else EmptyString) +:+
      MarketAnalyzer.str_Z (Z.abs (Float.Qrint a))
  end.

(** ** The generator object *)

Record Generator := mkGenerator {
  openai_api_key : option string;
  max_retries : nat;
  timeout : Z;
}.

(** [__init__]: the argument, or else the environment variable
    [OPENAI_API_KEY]. *)
Definition init (key : option string) (env : option string) : Generator :=
  {| openai_api_key :=
       match key with
       | Some k => if String.eqb k EmptyString then env else Some k
       | None => env
       end;
     max_retries := 3;
     timeout := 30 |}.

(** [_is_openai_configured] *)
Definition _is_openai_configured (self : Generator) : bool :=
  match openai_api_key self with
  | Some k =>
      negb (String.eqb k EmptyString) &&
      negb (String.eqb k "YOUR_OPENAI_API_KEY") &&
      bool_decide (20 < String.length k)%nat
  | None => false
  end.

(** ** Effects: a trace of events next to the outcome *)

Definition T (A : Type) : Type := list event * outcome A.

Definition tret {A} (a : A) : T A := ([], Ret a).
Definition tbind {A B} (m : T A) (k : A → T B) : T B :=
  match m with
  | (ev, Ret a) => let '(ev', o) := k a in (ev ++ ev', o)
  | (ev, Raise e) => (ev, Raise e)
  end.
Definition emit (e : event) : T unit := ([e], Ret tt).
Definition emits (evs : list event) : T unit := (evs, Ret tt).
Definition tlift {A} (o : outcome A) : T A := ([], o).
Definition ttry {A} (body : T A) (handler : exn → T A) : T A :=
  match body with
  | (ev, Ret a) => (ev, Ret a)
  | (ev, Raise e) => let '(ev', o) := handler e in (ev ++ ev', o)
  end.

(** ** The remote tier *)

(** The reply to a request: a status code with what the JSON body yields at
    [['choices'][0]['message']['content']], or a transport failure. *)
Inductive json_body :=
| BadJson
| NoContent
| Content (text : string).

Inductive response :=
| Status (code : Z) (body : json_body)
| RequestException.

(** The network is an input of the model: the reply to the request of each
    attempt. *)
Variable post : nat → response.

(** [_parse_ai_insights], the scanner of the reply text, is a parameter of
    the tiers: their control flow does not depend on what it returns.  Its
    model follows the generator. *)
Variable _parse_ai_insights : string → list Insight.

(** [_create_analysis_prompt]: only its failures matter to the control
    flow; the prompt is built from [get] calls on three sections. *)
Definition _create_analysis_prompt (data : value) : outcome unit :=
  obind (get data "statistics" (VDict ∅)) (λ stats,
  obind (get data "price_trends" (VDict ∅)) (λ price_trends,
  obind (get data "demand_patterns" (VDict ∅)) (λ demand_patterns,
  obind (get stats "avg_price" (VStr "N/A")) (λ _,
  obind (get stats "price_change" (VStr "N/A")) (λ _,
  obind (get stats "demand_score" (VStr "N/A")) (λ _,
  obind (get stats "total_routes" (VStr "N/A")) (λ _,
  obind (get price_trends "prices" (VList [])) (λ _,
  obind (get demand_patterns "bookings" (VList [])) (λ _,
  Ret tt))))))))).

Definition backoff (self : Generator) (attempt : nat) : list event :=
  if bool_decide (attempt < max_retries self - 1)%nat
  then [Sleep (2 ^ Z.of_nat attempt)] else [].

(** The retry loop [for attempt in range(self.max_retries)], with [left]
    attempts to go.  A reply whose body is not JSON raises inside the inner
    [try] (requests' JSONDecodeError is a RequestException); a body without
    the expected keys raises KeyError, which leaves the loop. *)
Fixpoint request_loop (self : Generator) (left attempt : nat)
  : T (option (list Insight)) :=
  match left with
  | O => tret None
  | S left' =>
      tbind (emit (HttpPost attempt)) (λ _,
      match post attempt with
      | Status 200 (Content text) => tret (Some (_parse_ai_insights text))
      | Status 200 NoContent => tlift (Raise (KeyError "choices"))
      | Status 429 _ =>
          tbind (emits (LogWarning "Rate limit hit" :: backoff self attempt))
                (λ _, request_loop self left' (S attempt))
      | Status 200 BadJson | RequestException =>
          tbind (emits (LogError "Request error" :: backoff self attempt))
                (λ _, request_loop self left' (S attempt))
      | Status _ _ => tbind (emit (LogError "OpenAI API error")) (λ _, tret None)
      end)
  end.

(** [_generate_ai_insights] *)
Definition _generate_ai_insights (self : Generator) (data : value)
  : T (option (list Insight)) :=
  ttry
    (tbind (tlift (_create_analysis_prompt data)) (λ _,
     request_loop self (max_retries self) 0))
    (λ _, tbind (emit (LogError "AI insights error")) (λ _, tret None)).

(** ** The rule-based tier *)

Definition price_insight (price_change avg_price : value) : Insight :=
  if contains "+" (str price_change) then
    {| title := "Price Trend Analysis";
       content := "Market prices have increased by " +:+ str price_change +:+
         ", indicating strong demand conditions. The current average price of $" +:+
         str avg_price +:+
         " suggests premium market positioning opportunities. Airlines should consider dynamic pricing strategies to maximize revenue during peak demand periods." |}
  else
    {| title := "Price Trend Analysis";
       content := "Market prices have decreased by " +:+ str price_change +:+
         ", indicating potential oversupply or competitive pressure. The current average price of $" +:+
         str avg_price +:+
         " suggests opportunities for market share growth through competitive pricing and value-added services." |}.

Definition demand_insight (demand_score : value) : outcome Insight :=
  obind (gt demand_score 75) (λ exceptional,
  if exceptional then
    Ret {| title := "Demand Assessment";
           content := "Exceptional demand score of " +:+ str demand_score +:+
             "% indicates a seller's market with high passenger interest. This presents opportunities for capacity expansion, premium service offerings, and strategic route development. Consider increasing frequency on high-demand routes." |}
  else
    obind (gt demand_score 50) (λ moderate,
    if moderate then
      Ret {| title := "Demand Assessment";
             content := "Moderate demand score of " +:+ str demand_score +:+
               "% suggests balanced market conditions. Focus on operational efficiency, service quality improvements, and competitive positioning. Monitor competitor activities and adjust strategies accordingly." |}
    else
      Ret {| title := "Demand Assessment";
             content := "Lower demand score of " +:+ str demand_score +:+
               "% indicates market challenges requiring strategic intervention. Consider promotional campaigns, route optimization, partnership opportunities, or service differentiation to stimulate demand." |})).

Definition route_insight (total_routes popular_routes : value)
  : outcome Insight :=
  obind (get popular_routes "bookings" VNone) (λ bookings,
  if truthy bookings then
    obind (getitem popular_routes "bookings") (λ bookings,
    obind (if truthy bookings then py_max bookings else Ret (VInt 0))
    (λ top_route_bookings,
    Ret {| title := "Route Network Optimization";
           content := "Network analysis of " +:+ str total_routes +:+
             " routes reveals concentrated demand patterns. Top routes generate " +:+
             str top_route_bookings +:+
             " bookings, indicating hub-and-spoke opportunities. Consider capacity reallocation from underperforming routes to high-demand corridors for improved efficiency." |}))
  else
    Ret {| title := "Route Network Analysis";
           content := "Current network spans " +:+ str total_routes +:+
             " routes with varying performance levels. Route optimization opportunities exist through data-driven capacity allocation and strategic partnerships on secondary routes." |}).

Definition seasonal_insight (seasonal_data : value) : outcome Insight :=
  obind (get seasonal_data "demand" VNone) (λ demand,
  if truthy demand then
    obind (getitem seasonal_data "demand") (λ demand,
    obind (if truthy demand then py_max demand else Ret (VInt 0)) (λ peak_demand,
    obind (if truthy demand then py_min demand else Ret (VInt 0)) (λ low_demand,
    obind (gt low_demand 0) (λ positive,
    obind (if positive
           then obind (py_sub peak_demand low_demand) (λ difference,
                obind (py_truediv difference low_demand) (λ ratio,
                py_mul ratio (VInt 100)))
           else Ret (VInt 0)) (λ seasonality,
    obind (to_float seasonality) (λ variation,
    Ret {| title := "Seasonal Strategy & Growth";
           content := "Seasonal demand variation of " +:+ format_0f variation +:+
             "% presents revenue management opportunities. Peak periods show " +:+
             str peak_demand +:+ " bookings vs " +:+ str low_demand +:+
             " in low season. Implement dynamic pricing, advance booking incentives, and targeted marketing campaigns to optimize year-round performance." |}))))))
  else
    Ret {| title := "Strategic Growth Opportunities";
           content := "Market analysis reveals opportunities in dynamic pricing implementation, capacity optimization, and strategic route development. Focus on data-driven decision making and customer experience enhancement to drive sustainable growth." |}).

(** [_generate_rule_based_insights]: the four insights are appended in this
    order. *)
Definition _generate_rule_based_insights (data : value)
  : outcome (list Insight) :=
  let insights := [] in
  obind (get data "statistics" (VDict ∅)) (λ stats,
  (* Price trend insight *)
  obind (get stats "avg_price" (VInt 400)) (λ avg_price,
  obind (get stats "price_change" (VStr "+0%")) (λ price_change,
  let insights := insights ++ [price_insight price_change avg_price] in
  (* Demand pattern insight *)
  obind (get stats "demand_score" (VInt 50)) (λ demand_score,
  obind (demand_insight demand_score) (λ i2,
  let insights := insights ++ [i2] in
  (* Route network analysis *)
  obind (get stats "total_routes" (VInt 20)) (λ total_routes,
  obind (get data "popular_routes" (VDict ∅)) (λ popular_routes,
  obind (route_insight total_routes popular_routes) (λ i3,
  let insights := insights ++ [i3] in
  (* Seasonal and strategic opportunities *)
  obind (get data "seasonal_trends" (VDict ∅)) (λ seasonal_data,
  obind (seasonal_insight seasonal_data) (λ i4,
  let insights := insights ++ [i4] in
  Ret insights)))))))))).

(** ** The static tier *)

(** [datetime.now().month], as read during the call *)
Variable current_month : Z.

Definition seasonal_msg : string :=
  if bool_decide (current_month ∈ [12; 1; 2]) then
    "Winter travel patterns show increased demand for warm destinations and holiday travel."
  else if bool_decide (current_month ∈ [6; 7; 8]) then
    "Summer peak season presents opportunities for leisure route optimization and capacity expansion."
  else if bool_decide (current_month ∈ [3; 4; 5]) then
    "Spring travel uptick indicates recovery in business travel and leisure bookings."
  else
    "Fall shoulder season provides opportunities for competitive pricing and route testing.".

(** [_generate_fallback_insights] *)
Definition _generate_fallback_insights : list Insight :=
  [ {| title := "Market Dynamics Overview";
       content := "Current airline market shows typical seasonal patterns with evolving demand structures. " +:+
         seasonal_msg +:+
         " Airlines should focus on flexible capacity management and dynamic pricing strategies to optimize revenue across different market segments." |};
    {| title := "Revenue Optimization Strategy";
       content := "Implement advanced revenue management systems with dynamic pricing capabilities. Focus on demand forecasting, competitor analysis, and customer segmentation to maximize yield. Consider ancillary revenue opportunities and premium service offerings to improve unit economics." |};
    {| title := "Network Planning Insights";
       content := "Route performance analysis reveals opportunities for network optimization. High-traffic corridors between major cities show consistent demand, while secondary routes may benefit from strategic partnerships, frequency adjustments, or seasonal scheduling modifications." |};
    {| title := "Digital Transformation Opportunities";
       content := "Modern travelers expect seamless digital experiences and personalized services. Invest in mobile-first booking platforms, AI-powered customer service, and data analytics capabilities to enhance customer satisfaction and operational efficiency while reducing distribution costs." |} ].

(** ** [generate_insights] *)

Definition generate_insights (self : Generator) (market_analysis : value)
  : T (list Insight) :=
  ttry
    ((* Validate input data *)
     if negb (truthy market_analysis) || negb (is_dict market_analysis) then
       tbind (emit (LogWarning "Invalid market analysis data, using fallback insights"))
             (λ _, tret _generate_fallback_insights)
     else
       (* Try OpenAI API for real insights *)
       tbind (if _is_openai_configured self
              then _generate_ai_insights self market_analysis
              else tret None) (λ ai_insights,
       match ai_insights with
       | Some (i :: l) =>
           tbind (emit (LogInfo "Generated AI-powered insights successfully"))
                 (λ _, tret (i :: l))
       | _ =>
           (* Fallback to rule-based insights *)
           tbind (emit (LogInfo "Using rule-based insights generation")) (λ _,
           tlift (_generate_rule_based_insights market_analysis))
       end))
    (λ _, tbind (emit (LogError "Insights generation error"))
                (λ _, tret _generate_fallback_insights)).

(** ** [get_market_sentiment] *)

Inductive price_trend := Positive | Negative | Stable.

Definition price_trend_of (price_change : value) : price_trend :=
  if contains "+" (str price_change) then Positive
  else if contains "-" (str price_change) then Negative
  else Stable.

Definition is_trend (a b : price_trend) : bool :=
  match a, b with
  | Positive, Positive | Negative, Negative | Stable, Stable => true
  | _, _ => false
  end.

Definition sentiment_body (data : value) : outcome string :=
  obind (get data "statistics" (VDict ∅)) (λ stats,
  obind (get stats "demand_score" (VInt 50)) (λ demand_score,
  obind (get stats "price_change" (VStr "+0%")) (λ price_change,
  (* Extract numeric value from price change *)
  let price_trend := price_trend_of price_change in
  (* Determine sentiment *)
  obind (gt demand_score 70) (λ c1,
  if c1 && is_trend price_trend Positive then
    Ret "Bullish - Strong demand with rising prices"%string
  else
    obind (gt demand_score 60) (λ c2,
    if c2 && is_trend price_trend Stable then
      Ret "Optimistic - Stable demand with controlled pricing"%string
    else
      obind (lt demand_score 40) (λ c3,
      if c3 && is_trend price_trend Negative then
        Ret "Bearish - Weak demand with falling prices"%string
      else
        obind (lt demand_score 50) (λ c4,
        if c4 then Ret "Cautious - Below-average demand conditions"%string
        else Ret "Neutral - Balanced market conditions"%string))))))).

Definition get_market_sentiment (data : value) : string :=
  match sentiment_body data with
  | Ret s => s
  | Raise _ => "Neutral - Market analysis in progress"
  end.

End Generator.

(** ** [_parse_ai_insights] *)

(** [if current_insight['title']: insights.append(current_insight)] *)
Definition push (insights : list Insight) (current_insight : Insight)
  : list Insight :=
  if String.eqb (title current_insight) EmptyString then insights
  else insights ++ [current_insight].

(** [any(line.startswith(f'{i}.') for i in range(1, 10))] *)
Definition numbered (line : string) : bool :=
  existsb (λ i, Text.startswith (MarketAnalyzer.str_Z i +:+ ".") line)
          [1; 2; 3; 4; 5; 6; 7; 8; 9].

(** One turn of the loop over the lines, on the list of insights and the
    insight that is being read.  A dictionary is appended to the list only
    when the next title is found, and [current_insight] is bound to a new
    dictionary at once, so that the content that is added later goes to a
    dictionary that the list does not hold yet.  A numbered line has a
    point: its split has two parts. *)
Definition parse_line (state : list Insight * Insight) (line : string)
  : list Insight * Insight :=
  let '(insights, current_insight) := state in
  let line := Text.strip line in
  (* Check for insight titles (marked with ** or numbered) *)
  if Text.startswith "**" line && Text.endswith "**" line then
    (push insights current_insight,
     {| title := Text.strip (Text.remove "**" line); content := EmptyString |})
  else if negb (String.eqb line EmptyString) && numbered line then
    let insights := push insights current_insight in
    match Text.split1 "." line with
    | Some (_, rest) =>
        (insights, {| title := Text.strip rest; content := EmptyString |})
    | None => (insights, current_insight)
    end
  else if negb (String.eqb line EmptyString) &&
          negb (String.eqb (title current_insight) EmptyString) then
    (insights,
     {| title := title current_insight;
        content := content current_insight +:+ line +:+ " " |})
  else state.

Definition _parse_ai_insights (text : string) : list Insight :=
  let lines := Text.split "010" text in
  let '(insights, current_insight) :=
    foldl parse_line ([], {| title := EmptyString; content := EmptyString |}) lines in
  (* Add the last insight *)
  let insights := push insights current_insight in
  (* Clean up content *)
  let insights :=
    (λ insight, {| title := title insight;
                   content := Text.strip (content insight) |}) <$> insights in
  take 4 insights.

(** ** [generate_recommendations] *)

(** An insight as the dictionary that the generator returns. *)
Definition insight_dict (insight : Insight) : value :=
  VDict {[ "title"%string := VStr (title insight);
           "content"%string := VStr (content insight) ]}.

(** [v.lower()]: only a string has the method. *)
Definition lower (v : value) : outcome string :=
  match v with
  | VStr s => Ret (Text.lower s)
  | _ => Raise (AttributeError "object has no attribute 'lower'")
  end.

(** The themes that one insight adds to the list. *)
Definition themes_of (content : string) : list string :=
  (if Text.contains "price" content || Text.contains "pricing" content
   then ["pricing"%string] else []) ++
  (if Text.contains "demand" content then ["demand"%string] else []) ++
  (if Text.contains "route" content || Text.contains "network" content
   then ["network"%string] else []) ++
  (if Text.contains "seasonal" content then ["seasonal"%string] else []).

Definition general_recommendations : list string :=
  ["Monitor competitor pricing and adjust strategies accordingly";
   "Invest in customer experience improvements to drive loyalty and premium pricing";
   "Leverage data analytics for better demand forecasting and inventory management"]%string.

Definition generate_recommendations (insights : list value)
  : outcome (list string) :=
  (* Extract key themes from insights *)
  obind (omapM (λ insight,
           obind (get insight "content" (VStr EmptyString)) (λ c,
           obind (lower c) (λ content, Ret (themes_of content))))
         insights) (λ found,
  let themes := concat found in
  (* Generate recommendations based on themes *)
  let recommendations :=
    (if bool_decide ("pricing"%string ∈ themes)
     then ["Implement dynamic pricing algorithms to optimize revenue based on demand patterns"%string]
     else []) ++
    (if bool_decide ("demand"%string ∈ themes)
     then ["Develop targeted marketing campaigns for underperforming routes and time periods"%string]
     else []) ++
    (if bool_decide ("network"%string ∈ themes)
     then ["Conduct comprehensive route profitability analysis and consider network optimization"%string]
     else []) ++
    (if bool_decide ("seasonal"%string ∈ themes)
     then ["Create seasonal capacity plans and advance booking incentive programs"%string]
     else []) ++
    (* Add general recommendations *)
    general_recommendations in
  Ret (take 5 recommendations)).

End InsightsGenerator.

(** * main.py: from the analysis to the insights

    [get_market_data] hands the dictionary that [analyze_market_trends]
    returns to [generate_insights].  The analyzer of this development
    returns records; the dictionaries are written here, section by section,
    with the keys of the dictionary displays of data_processor.py.  A
    number that the analyzer leaves as a float, a numpy scalar or an item of
    [tolist()] stands as a float; a number that it passes through [int] or
    [len] stands as an integer. *)

Module App.

Import MarketAnalyzer InsightsGenerator.

Definition dict (items : list (string * value)) : value :=
  VDict (list_to_map items).

Definition strings (l : list string) : value := VList (VStr <$> l).
Definition floats (l : list float) : value := VList (VFloat <$> l).

(** The dictionary of [_analyze_price_trends] *)
Definition price_trends_dict (p : PriceTrends) : value :=
  dict [("weekly_trends",
         dict [("labels", strings (wt_labels p));
               ("avg_prices", floats (wt_avg_prices p));
               ("min_prices", floats (wt_min_prices p));
               ("max_prices", floats (wt_max_prices p))]);
        ("daily_trends",
         dict [("dates", strings (dt_dates p));
               ("prices", floats (dt_prices p))]);
        ("trend_analysis",
         dict [("direction", VStr (ta_direction p));
               ("volatility", VFloat (ta_volatility p));
               ("trend_strength", VFloat (ta_trend_strength p))])]%string.

(** The dictionary of [_analyze_peak_periods]: the keys of the branch that
    returned. *)
Definition peak_periods_dict (p : PeakPeriods) : value :=
  dict (omap (λ item : string * option string,
                (λ s, (fst item, VStr s)) <$> snd item)
          [("peak_hour", peak_hour p);
           ("off_peak_hour", off_peak_hour p);
           ("peak_day", peak_day p);
           ("high_demand", high_demand p);
           ("low_demand", low_demand p)]%string).

(** The dictionary of [_analyze_demand_patterns] *)
Definition demand_patterns_dict (d : DemandPatterns) : value :=
  dict [("daily_patterns",
         dict [("labels", strings (dp_labels (daily_patterns d)));
               ("bookings", floats (dp_bookings (daily_patterns d)));
               ("avg_prices", floats (dp_avg_prices (daily_patterns d)))]);
        ("monthly_patterns",
         dict [("labels", strings (mp_labels (monthly_patterns d)));
               ("bookings", floats (mp_bookings (monthly_patterns d)));
               ("avg_prices", floats (mp_avg_prices (monthly_patterns d)))]);
        ("weekend_analysis",
         dict [("weekday_bookings", VFloat (weekday_bookings (weekend_analysis d)));
               ("weekend_bookings", VFloat (weekend_bookings (weekend_analysis d)));
               ("weekday_price", VFloat (weekday_price (weekend_analysis d)));
               ("weekend_price", VFloat (weekend_price (weekend_analysis d)))]);
        ("peak_periods", peak_periods_dict (peak_periods d))]%string.

(** The dictionary of [_analyze_popular_routes] *)
Definition popular_routes_dict (p : PopularRoutes) : value :=
  dict [("top_routes",
         dict [("labels", strings (tr_labels p));
               ("bookings", floats (tr_bookings p));
               ("avg_prices", floats (tr_avg_prices p));
               ("market_share", floats (tr_market_share p))]);
        ("route_analysis",
         dict [("total_routes", VInt (Z.of_nat (ra_total_routes p)));
               ("top_route", VStr (ra_top_route p));
               ("avg_load_factor", VFloat (ra_avg_load_factor p))])]%string.

(** The dictionary of [_analyze_seasonal_trends] *)
Definition seasonal_trends_dict (s : SeasonalTrends) : value :=
  dict [("monthly_trends",
         dict [("labels", strings (mt_labels (monthly_trends s)));
               ("bookings", floats (mt_bookings (monthly_trends s)));
               ("prices", floats (mt_prices (monthly_trends s)))]);
        ("seasonal_analysis",
         dict [("peak_season", VStr (peak_season (seasonal_analysis s)));
               ("low_season", VStr (low_season (seasonal_analysis s)));
               ("price_variation", VFloat (price_variation (seasonal_analysis s)))])]%string.

(** The dictionary of a section that may report that its columns are
    missing *)
Definition report_dict {A} (as_dict : A → value) (r : report A) : value :=
  match r with
  | NotAvailable error => dict [("error"%string, VStr error)]
  | Report a => as_dict a
  end.

(** The dictionary of [_analyze_airline_performance] *)
Definition airline_performance_dict (a : AirlinePerformance) : value :=
  dict [("market_share",
         dict [("labels", strings (ms_labels a));
               ("shares", floats (ms_shares a))]);
        ("performance_metrics",
         dict [("airlines", strings (pm_airlines a));
               ("avg_prices", floats (pm_avg_prices a));
               ("load_factors", floats (pm_load_factors a))])]%string.

(** The dictionary of [_analyze_capacity_utilization] *)
Definition capacity_utilization_dict (c : CapacityUtilization) : value :=
  dict [("overall_utilization", VFloat (overall_utilization c));
        ("daily_utilization",
         dict [("dates", strings (du_dates c));
               ("utilization", floats (du_utilization c))]);
        ("route_utilization",
         dict [("routes", strings (ru_routes c));
               ("utilization", floats (ru_utilization c))])]%string.

(** The dictionary of [_calculate_comprehensive_statistics] *)
Definition statistics_dict (s : Statistics) : value :=
  dict [("total_flights", VInt (st_total_flights s));
        ("avg_price", VInt (st_avg_price s));
        ("median_price", VInt (st_median_price s));
        ("price_std", VFloat (st_price_std s));
        ("min_price", VInt (st_min_price s));
        ("max_price", VInt (st_max_price s));
        ("total_bookings", VInt (st_total_bookings s));
        ("avg_bookings", VInt (st_avg_bookings s));
        ("total_capacity", VInt (st_total_capacity s));
        ("avg_load_factor", VFloat (st_avg_load_factor s));
        ("unique_routes", VInt (st_unique_routes s));
        ("date_range",
         dict [("start", VStr (dr_start (st_date_range s)));
               ("end", VStr (dr_end (st_date_range s)));
               ("days", VInt (dr_days (st_date_range s)))]);
        ("price_change", VStr (st_price_change s));
        ("market_health", VStr (st_market_health s))]%string.

(** The dictionary of [_generate_forecasts] *)
Definition forecasting_dict (f : Forecast) : value :=
  dict [("price_forecast",
         dict [("next_week", VInt (pf_next_week f));
               ("confidence", VStr (pf_confidence f));
               ("trend", VStr (pf_trend f))]);
        ("demand_forecast",
         dict [("next_week", VStr (df_next_week f));
               ("seasonal_factor", VFloat (Fin (df_seasonal_factor f)))])]%string.

(** The list of [_generate_market_insights] *)
Definition market_insights_list (l : list MarketInsight) : value :=
  VList ((λ i, dict [("type", VStr (mi_type i));
                     ("title", VStr (mi_title i));
                     ("content", VStr (mi_content i))]%string) <$> l).

(** The dictionary of [analyze_market_trends] *)
Definition analysis_dict (a : Analysis Sections) : value :=
  dict [("price_trends", price_trends_dict (price_trends (an_other a)));
        ("demand_patterns", demand_patterns_dict (an_demand_patterns a));
        ("popular_routes", popular_routes_dict (an_popular_routes a));
        ("seasonal_trends", seasonal_trends_dict (an_seasonal_trends a));
        ("airline_performance",
         report_dict airline_performance_dict (airline_performance (an_other a)));
        ("capacity_utilization",
         report_dict capacity_utilization_dict (capacity_utilization (an_other a)));
        ("statistics", statistics_dict (an_statistics a));
        ("forecasting", forecasting_dict (an_forecasting a));
        ("market_insights", market_insights_list (market_insights (an_other a)))]%string.

Section GetMarketData.

Variable parse_datetime : string → option Calendar.Timestamp.
Variable parse_numeric : string → option Q.
Variable repr_float : float → string.
Variable std : list float → float.
Variable now : Calendar.Timestamp.
Variable py_repr : value → string.
Variable post : nat → response.
Variable current_month : Z.

(** [get_market_data], from the table that the scraper returned to the two
    objects that the reply is made of:
    [market_analysis = analyzer.analyze_market_trends(flight_data)] and
    [ai_insights = insights_gen.generate_insights(market_analysis)]. *)
Definition get_market_data (analyzer : Analyzer) (insights_gen : Generator)
    (flight_data : ref) (h : store) : T (value * list Insight) :=
  match analyze_market_trends parse_datetime parse_numeric repr_float std now
          Sections (sections std now) (default_sections now)
          analyzer flight_data h with
  | (Ret (analysis, _), _) =>
      let market_analysis := analysis_dict analysis in
      tbind (generate_insights py_repr post _parse_ai_insights current_month
               insights_gen market_analysis) (λ ai_insights,
      tret (market_analysis, ai_insights))
  | (Raise e, _) => tlift (Raise e)
  end.

End GetMarketData.

End App.

(** * The library model on known values *)

Example monday_1_january_2024 :
  Calendar.civil 19723 = (2024, 1, 1) ∧
  Calendar.day_name 19723 = "Monday"%string ∧
  Calendar.isoweek 19723 = 1 ∧
  Calendar.is_weekend 19723 = false.
Proof. by vm_compute. Qed.

Example sunday_3_january_2021 :
  Calendar.days_from_civil 2021 1 3 = 18630 ∧
  Calendar.day_name 18630 = "Sunday"%string ∧
  Calendar.isoweek 18630 = 53 ∧
  Calendar.is_weekend 18630 = true.
Proof. by vm_compute. Qed.

Example leap_day : MarketAnalyzer.strftime 19782 = "2024-02-29"%string.
Proof. by vm_compute. Qed.

Example quartiles :
  Float.quantile (1 # 4) (Fin <$> [100; 1000; 300; 200; 400])%Q = Fin 200 ∧
  Float.quantile (3 # 4) (Fin <$> [100; 1000; 300; 200; 400])%Q = Fin 400 ∧
  Float.quantile (1 # 4) [Fin 400; Fin 460] = Fin 415 ∧
  Float.quantile (1 # 4) [] = NaN.
Proof. by vm_compute. Qed.

Example means_skip_missing_values :
  Float.mean [Fin 1; NaN; Fin 2] = Fin (3 # 2) ∧ Float.mean [NaN] = NaN ∧
  Float.sum [NaN] = Fin 0.
Proof. by vm_compute. Qed.

Example division_by_zero :
  Float.div (Fin 0) (Fin 0) = NaN ∧
  Float.div (Fin 3) (Fin 0) = Float.PosInf ∧
  Float.clip 0 1 (Float.div (Fin 3) (Fin 0)) = Fin 1.
Proof. by vm_compute. Qed.

Example rounding_half_to_even :
  Float.Qrint (5 # 2) = 2 ∧ Float.Qrint (7 # 2) = 4 ∧
  Float.Qrint (- 5 # 2) = -2 ∧
  Float.Qround_dec 1 (100 # 7) = (143 # 10)%Q.
Proof. by vm_compute. Qed.

Example signed_percentages :
  MarketAnalyzer.format_plus_1f (Fin 15) = "+15.0"%string ∧
  MarketAnalyzer.format_plus_1f (Fin (- 1234 # 100)) = "-12.3"%string ∧
  MarketAnalyzer.format_plus_1f (Fin 0) = "+0.0"%string.
Proof. by vm_compute. Qed.

Example trend_of_short_and_incomplete_series :
  MarketAnalyzer._calculate_trend [Fin 1] = Fin 0 ∧
  MarketAnalyzer._calculate_trend [Fin 1; NaN; Fin 3] = NaN.
Proof. by vm_compute. Qed.

(** The doubles next to 0.1 and to 0.2875, a tie that goes to the even
    neighbour, the largest double and the first number beyond it. *)
Example nearest_doubles :
  Float.round64 (1 # 10) = Fin (3602879701896397 # 36028797018963968) ∧
  Float.round64 (2875 # 10000) = Fin (2589569785738035 # 9007199254740992) ∧
  Float.round64 (inject_Z (2 ^ 53 + 1)) = Fin (inject_Z (2 ^ 53)) ∧
  Float.round64 (inject_Z (2 ^ 53 + 3)) = Fin (inject_Z (2 ^ 53 + 4)) ∧
  Float.round64 (inject_Z (InsightsGenerator.huge - 1))
  = Fin (inject_Z (2 ^ 1024 - 2 ^ 971)) ∧
  Float.round64 (inject_Z InsightsGenerator.huge) = Float.PosInf ∧
  Float.round64 (1 # 2 ^ 1075) = Fin 0.
Proof. by vm_compute. Qed.

Example integer_division :
  InsightsGenerator.py_truediv (InsightsGenerator.VInt 1) (InsightsGenerator.VInt 10)
  = Ret (InsightsGenerator.VFloat (Fin (3602879701896397 # 36028797018963968))) ∧
  InsightsGenerator.py_truediv (InsightsGenerator.VInt (10 ^ 400))
    (InsightsGenerator.VInt 1)
  = Raise (OverflowError "integer division result too large for a float") ∧
  InsightsGenerator.py_truediv (InsightsGenerator.VInt 1) (InsightsGenerator.VInt 0)
  = Raise (ZeroDivisionError "division by zero").
Proof. by vm_compute. Qed.

(** * Tables and inputs of the examples *)

(** Parsers that read nothing, a [repr] and a standard deviation without
    content: the examples do not depend on them. *)
Definition no_datetime : string → option Calendar.Timestamp := λ _, None.
Definition no_numeric : string → option Q := λ _, None.

Definition no_repr : float → string := λ _, "?"%string.
Definition no_std : list float → float := λ _, NaN.
Definition fresh_analyzer : MarketAnalyzer.Analyzer :=
  {| MarketAnalyzer.processed_data := None |}.

(** The cleaned table of [t]: the object that [_clean_data] returns when it
    is run on a store that holds [t] alone (reference 3, after the copy and
    the frame without missing dates and prices). *)
Definition cleaned (t : DataFrame) : DataFrame :=
  default t (snd (MarketAnalyzer.clean_body no_datetime no_numeric 0%nat [t]) !! 3%nat).

(** A flight whose bookings are not recorded. *)
Definition unrecorded_bookings : DataFrame :=
  {| columns := ["date"; "origin"; "destination"; "price"; "bookings"; "capacity"]%string;
     rows := [ list_to_map
                 [("date", Date 19723); ("origin", Str "SYD");
                  ("destination", Str "MEL"); ("price", Num (Fin 400));
                  ("bookings", NA); ("capacity", Num (Fin 180))]%string ] |}.

(** One flight, on Monday 1 January 2024. *)
Definition single_flight : DataFrame :=
  {| columns := ["date"; "origin"; "destination"; "price"; "bookings"; "capacity"]%string;
     rows := [ list_to_map
                 [("date", Date 19723); ("origin", Str "SYD");
                  ("destination", Str "MEL"); ("price", Num (Fin 400));
                  ("bookings", Num (Fin 100)); ("capacity", Num (Fin 180))]%string ] |}.


(** Two flights, at 400 on 1 January 2024 and at 460 on the next day. *)
Definition two_flights : DataFrame :=
  {| columns := ["date"; "origin"; "destination"; "price"; "bookings"; "capacity"]%string;
     rows := [ list_to_map
                 [("date", Date 19723); ("origin", Str "SYD");
                  ("destination", Str "MEL"); ("price", Num (Fin 400));
                  ("bookings", Num (Fin 100)); ("capacity", Num (Fin 180))]%string;
               list_to_map
                 [("date", Date 19724); ("origin", Str "SYD");
                  ("destination", Str "MEL"); ("price", Num (Fin 460));
                  ("bookings", Num (Fin 120)); ("capacity", Num (Fin 180))]%string ] |}.

Definition flight_to (destination : string) : gmap string cell :=
  list_to_map
    [("date", Date 19723); ("origin", Str "SYD");
     ("destination", Str destination); ("price", Num (Fin 400));
     ("bookings", Num (Fin 100)); ("capacity", Num (Fin 180))]%string.

(** Two flights at 80 and 103, and two flights of which no route is
    recorded. *)
Definition two_fares : DataFrame :=
  {| columns := ["date"; "origin"; "destination"; "price"; "bookings"; "capacity"]%string;
     rows := [ list_to_map
                 [("date", Date 19723); ("origin", Str "SYD");
                  ("destination", Str "MEL"); ("price", Num (Fin 80));
                  ("bookings", Num (Fin 100)); ("capacity", Num (Fin 180))]%string;
               list_to_map
                 [("date", Date 19724); ("origin", Str "SYD");
                  ("destination", Str "MEL"); ("price", Num (Fin 103));
                  ("bookings", Num (Fin 120)); ("capacity", Num (Fin 180))]%string ] |}.

Definition two_unrouted_flights : DataFrame :=
  {| columns := ["date"; "price"]%string;
     rows := [ list_to_map [("date", Date 19723); ("price", Num (Fin 400))]%string;
               list_to_map [("date", Date 19724); ("price", Num (Fin 460))]%string ] |}.

(** Seven routes with 100 bookings each. *)
Definition seven_routes : DataFrame :=
  {| columns := ["date"; "origin"; "destination"; "price"; "bookings"; "capacity"]%string;
     rows := flight_to <$> ["MEL"; "BNE"; "PER"; "ADL"; "CBR"; "HBA"; "DRW"]%string |}.

(** One flight on a Saturday, 6 January 2024. *)
Definition saturday_flight : DataFrame :=
  {| columns := ["date"; "origin"; "destination"; "price"; "bookings"; "capacity"]%string;
     rows := [ list_to_map
                 [("date", Date 19728); ("origin", Str "SYD");
                  ("destination", Str "MEL"); ("price", Num (Fin 400));
                  ("bookings", Num (Fin 100)); ("capacity", Num (Fin 180))]%string ] |}.

(** One flight whose capacity was not recorded: the table has no capacity
    column. *)
Definition flight_without_capacity : DataFrame :=
  {| columns := ["date"; "origin"; "destination"; "price"; "bookings"]%string;
     rows := [ list_to_map
                 [("date", Date 19723); ("origin", Str "SYD");
                  ("destination", Str "MEL"); ("price", Num (Fin 400));
                  ("bookings", Num (Fin 100))]%string ] |}.

(** Eight flights on eight days in a row, from 1 January 2024, at prices
    that rise by 10 a day from 400. *)
Definition rising_prices : DataFrame :=
  {| columns := ["date"; "origin"; "destination"; "price"; "bookings"; "capacity"]%string;
     rows := (λ i : Z, list_to_map
                [("date", Date (19723 + i)); ("origin", Str "SYD");
                 ("destination", Str "MEL"); ("price", Num (Float.of_Z (400 + 10 * i)));
                 ("bookings", Num (Fin 100)); ("capacity", Num (Fin 180))]%string)
             <$> [0; 1; 2; 3; 4; 5; 6; 7] |}.

(** Inputs of the runs of the generator: a [repr] without content, a
    network that fails, a scanner that finds nothing. *)
Definition no_py_repr : InsightsGenerator.value → string := λ _, "?"%string.
Definition no_network : nat → InsightsGenerator.response :=
  λ _, InsightsGenerator.RequestException.
Definition no_parse : string → list InsightsGenerator.Insight := λ _, [].

Definition without_credential : InsightsGenerator.Generator :=
  InsightsGenerator.init None None.
Definition with_credential : InsightsGenerator.Generator :=
  InsightsGenerator.init (Some "sk-0123456789abcdefghijklmnop"%string) None.

Definition rising_market : gmap string InsightsGenerator.value :=
  {[ "statistics"%string :=
       InsightsGenerator.VDict
         {[ "price_change"%string := InsightsGenerator.VStr "+8.0%";
            "demand_score"%string := InsightsGenerator.VInt 80 ]} ]}.

(** An analysis with seasonal demand and bookings of routes, and one whose
    seasonal demand is beyond the doubles. *)
Definition seasonal_market : gmap string InsightsGenerator.value :=
  {[ "statistics"%string :=
       InsightsGenerator.VDict
         {[ "price_change"%string := InsightsGenerator.VStr "-2.5%";
            "avg_price"%string := InsightsGenerator.VInt 430;
            "demand_score"%string := InsightsGenerator.VInt 60 ]};
     "popular_routes"%string :=
       InsightsGenerator.VDict
         {[ "bookings"%string :=
              InsightsGenerator.VList
                [InsightsGenerator.VInt 300; InsightsGenerator.VInt 200] ]};
     "seasonal_trends"%string :=
       InsightsGenerator.VDict
         {[ "demand"%string :=
              InsightsGenerator.VList
                [InsightsGenerator.VInt 100; InsightsGenerator.VInt 120;
                 InsightsGenerator.VInt 80] ]} ]}.

Definition overflowing_market : gmap string InsightsGenerator.value :=
  {[ "seasonal_trends"%string :=
       InsightsGenerator.VDict
         {[ "demand"%string :=
              InsightsGenerator.VList
                [InsightsGenerator.VInt (10 ^ 400); InsightsGenerator.VInt 1] ]} ]}.

Definition strong_demand : gmap string InsightsGenerator.value :=
  {[ "demand_score"%string := InsightsGenerator.VInt 75;
     "price_change"%string := InsightsGenerator.VStr "+5%" ]}.

(** * Inverting a sequence of fallible steps *)

Lemma obind_Ret {X Y} (o : outcome X) (k : X → outcome Y) y :
  obind o k = Ret y → ∃ x, o = Ret x ∧ k x = Ret y.
Proof. destruct o as [x|e]; [|done]. intros H. by exists x. Qed.

Lemma Ret_inj {X} (x y : X) : Ret x = Ret y → x = y.
Proof. congruence. Qed.

Ltac obind_inv H :=
  repeat (let x := fresh "x" in
          let E := fresh "E" in
          apply obind_Ret in H as (x & E & H));
  apply Ret_inj in H; rewrite <- H.

(** * Properties of the cleaning step *)

Section CleaningProperties.

Import MarketAnalyzer.

(** The store after a run: the old objects, then the new ones. *)
Definition extends (h h' : store) : Prop := ∃ news, h' = h ++ news.

Lemma extends_refl h : extends h h.
Proof. exists []. by rewrite app_nil_r. Qed.

Lemma extends_trans h1 h2 h3 : extends h1 h2 → extends h2 h3 → extends h1 h3.
Proof. intros [a ->] [b ->]. exists (a ++ b). by rewrite app_assoc. Qed.

Lemma extends_snoc h x : extends h (h ++ [x]).
Proof. by exists [x]. Qed.

Lemma extends_lookup h h' (r : ref) t :
  extends h h' → h !! r = Some t → h' !! r = Some t.
Proof. intros [news ->] H. by apply lookup_app_l_Some. Qed.

Lemma extends_length h h' : extends h h' → (length h ≤ length h')%nat.
Proof. intros [news ->]. rewrite length_app. lia. Qed.

(** Running the primitives on the newest object of the store. *)

Lemma lookup_last (l : store) x : (l ++ [x]) !! length l = Some x.
Proof. by rewrite lookup_app_r, Nat.sub_diag. Qed.

Lemma insert_last (l : store) x y : <[length l := y]> (l ++ [x]) = l ++ [y].
Proof.
  rewrite insert_app_r_alt by lia. by rewrite Nat.sub_diag.
Qed.

Lemma run_bind {A B} (m : M A) (k : A → M B) h :
  bind m k h = match m h with
               | (Ret a, h') => k a h'
               | (Raise e, h') => (Raise e, h')
               end.
Proof. reflexivity. Qed.

Lemma run_read_last l x : df_read (length l) (l ++ [x]) = (Ret x, l ++ [x]).
Proof. unfold df_read. by rewrite lookup_last. Qed.

Lemma run_columns_last l x :
  df_columns (length l) (l ++ [x]) = (Ret (columns x), l ++ [x]).
Proof. unfold df_columns. by rewrite run_bind, run_read_last. Qed.

Lemma run_getitem_last l x c :
  df_getitem (length l) c (l ++ [x]) = (getitem c x, l ++ [x]).
Proof. unfold df_getitem. by rewrite run_bind, run_read_last. Qed.

Lemma run_setitem_last l x c v :
  df_setitem (length l) c v (l ++ [x]) =
  match setitem c v x with
  | Ret x' => (Ret tt, l ++ [x'])
  | Raise e => (Raise e, l ++ [x])
  end.
Proof.
  unfold df_setitem. rewrite run_bind, run_read_last, run_bind. unfold lift.
  destruct (setitem c v x); [|done]. unfold df_write. by rewrite insert_last.
Qed.

Lemma run_dropna_last l x cs :
  df_dropna (length l) cs (l ++ [x]) =
  match dropna cs x with
  | Ret x' => (Ret (length (l ++ [x])), (l ++ [x]) ++ [x'])
  | Raise e => (Raise e, l ++ [x])
  end.
Proof.
  unfold df_dropna. rewrite run_bind, run_read_last, run_bind. unfold lift.
  by destruct (dropna cs x).
Qed.

Lemma run_select_last l x mask :
  df_select (length l) mask (l ++ [x]) =
  (Ret (length (l ++ [x])), (l ++ [x]) ++ [select mask x]).
Proof. unfold df_select. by rewrite run_bind, run_read_last. Qed.

Lemma run_copy h (data : ref) t :
  h !! data = Some t → df_copy data h = (Ret (length h), h ++ [t]).
Proof. intros H. unfold df_copy. rewrite run_bind. unfold df_read. by rewrite H. Qed.

(** Facts on the frame operations. *)

Lemma getitem_Ret c x v :
  getitem c x = Ret v → has_column c x = true ∧ v = row_get c <$> rows x.
Proof. unfold getitem. destruct (has_column c x); naive_solver. Qed.

Lemma setitem_Ret c v x x' :
  setitem c v x = Ret x' → x' = set_col c v x ∧ length v = length (rows x).
Proof. unfold setitem. case_bool_decide; naive_solver. Qed.

Lemma setitem_same_length c v x :
  length v = length (rows x) → setitem c v x = Ret (set_col c v x).
Proof. intros H. unfold setitem. by rewrite bool_decide_eq_true_2. Qed.

Lemma columns_set_col_old c v x :
  has_column c x = true → columns (set_col c v x) = columns x.
Proof. intros H. unfold set_col. simpl. by rewrite H. Qed.

Lemma has_column_set_col c c' v x :
  has_column c' x = true → has_column c' (set_col c v x) = true.
Proof.
  intros H. unfold set_col. destruct (has_column c x); [done|].
  unfold has_column in *. cbn [columns].
  apply bool_decide_eq_true in H. apply bool_decide_eq_true. set_solver.
Qed.

Lemma length_rows_set_col c v x :
  length v = length (rows x) → length (rows (set_col c v x)) = length (rows x).
Proof. intros H. unfold set_col. simpl. rewrite length_zip_with. lia. Qed.

Lemma row_get_insert_eq c x (r : gmap string cell) : row_get c (<[c := x]> r) = x.
Proof. unfold row_get. by rewrite lookup_insert_eq. Qed.

Lemma row_get_insert_ne c c' x (r : gmap string cell) :
  c ≠ c' → row_get c' (<[c := x]> r) = row_get c' r.
Proof. intros H. unfold row_get. by rewrite lookup_insert_ne. Qed.

Lemma column_set_col_eq c v x :
  length v = length (rows x) → row_get c <$> rows (set_col c v x) = v.
Proof.
  unfold set_col. simpl. generalize (rows x). intros rs. revert v.
  induction rs as [|r rs IH]; intros [|y v] H; simpl in *; try done.
  rewrite row_get_insert_eq. f_equal. apply IH. lia.
Qed.

Lemma column_set_col_ne c c' v x :
  c ≠ c' → length v = length (rows x) →
  row_get c' <$> rows (set_col c v x) = row_get c' <$> rows x.
Proof.
  intros Hne. unfold set_col. simpl. generalize (rows x). intros rs. revert v.
  induction rs as [|r rs IH]; intros [|y v] H; simpl in *; try done.
  rewrite row_get_insert_ne by done. f_equal. apply IH. lia.
Qed.

Context (parse_datetime : string → option Calendar.Timestamp).
Context (parse_numeric : string → option Q).

Local Abbreviation convert_date' := (convert_date parse_datetime).
Local Abbreviation ensure_numeric' := (ensure_numeric parse_numeric).
Local Abbreviation clean_body' := (clean_body parse_datetime parse_numeric).
Local Abbreviation _clean_data' := (_clean_data parse_datetime parse_numeric).

(** A block that works in place on the newest object. *)
Definition runs_in_place (f : ref → M unit) (P : DataFrame → DataFrame → Prop)
  : Prop :=
  ∀ l x, match f (length l) (l ++ [x]) with
         | (Ret _, h') => ∃ x', h' = l ++ [x'] ∧ P x x'
         | (Raise _, h') => ∃ x', h' = l ++ [x']
         end.

Lemma convert_date_in_place :
  runs_in_place convert_date' (λ x x', columns x' = columns x).
Proof.
  intros l x. unfold convert_date.
  rewrite run_bind, run_getitem_last.
  destruct (getitem "date" x) as [date|e] eqn:Hget; [|by eauto].
  apply getitem_Ret in Hget as [Hcol _].
  rewrite run_bind. unfold lift.
  destruct (to_datetime parse_datetime date) as [date'|e]; [|by eauto].
  rewrite run_setitem_last.
  destruct (setitem "date" date' x) as [x'|e] eqn:Hset; [|by eauto].
  apply setitem_Ret in Hset as [-> _].
  eexists. split; [done|]. by apply columns_set_col_old.
Qed.

Lemma length_to_numeric v : length (to_numeric parse_numeric v) = length v.
Proof. unfold to_numeric. by rewrite length_fmap. Qed.

Lemma numeric_iteration col l x :
  ∃ x',
    (cols <- df_columns (length l) ;;
     if bool_decide (col ∈ cols) then
       v <- df_getitem (length l) col ;;
       df_setitem (length l) col (to_numeric parse_numeric v)
     else ret tt) (l ++ [x]) = (Ret tt, l ++ [x']) ∧
    columns x' = columns x.
Proof.
  rewrite run_bind, run_columns_last.
  destruct (bool_decide (col ∈ columns x)) eqn:Hcol; [|by exists x].
  rewrite run_bind, run_getitem_last. unfold getitem, has_column.
  rewrite Hcol. rewrite run_setitem_last.
  rewrite setitem_same_length
    by (by rewrite length_to_numeric, length_fmap).
  eexists. split; [done|]. by apply columns_set_col_old.
Qed.

Lemma ensure_numeric_in_place :
  runs_in_place ensure_numeric' (λ x x', columns x' = columns x).
Proof.
  intros l x. unfold ensure_numeric, numeric_columns. cbn [for_each].
  destruct (numeric_iteration "price" l x) as (x1 & E1 & H1).
  rewrite run_bind, E1.
  destruct (numeric_iteration "bookings" l x1) as (x2 & E2 & H2).
  rewrite run_bind, E2.
  destruct (numeric_iteration "capacity" l x2) as (x3 & E3 & H3).
  rewrite run_bind, E3.
  exists x3. split; [done|]. congruence.
Qed.

Lemma dropna_columns cs x x' : dropna cs x = Ret x' → columns x' = columns x.
Proof.
  unfold dropna. destruct (filter _ cs); [|done]. by intros [= <-].
Qed.

Lemma remove_outliers_run l x :
  match remove_outliers (length l) (l ++ [x]) with
  | (Ret r, h') =>
      ∃ x', r = length (l ++ [x]) ∧ h' = (l ++ [x]) ++ [x'] ∧
            columns x' = columns x
  | (Raise _, h') => h' = l ++ [x]
  end.
Proof.
  unfold remove_outliers. rewrite run_bind, run_getitem_last.
  destruct (getitem "price" x) as [price|e]; [|done].
  cbv zeta. rewrite run_select_last. by eexists.
Qed.

(** What [_clean_data] leaves in the load factor column. *)
Definition lf_ok (c : cell) : Prop :=
  c = Num NaN ∨ ∃ q, c = Num (Fin q) ∧ (0 <= q <= 1)%Q.

Lemma Qltb_false a b : Float.Qltb a b = false → (b <= a)%Q.
Proof.
  unfold Float.Qltb. intros H. apply negb_false_iff in H.
  by apply Qle_bool_iff.
Qed.

Lemma clip_unit_ok x : lf_ok (Num (Float.clip 0 1 x)).
Proof.
  destruct x as [| | |a]; simpl.
  - by left.
  - right. exists 0%Q. split; [done|]. split; [apply Qle_refl|done].
  - right. exists 1%Q. split; [done|]. split; [done|apply Qle_refl].
  - destruct (Float.Qltb a 0) eqn:H0.
    { right. exists 0%Q. split; [done|]. split; [apply Qle_refl|done]. }
    destruct (Float.Qltb 1 a) eqn:H1.
    { right. exists 1%Q. split; [done|]. split; [done|apply Qle_refl]. }
    right. exists a. split; [done|]. split; by apply Qltb_false.
Qed.

Lemma col_clip_ok v : Forall lf_ok (col_clip 0 1 v).
Proof.
  unfold col_clip. apply Forall_fmap, Forall_forall. intros c _.
  apply clip_unit_ok.
Qed.

Lemma length_col_div a b : length (col_div a b) = (length a `min` length b)%nat.
Proof. unfold col_div. by rewrite length_zip_with. Qed.

Lemma length_col_clip lo hi v : length (col_clip lo hi v) = length v.
Proof. unfold col_clip. by rewrite length_fmap. Qed.

Lemma add_load_factor_in_place :
  runs_in_place add_load_factor (λ x x',
    has_column "bookings" x = true → has_column "capacity" x = true →
    Forall lf_ok (row_get "load_factor" <$> rows x')).
Proof.
  intros l x. unfold add_load_factor.
  rewrite run_bind, run_columns_last.
  fold (has_column "bookings" x). fold (has_column "capacity" x).
  destruct (has_column "bookings" x) eqn:Hb; [|by exists x].
  destruct (has_column "capacity" x) eqn:Hc; [|by exists x].
  cbn [andb].
  rewrite run_bind, run_getitem_last. unfold getitem at 1. rewrite Hb.
  rewrite run_bind, run_getitem_last. unfold getitem at 1. rewrite Hc.
  rewrite run_bind, run_setitem_last.
  rewrite setitem_same_length
    by (rewrite length_col_div, !length_fmap; lia).
  set (x1 := set_col "load_factor" _ x).
  rewrite run_bind, run_getitem_last.
  destruct (getitem "load_factor" x1) as [lf|e] eqn:Hlf; [|by eauto].
  apply getitem_Ret in Hlf as [_ ->].
  rewrite run_setitem_last.
  rewrite setitem_same_length by (by rewrite length_col_clip, length_fmap).
  eexists. split; [done|]. intros _ _.
  rewrite column_set_col_eq by (by rewrite length_col_clip, length_fmap).
  apply col_clip_ok.
Qed.

Lemma run_time_feature {B} c (f : cell → cell) l x (k : M B) :
  (date <- df_getitem (length l) "date" ;;
   df_setitem (length l) c (f <$> date) ;;; k) (l ++ [x]) =
  match getitem "date" x with
  | Ret date => k (l ++ [set_col c (f <$> date) x])
  | Raise e => (Raise e, l ++ [x])
  end.
Proof.
  rewrite run_bind, run_getitem_last.
  destruct (getitem "date" x) as [date|e] eqn:Hget; [|done].
  apply getitem_Ret in Hget as [_ ->].
  rewrite run_bind, run_setitem_last.
  by rewrite setitem_same_length by (by rewrite !length_fmap).
Qed.

Lemma time_feature_column c (f : cell → cell) x date :
  c ≠ "load_factor"%string →
  getitem "date" x = Ret date →
  row_get "load_factor" <$> rows (set_col c (f <$> date) x) =
  row_get "load_factor" <$> rows x.
Proof.
  intros Hne [_ ->]%getitem_Ret.
  apply column_set_col_ne; [done|]. by rewrite !length_fmap.
Qed.

Lemma add_time_features_in_place :
  runs_in_place add_time_features (λ x x',
    row_get "load_factor" <$> rows x' = row_get "load_factor" <$> rows x).
Proof.
  intros l x. unfold add_time_features.
  rewrite run_time_feature.
  destruct (getitem "date" x) as [d1|e] eqn:H1; [|by eauto].
  set (x1 := set_col "day_of_week" _ x).
  rewrite run_time_feature.
  destruct (getitem "date" x1) as [d2|e] eqn:H2; [|by eauto].
  set (x2 := set_col "month" _ x1).
  rewrite run_time_feature.
  destruct (getitem "date" x2) as [d3|e] eqn:H3; [|by eauto].
  set (x3 := set_col "week" _ x2).
  rewrite run_bind, run_getitem_last.
  destruct (getitem "date" x3) as [d4|e] eqn:H4; [|by eauto].
  rewrite run_setitem_last.
  pose proof H4 as [_ E4]%getitem_Ret.
  rewrite setitem_same_length by (by rewrite E4, !length_fmap).
  eexists. split; [done|].
  rewrite (time_feature_column "is_weekend") by done.
  unfold x3. rewrite (time_feature_column "week") by done.
  unfold x2. rewrite (time_feature_column "month") by done.
  unfold x1. by rewrite (time_feature_column "day_of_week") by done.
Qed.

Lemma has_column_columns c x y :
  columns x = columns y → has_column c x = has_column c y.
Proof. unfold has_column. by intros ->. Qed.

(** One run of the body of [_clean_data]: the old objects stay as they are;
    on success the result is a new object. *)
Lemma clean_body_run h (data : ref) t :
  h !! data = Some t →
  match clean_body' data h with
  | (Ret r, h') =>
      extends h h' ∧ (length h ≤ r)%nat ∧
      ∃ t', h' !! r = Some t' ∧
        (has_column "bookings" t = true → has_column "capacity" t = true →
         Forall lf_ok (row_get "load_factor" <$> rows t'))
  | (Raise _, h') => extends h h'
  end.
Proof.
  intros Hdata. unfold clean_body.
  rewrite run_bind, (run_copy _ _ _ Hdata).
  (* convert the date column *)
  rewrite run_bind. pose proof (convert_date_in_place h t) as H1.
  destruct (convert_date' (length h) (h ++ [t])) as [[[]|e] h1];
    [|destruct H1 as [x' ->]; apply extends_snoc].
  destruct H1 as (x1 & -> & C1).
  (* coerce the numeric columns *)
  rewrite run_bind. pose proof (ensure_numeric_in_place h x1) as H2.
  destruct (ensure_numeric' (length h) (h ++ [x1])) as [[[]|e] h2];
    [|destruct H2 as [x' ->]; apply extends_snoc].
  destruct H2 as (x2 & -> & C2).
  (* drop the rows without date or price *)
  rewrite run_bind, run_dropna_last.
  destruct (dropna ["date"; "price"]%string x2) as [x3|e] eqn:H3;
    [|apply extends_snoc].
  apply dropna_columns in H3 as C3.
  (* remove the outliers *)
  rewrite run_bind. pose proof (remove_outliers_run (h ++ [x2]) x3) as H4.
  destruct (remove_outliers (length (h ++ [x2])) ((h ++ [x2]) ++ [x3]))
    as [[r4|e] h4];
    [|subst h4; eapply extends_trans; apply extends_snoc].
  destruct H4 as (x4 & -> & -> & C4).
  (* load factor *)
  rewrite run_bind.
  pose proof (add_load_factor_in_place ((h ++ [x2]) ++ [x3]) x4) as H5.
  destruct (add_load_factor _ _) as [[[]|e] h5];
    [|destruct H5 as [x' ->];
      eapply extends_trans; [|apply extends_snoc];
      eapply extends_trans; apply extends_snoc].
  destruct H5 as (x5 & -> & L5).
  (* time features *)
  rewrite run_bind.
  pose proof (add_time_features_in_place ((h ++ [x2]) ++ [x3]) x5) as H6.
  destruct (add_time_features _ _) as [[[]|e] h6];
    [|destruct H6 as [x' ->];
      eapply extends_trans; [|apply extends_snoc];
      eapply extends_trans; apply extends_snoc].
  destruct H6 as (x6 & -> & L6).
  unfold ret. split; [|split].
  - eapply extends_trans; [|apply extends_snoc].
    eapply extends_trans; apply extends_snoc.
  - rewrite !length_app. lia.
  - exists x6. split; [apply lookup_last|].
    intros Hb Hc. rewrite L6. apply L5.
    + etrans; [|exact Hb]. apply has_column_columns. congruence.
    + etrans; [|exact Hc]. apply has_column_columns. congruence.
Qed.

Lemma clean_body_dangling h (data : ref) :
  h !! data = None → clean_body' data h = (Raise ReferenceError, h).
Proof.
  intros H. unfold clean_body, df_copy. rewrite !run_bind.
  unfold df_read. by rewrite H.
Qed.

(** C1. [_clean_data] never raises: on every store and for every reference
    it returns a reference.  The objects that existed before the call are
    left as they were, the caller's table among them, and whenever a step of
    the cleaning raises, what is returned is the caller's own table, not the
    partially cleaned copy. *)
Theorem clean_data_never_raises (h : store) (data : ref) :
  ∃ r h',
    _clean_data' data h = (Ret r, h') ∧
    extends h h' ∧
    h' !! data = h !! data ∧
    (∀ e h1, clean_body' data h = (Raise e, h1) → r = data ∧ h1 = h').
Proof.
  unfold _clean_data, try_except.
  destruct (h !! data) as [t|] eqn:Hdata.
  - pose proof (clean_body_run h data t Hdata) as Hrun.
    destruct (clean_body' data h) as [[r|e] h'].
    + destruct Hrun as (Hext & _ & _).
      exists r, h'. split_and!; [done|done|by apply (extends_lookup h)|].
      intros e h1 [=].
    + exists data, h'. unfold ret.
      split_and!; [done|done|by apply (extends_lookup h)|].
      by intros e' h1 [= _ ->].
  - rewrite (clean_body_dangling h data Hdata).
    exists data, h. unfold ret.
    split_and!; [done|apply extends_refl|done|].
    by intros e' h1 [= _ ->].
Qed.

(** The two ways [_clean_data] returns: the new, cleaned object, or the
    caller's own object when a step raised. *)
Lemma clean_data_run h (data : ref) t :
  h !! data = Some t →
  ∃ r h' t',
    _clean_data' data h = (Ret r, h') ∧ extends h h' ∧ h' !! r = Some t' ∧
    ((clean_body' data h = (Ret r, h') ∧ (length h ≤ r)%nat) ∨
     (∃ e, clean_body' data h = (Raise e, h')) ∧ r = data ∧ t' = t).
Proof.
  intros Hdata. unfold _clean_data, try_except.
  pose proof (clean_body_run h data t Hdata) as Hrun.
  destruct (clean_body' data h) as [[r|e] h'].
  - destruct Hrun as (Hext & Hr & t' & Ht' & _).
    exists r, h', t'. split_and!; [done|done|done|]. by left.
  - exists data, h', t. unfold ret.
    split_and!; [done|done|by apply (extends_lookup h)|].
    right. split_and!; [by exists e|done|done].
Qed.

(** C3, as amended.  When cleaning succeeds on a table that has a bookings
    and a capacity column, every load factor of the cleaned table is either
    missing (NaN) or a number of the interval [0,1]. *)
Theorem load_factor_nan_or_unit (h : store) (data : ref) (t : DataFrame)
    (r : ref) (h' : store) (t' : DataFrame) :
  h !! data = Some t →
  has_column "bookings" t = true →
  has_column "capacity" t = true →
  clean_body' data h = (Ret r, h') →
  h' !! r = Some t' →
  Forall (λ row, lf_ok (row_get "load_factor" row)) (rows t').
Proof.
  intros Hdata Hb Hc Hrun Hr.
  pose proof (clean_body_run h data t Hdata) as H. rewrite Hrun in H.
  destruct H as (_ & _ & t'' & Hr' & Hlf).
  assert (t'' = t') as -> by congruence.
  specialize (Hlf Hb Hc). rewrite Forall_fmap in Hlf. exact Hlf.
Qed.

End CleaningProperties.

(** The claim C3 as it is stated: the load factors of a successfully
    cleaned table are numbers of [0,1]. *)
Definition load_factor_in_unit_interval : Prop :=
  ∀ parse_datetime parse_numeric (h : store) (data : ref) t r h' t',
    h !! data = Some t →
    has_column "bookings" t = true →
    has_column "capacity" t = true →
    MarketAnalyzer.clean_body parse_datetime parse_numeric data h = (Ret r, h') →
    h' !! r = Some t' →
    Forall (λ row, ∃ q, row_get "load_factor" row = Num (Fin q) ∧ (0 <= q <= 1)%Q)
           (rows t').

(** C3 fails on the code: the flight keeps its place in the cleaned table,
    with a load factor that is NaN. *)
Lemma load_factor_not_in_unit_interval : ¬ load_factor_in_unit_interval.
Proof.
  intros H.
  pose (run := MarketAnalyzer.clean_body no_datetime no_numeric 0%nat
                 [unrecorded_bookings]).
  specialize (H no_datetime no_numeric [unrecorded_bookings] 0%nat
                unrecorded_bookings 3%nat (snd run)
                (default unrecorded_bookings (snd run !! 3%nat))).
  assert (Forall (λ row, ∃ q, row_get "load_factor" row = Num (Fin q)
                              ∧ (0 <= q <= 1)%Q)
            (rows (default unrecorded_bookings (snd run !! 3%nat)))) as HF.
  { apply H; by vm_compute. }
  vm_compute in HF. apply Forall_cons in HF as [(q & Hq & _) _].
  discriminate Hq.
Qed.

Lemma load_factor_nan_or_unit_witness :
  Forall (λ row, lf_ok (row_get "load_factor" row))
    (rows (default unrecorded_bookings
             (snd (MarketAnalyzer.clean_body no_datetime no_numeric 0%nat
                     [unrecorded_bookings]) !! 3%nat))).
Proof.
  apply (load_factor_nan_or_unit no_datetime no_numeric
           [unrecorded_bookings] 0%nat unrecorded_bookings 3%nat
           (snd (MarketAnalyzer.clean_body no_datetime no_numeric 0%nat
                   [unrecorded_bookings])));
    by vm_compute.
Defined.

(** * Properties of the pipeline *)

Section PipelineProperties.

Import MarketAnalyzer.

Context (parse_datetime : string → option Calendar.Timestamp).
Context (parse_numeric : string → option Q).
Context (repr_float : float → string).
Context (std : list float → float).
Context (now : Calendar.Timestamp).
Context (OtherSections : Type).
Context (other_sections : DataFrame → OtherSections).
Context (default_other_sections : OtherSections).

Local Abbreviation clean_body' := (clean_body parse_datetime parse_numeric).
Local Abbreviation analyze_market_trends' :=
  (analyze_market_trends parse_datetime parse_numeric repr_float std now
     OtherSections other_sections default_other_sections).
Local Abbreviation default_analysis' :=
  (_get_default_analysis now OtherSections default_other_sections).

(** The analysis assembled from the frame bound to [flight_data] after the
    cleaning step. *)
Definition assemble (data : DataFrame) : Analysis OtherSections :=
  {| an_demand_patterns := _analyze_demand_patterns repr_float data;
     an_popular_routes := _analyze_popular_routes data;
     an_seasonal_trends := _analyze_seasonal_trends std data;
     an_statistics := _calculate_comprehensive_statistics std now data;
     an_forecasting := _generate_forecasts now data;
     an_other := other_sections data |}.

(** The three ways [analyze_market_trends] returns. *)
Lemma analyze_market_trends_run (self : Analyzer) (h : store) (flight_data : ref) :
  ∃ a self' h',
    analyze_market_trends' self flight_data h = (Ret (a, self'), h') ∧
    extends h h' ∧
    ((a = default_analysis' ∧ self' = self ∧
      match h !! flight_data with Some t => df_empty t = true | None => True end) ∨
     (∃ t r t', h !! flight_data = Some t ∧ df_empty t = false ∧
        h' !! r = Some t' ∧ a = assemble t' ∧ self' = {| processed_data := Some r |} ∧
        ((clean_body' flight_data h = (Ret r, h') ∧ (length h ≤ r)%nat) ∨
         (∃ e, clean_body' flight_data h = (Raise e, h')) ∧
          r = flight_data ∧ t' = t))).
Proof.
  unfold analyze_market_trends, try_except. rewrite run_bind. unfold df_read at 1.
  destruct (h !! flight_data) as [t|] eqn:Hdata.
  - destruct (df_empty t) eqn:Hempty.
    + exists default_analysis', self, h. unfold ret.
      split_and!; [done|apply extends_refl|]. by left.
    + destruct (clean_data_run parse_datetime parse_numeric h flight_data t Hdata)
        as (r & h' & t' & Hrun & Hext & Hr & Hcases).
      rewrite run_bind, Hrun, run_bind. unfold df_read. rewrite Hr. unfold ret.
      exists (assemble t'), {| processed_data := Some r |}, h'.
      split_and!; [done|done|]. right. by exists t, r, t'.
  - exists default_analysis', self, h. unfold ret.
    split_and!; [done|apply extends_refl|]. by left.
Qed.

(** C10. [analyze_market_trends] returns on every store and leaves the
    caller's table, like every object that existed before the call, as it
    was.  When the cleaning succeeds the analysis is computed from a new
    object, the cleaned copy; when a step of the cleaning raises, it is
    computed from the caller's own table, which is read and not written. *)
Theorem analyze_market_trends_frame (self : Analyzer) (h : store)
    (flight_data : ref) :
  ∃ a self' h',
    analyze_market_trends' self flight_data h = (Ret (a, self'), h') ∧
    h' !! flight_data = h !! flight_data ∧
    (∀ r t, h !! r = Some t → h' !! r = Some t) ∧
    (∀ r h1, clean_body' flight_data h = (Ret r, h1) →
       (length h ≤ r)%nat ∧
       (∀ t, h !! flight_data = Some t → df_empty t = false →
          ∃ t', h' !! r = Some t' ∧ a = assemble t' ∧
                processed_data self' = Some r)) ∧
    (∀ e h1 t, clean_body' flight_data h = (Raise e, h1) →
       h !! flight_data = Some t → df_empty t = false → a = assemble t).
Proof.
  destruct (analyze_market_trends_run self h flight_data)
    as (a & self' & h' & Hrun & Hext & Hcases).
  exists a, self', h'. split_and!; [done| | | |].
  - destruct (h !! flight_data) as [t|] eqn:Hdata.
    + by apply (extends_lookup h).
    + destruct Hcases as [(_ & _ & _)|(t & r & t' & Ht & _)]; [|congruence].
      revert Hrun. unfold analyze_market_trends, try_except.
      rewrite run_bind. unfold df_read. rewrite Hdata. unfold ret.
      intros [= _ _ <-]. done.
  - intros r t. by apply extends_lookup.
  - intros r h1 Hbody. split.
    + destruct (h !! flight_data) as [t|] eqn:Hdata.
      * pose proof (clean_body_run parse_datetime parse_numeric h flight_data t Hdata) as H.
        rewrite Hbody in H. by destruct H as (_ & ? & _).
      * by rewrite (clean_body_dangling parse_datetime parse_numeric h flight_data Hdata)
          in Hbody.
    + intros t Ht Hne.
      destruct Hcases as [(_ & _ & Hemp)|(t0 & r0 & t' & Ht0 & _ & Hr0 & -> & -> & Hc)].
      * rewrite Ht in Hemp. congruence.
      * destruct Hc as [[Hb _]|[[e He] _]]; [|congruence].
        assert (r0 = r) as -> by congruence. by exists t'.
  - intros e h1 t Hbody Ht Hne.
    destruct Hcases as [(_ & _ & Hemp)|(t0 & r0 & t' & Ht0 & _ & Hr0 & -> & _ & Hc)].
    + rewrite Ht in Hemp. congruence.
    + destruct Hc as [[Hb _]|(_ & _ & ->)]; congruence.
Qed.

End PipelineProperties.

(** * Properties of the monthly series *)

Section GroupByProperties.

Import MarketAnalyzer.

Context {K A : Type} (ltb : K → K → bool) (key : A → option K).

Lemma group_insert_keys k r (gs : list (K * list A)) k' rs :
  (k', rs) ∈ group_insert ltb k r gs →
  k' = k ∨ ∃ rs', (k', rs') ∈ gs.
Proof.
  induction gs as [|[k0 rs0] gs IH]; simpl.
  - intros H. apply list_elem_of_singleton in H. left. congruence.
  - destruct (ltb k k0).
    { intros H. apply elem_of_cons in H as [E|Hin]; [left; congruence|right; eauto]. }
    destruct (ltb k0 k).
    + intros H. apply elem_of_cons in H as [E|Hin].
      * right. exists rs0. apply elem_of_cons. left. congruence.
      * destruct (IH Hin) as [->|[rs' Hrs']]; [by left|].
        right. exists rs'. apply elem_of_cons. by right.
    + intros H. apply elem_of_cons in H as [E|Hin].
      * right. exists rs0. apply elem_of_cons. left. congruence.
      * right. exists rs. apply elem_of_cons. by right.
Qed.

(** Every group of [groupby] carries the key of some row. *)
Lemma groupby_key_from_row (l : list A) k rs :
  (k, rs) ∈ groupby ltb key l → ∃ r, r ∈ l ∧ key r = Some k.
Proof.
  unfold groupby.
  assert (∀ acc,
    (∀ k rs, (k, rs) ∈ acc → ∃ r, r ∈ l ∧ key r = Some k) →
    ∀ l', l' ⊆ l →
    ∀ k rs,
      (k, rs) ∈ foldl (λ gs r, match key r with
                               | Some k => group_insert ltb k r gs
                               | None => gs
                               end) acc l' →
      ∃ r, r ∈ l ∧ key r = Some k) as Hgen.
  { intros acc Hacc l'. revert acc Hacc.
    induction l' as [|r l' IH]; intros acc Hacc Hsub k0 rs0; simpl.
    - apply Hacc.
    - apply IH; [|set_solver].
      intros k1 rs1 Hin. destruct (key r) as [kr|] eqn:Hkr; [|by eapply Hacc].
      apply group_insert_keys in Hin as [->|[rs' Hrs']].
      + exists r. split; [set_solver|done].
      + by eapply Hacc. }
  apply (Hgen []); [|done]. intros k1 rs1 H. by apply elem_of_nil in H.
Qed.

End GroupByProperties.

Section GroupByOrder.

Import MarketAnalyzer.

Context {K A : Type} (ltb : K → K → bool) (key : A → option K).
Context (ltb_irrefl : ∀ a, ltb a a = false).
Context (ltb_trans : ∀ a b c, ltb a b = true → ltb b c = true → ltb a c = true).
Context (ltb_equiv : ∀ a b c,
  ltb a b = false → ltb b a = false → ltb b c = true → ltb a c = true).

Definition keys_ascending (gs : list (K * list A)) : Prop :=
  StronglySorted (λ a b, ltb a b = true) (fst <$> gs).

Lemma group_insert_key k r (gs : list (K * list A)) k' :
  k' ∈ fst <$> group_insert ltb k r gs → k' = k ∨ k' ∈ fst <$> gs.
Proof using Type.
  intros ([k0 rs0] & -> & Hin)%list_elem_of_fmap.
  apply group_insert_keys in Hin as [->|[rs' Hrs']]; [by left|right].
  apply list_elem_of_fmap. by exists (k0, rs').
Qed.

Lemma group_insert_ascending k r gs :
  keys_ascending gs → keys_ascending (group_insert ltb k r gs).
Proof using ltb_trans.
  unfold keys_ascending.
  induction gs as [|[k0 rs0] gs IH]; simpl; intros Hs.
  - repeat constructor.
  - apply StronglySorted_inv in Hs as [Hs Hall].
    destruct (ltb k k0) eqn:E1.
    + cbn. constructor.
      * by constructor.
      * constructor; [done|]. eapply Forall_impl; [exact Hall|].
        intros x Hx. by eapply ltb_trans.
    + destruct (ltb k0 k) eqn:E2.
      * cbn. constructor; [by apply IH|].
        apply Forall_forall. intros x Hx.
        apply group_insert_key in Hx as [->|Hx]; [done|].
        by eapply Forall_forall in Hall.
      * cbn. by constructor.
Qed.

(** The keys of the groups are strictly ascending. *)
Lemma groupby_ascending (l : list A) : keys_ascending (groupby ltb key l).
Proof using ltb_trans.
  unfold groupby.
  assert (∀ acc, keys_ascending acc →
    keys_ascending (foldl (λ gs r, match key r with
                                   | Some k => group_insert ltb k r gs
                                   | None => gs
                                   end) acc l)) as Hgen.
  { induction l as [|r l IH]; intros acc Hacc; simpl; [done|].
    apply IH. destruct (key r); [by apply group_insert_ascending|done]. }
  apply Hgen. constructor.
Qed.

Lemma group_insert_new k r (gs : list (K * list A)) :
  ∃ k' rs, (k', rs) ∈ group_insert ltb k r gs ∧
           ltb k k' = false ∧ ltb k' k = false ∧ r ∈ rs.
Proof using ltb_irrefl.
  induction gs as [|[k0 rs0] gs IH]; simpl.
  - exists k, [r].
    split_and!; [by apply list_elem_of_singleton|done|done|
                 by apply list_elem_of_singleton].
  - destruct (ltb k k0) eqn:E1.
    { exists k, [r].
      split_and!; [apply elem_of_cons; by left|done|done|
                   by apply list_elem_of_singleton]. }
    destruct (ltb k0 k) eqn:E2.
    + destruct IH as (k' & rs & Hin & ? & ? & ?).
      exists k', rs. split_and!; [apply elem_of_cons; by right|done..].
    + exists k0, (rs0 ++ [r]).
      split_and!; [apply elem_of_cons; by left|done|done|].
      apply elem_of_app. right. by apply list_elem_of_singleton.
Qed.

Lemma group_insert_keeps k r (gs : list (K * list A)) k0 rs0 x :
  (k0, rs0) ∈ gs → x ∈ rs0 →
  ∃ rs0', (k0, rs0') ∈ group_insert ltb k r gs ∧ x ∈ rs0'.
Proof using Type.
  induction gs as [|[k1 rs1] gs IH]; simpl; intros Hin Hx.
  - by apply elem_of_nil in Hin.
  - destruct (ltb k k1).
    { exists rs0. split; [|done]. apply elem_of_cons. by right. }
    apply elem_of_cons in Hin as [E|Hin].
    + injection E as -> ->. destruct (ltb k1 k).
      * exists rs1. split; [|done]. apply elem_of_cons. by left.
      * exists (rs1 ++ [r]). split; [apply elem_of_cons; by left|].
        apply elem_of_app. by left.
    + destruct (ltb k1 k).
      * destruct (IH Hin Hx) as (rs0' & Hin' & Hx').
        exists rs0'. split; [|done]. apply elem_of_cons. by right.
      * exists rs0. split; [|done]. apply elem_of_cons. by right.
Qed.

(** Every row with a key is in a group, under an equivalent key. *)
Lemma groupby_complete (l : list A) r k :
  r ∈ l → key r = Some k →
  ∃ k' rs, (k', rs) ∈ groupby ltb key l ∧
           ltb k k' = false ∧ ltb k' k = false ∧ r ∈ rs.
Proof using ltb_irrefl.
  unfold groupby. intros Hr Hk.
  assert (∀ acc,
    (r ∈ l ∨ ∃ k' rs, (k', rs) ∈ acc ∧ ltb k k' = false ∧ ltb k' k = false ∧ r ∈ rs) →
    ∃ k' rs,
      (k', rs) ∈ foldl (λ gs r, match key r with
                                | Some k => group_insert ltb k r gs
                                | None => gs
                                end) acc l ∧
      ltb k k' = false ∧ ltb k' k = false ∧ r ∈ rs) as Hgen.
  { clear Hr. induction l as [|r0 l IH]; intros acc [Hin|Hacc]; simpl.
    - by apply elem_of_nil in Hin.
    - done.
    - apply IH. apply elem_of_cons in Hin as [->|Hin]; [|by left].
      right. rewrite Hk. apply group_insert_new.
    - apply IH. right. destruct Hacc as (k' & rs & Hin & ? & ? & Hx).
      destruct (key r0) as [k0|]; [|by exists k', rs].
      destruct (group_insert_keeps k0 r0 acc k' rs r Hin Hx) as (rs' & ? & ?).
      by exists k', rs'. }
  apply Hgen. by left.
Qed.

End GroupByOrder.

Section MonthsOfTheData.

Import MarketAnalyzer.


Lemma Qltb_lt a b : Float.Qltb a b = true ↔ (a < b)%Q.
Proof.
  unfold Float.Qltb. rewrite negb_true_iff. split.
  - intros H. apply Qnot_le_lt. intros Hle. apply Qle_bool_iff in Hle. congruence.
  - intros H. destruct (Qle_bool b a) eqn:E; [|done].
    apply Qle_bool_iff in E. lra.
Qed.

Lemma Qltb_ge a b : Float.Qltb a b = false ↔ (b <= a)%Q.
Proof.
  unfold Float.Qltb. rewrite negb_false_iff. apply Qle_bool_iff.
Qed.



End MonthsOfTheData.

Section MonthlySeries.

Import MarketAnalyzer.

Context (repr_float : float → string).
Context (std : list float → float).










End MonthlySeries.

Section MonthlySeriesOfTheAnalysis.

Import MarketAnalyzer.

Context (parse_datetime : string → option Calendar.Timestamp).
Context (parse_numeric : string → option Q).
Context (repr_float : float → string).
Context (std : list float → float).
Context (now : Calendar.Timestamp).
Context (OtherSections : Type).
Context (other_sections : DataFrame → OtherSections).
Context (default_other_sections : OtherSections).

Local Abbreviation analyze_market_trends' :=
  (analyze_market_trends parse_datetime parse_numeric repr_float std now
     OtherSections other_sections default_other_sections).
Local Abbreviation assemble' :=
  (assemble repr_float std now OtherSections other_sections).


End MonthlySeriesOfTheAnalysis.






(** * Columns of whole numbers *)

(** A column of whole numbers, none negative, some perhaps missing, that
    total 2^53 at most: pandas adds such a column up as it is, without the
    wrap-around of 64-bit integers and, in doubles, without rounding,
    whatever the order of the additions. *)
Definition whole_number (x : float) : bool :=
  match x with
  | NaN => true
  | Fin q => MarketAnalyzer.is_integral q && Qle_bool 0 q
  | _ => false
  end.

Definition adds_up (c : string) (rs : list (gmap string cell)) : Prop :=
  forallb whole_number (MarketAnalyzer.nums c rs) = true ∧
  Float.leb (Float.sum (MarketAnalyzer.nums c rs)) (Float.of_Z (2 ^ 53)) = true.

(** * Properties of the summary statistics *)

Section StatisticsProperties.

Import MarketAnalyzer.

Context (std : list float → float).
Context (now : Calendar.Timestamp).

Lemma length_sort_insert {K} (ltb : K → K → bool) key r l :
  length (sort_insert ltb key r l) = S (length l).
Proof.
  induction l as [|r' l IH]; [done|]. simpl.
  destruct (key_lt ltb key r' r); simpl; congruence.
Qed.

Lemma length_sort_rows {K} (ltb : K → K → bool) key rs :
  length (sort_rows ltb key rs) = length rs.
Proof.
  induction rs as [|r rs IH]; [done|]. simpl.
  rewrite length_sort_insert. congruence.
Qed.

Lemma length_sort_by_date rs : length (sort_by_date rs) = length rs.
Proof. apply length_sort_rows. Qed.


(** ** Records in date order *)


















(** ** The price change *)



(** The change from 400 to 460 is printed as 15.0, the change from 80 to
    103 as 28.7: the quotient 0.2875 is not a double, and a hundred times
    the double next to it is 28.749999999999996. *)
Example percent_change_400_460 :
  format_plus_1f (percent_change (Fin 400) (Fin 460)) = "+15.0"%string.
Proof. by vm_compute. Qed.

Example percent_change_80_103 :
  format_plus_1f (percent_change (Fin 80) (Fin 103)) = "+28.7"%string ∧
  percent_change (Fin 80) (Fin 103)
  = Fin (8092405580431359 # 281474976710656).
Proof. split; by vm_compute. Qed.


End StatisticsProperties.





(** Two records at 80 and 103: the change is printed as "+28.7%". *)
Example price_change_of_two_fares :
  MarketAnalyzer.nums "price" (rows (cleaned two_fares)) = [Fin 80; Fin 103] ∧
  MarketAnalyzer.st_price_change
    (MarketAnalyzer._calculate_comprehensive_statistics no_std 20071
       (cleaned two_fares)) = "+28.7%"%string.
Proof. split; by vm_compute. Qed.

(** A single record whose bookings are missing: the mean of the bookings is
    NaN, and the statistics are the static substitute. *)
Example one_record_without_bookings :
  length (rows (cleaned unrecorded_bookings)) = 1%nat ∧
  MarketAnalyzer.st_price_change
    (MarketAnalyzer._calculate_comprehensive_statistics no_std 20071
       (cleaned unrecorded_bookings)) = "+12.3%"%string.
Proof. split; by vm_compute. Qed.

(** * Properties of the market shares *)

Section RoundingAndSums.

Lemma Qrint_upper (y : Q) : (inject_Z (Float.Qrint y) <= y + (1 # 2))%Q.
Proof.
  unfold Float.Qrint. cbv zeta.
  pose proof (Qfloor_le y) as Hfl.
  destruct (Qcompare (y - inject_Z (Qfloor y)) (1 # 2)) eqn:Hc.
  - apply Qeq_alt in Hc.
    destruct (Z.even (Qfloor y)).
    + lra.
    + rewrite inject_Z_plus. change (inject_Z 1) with 1%Q. lra.
  - lra.
  - apply Qgt_alt in Hc. rewrite inject_Z_plus. change (inject_Z 1) with 1%Q. lra.
Qed.

Lemma Qrint_lower (y : Q) : (y - (1 # 2) <= inject_Z (Float.Qrint y))%Q.
Proof.
  unfold Float.Qrint. cbv zeta.
  pose proof (Qlt_floor y) as Hfl. rewrite inject_Z_plus in Hfl.
  change (inject_Z 1) with 1%Q in Hfl.
  destruct (Qcompare (y - inject_Z (Qfloor y)) (1 # 2)) eqn:Hc.
  - apply Qeq_alt in Hc.
    destruct (Z.even (Qfloor y)).
    + lra.
    + rewrite inject_Z_plus. change (inject_Z 1) with 1%Q. lra.
  - apply Qlt_alt in Hc. lra.
  - rewrite inject_Z_plus. change (inject_Z 1) with 1%Q. lra.
Qed.

(** Rounding to one decimal moves a number by at most 0.05. *)
Lemma Qround_dec_1_upper (a : Q) : (Float.Qround_dec 1 a <= a + (1 # 20))%Q.
Proof.
  unfold Float.Qround_dec. rewrite Qred_correct.
  change (inject_Z (10 ^ Z.of_nat 1)) with 10%Q.
  pose proof (Qrint_upper (a * 10)) as H.
  apply Qle_shift_div_r; [done|]. lra.
Qed.

Lemma Qround_dec_1_lower (a : Q) : (a - (1 # 20) <= Float.Qround_dec 1 a)%Q.
Proof.
  unfold Float.Qround_dec. rewrite Qred_correct.
  change (inject_Z (10 ^ Z.of_nat 1)) with 10%Q.
  pose proof (Qrint_lower (a * 10)) as H.
  apply Qle_shift_div_l; [done|]. lra.
Qed.

Lemma filter_not_nan_Fin (qs : list Q) :
  filter (λ x, Float.is_nan x = false) (Fin <$> qs) = Fin <$> qs.
Proof.
  induction qs as [|q qs IH]; [done|]. rewrite fmap_cons, filter_cons_True by done.
  by rewrite IH.
Qed.

Lemma foldl_add_Fin (acc : Q) (qs : list Q) :
  ∃ s, foldl Float.add (Fin acc) (Fin <$> qs) = Fin s ∧
       (s == acc + MarketAnalyzer.Qsum qs)%Q.
Proof.
  revert acc. induction qs as [|q qs IH]; intros acc.
  - exists acc. split; [done|]. unfold MarketAnalyzer.Qsum. simpl. lra.
  - rewrite fmap_cons. simpl foldl.
    destruct (IH (Qred (acc + q))) as (s & -> & Hs).
    exists s. split; [done|]. rewrite Hs, Qred_correct.
    unfold MarketAnalyzer.Qsum. simpl. lra.
Qed.

(** The sum of a series of finite numbers is their exact sum. *)
Lemma sum_Fin (qs : list Q) :
  ∃ s, Float.sum (Fin <$> qs) = Fin s ∧ (s == MarketAnalyzer.Qsum qs)%Q.
Proof.
  unfold Float.sum. rewrite filter_not_nan_Fin.
  destruct (foldl_add_Fin 0 qs) as (s & -> & Hs).
  exists s. split; [done|]. lra.
Qed.

Lemma Qsum_nonneg (qs : list Q) :
  Forall (λ q, 0 <= q)%Q qs → (0 <= MarketAnalyzer.Qsum qs)%Q.
Proof.
  induction 1 as [|q qs Hq _ IH]; unfold MarketAnalyzer.Qsum in *; simpl; lra.
Qed.

Lemma Qsum_take_le (n : nat) (qs : list Q) :
  Forall (λ q, 0 <= q)%Q qs →
  (MarketAnalyzer.Qsum (take n qs) <= MarketAnalyzer.Qsum qs)%Q.
Proof.
  intros H. revert n. induction H as [|q qs Hq Hqs IH]; intros [|n]; simpl.
  - lra.
  - lra.
  - pose proof (Qsum_nonneg (q :: qs) (Forall_cons_2 _ _ _ Hq Hqs)) as H0.
    unfold MarketAnalyzer.Qsum in *. simpl in *. lra.
  - specialize (IH n). unfold MarketAnalyzer.Qsum in *. simpl. lra.
Qed.

End RoundingAndSums.

Section GroupRows.

Import MarketAnalyzer.

Context {K A : Type} (ltb : K → K → bool) (key : A → option K).

Lemma group_insert_rows k r (gs : list (K * list A)) k' rs x :
  (k', rs) ∈ group_insert ltb k r gs → x ∈ rs →
  x = r ∨ ∃ k0 rs0, (k0, rs0) ∈ gs ∧ x ∈ rs0.
Proof.
  induction gs as [|[k0 rs0] gs IH]; simpl.
  - intros H Hx. apply list_elem_of_singleton in H. injection H as -> ->.
    apply list_elem_of_singleton in Hx. by left.
  - destruct (ltb k k0).
    { intros H Hx. apply elem_of_cons in H as [E|Hin].
      - injection E as -> ->. apply list_elem_of_singleton in Hx. by left.
      - right. by exists k', rs. }
    destruct (ltb k0 k).
    + intros H Hx. apply elem_of_cons in H as [E|Hin].
      * injection E as -> ->. right. exists k0, rs0. split; [|done].
        apply elem_of_cons. by left.
      * destruct (IH Hin Hx) as [->|(k1 & rs1 & Hin1 & Hx1)]; [by left|].
        right. exists k1, rs1. split; [|done]. apply elem_of_cons. by right.
    + intros H Hx. apply elem_of_cons in H as [E|Hin].
      * injection E as -> ->. apply elem_of_app in Hx as [Hx|Hx].
        -- right. exists k0, rs0. split; [|done]. apply elem_of_cons. by left.
        -- apply list_elem_of_singleton in Hx. by left.
      * right. exists k', rs. split; [|done]. apply elem_of_cons. by right.
Qed.

(** The rows of a group of [groupby] are rows of the frame. *)
Lemma groupby_rows_from_list (l : list A) k rs x :
  (k, rs) ∈ groupby ltb key l → x ∈ rs → x ∈ l.
Proof.
  unfold groupby.
  assert (∀ l' acc,
    (∀ k rs x, (k, rs) ∈ acc → x ∈ rs → x ∈ l) →
    l' ⊆ l →
    ∀ k rs x,
      (k, rs) ∈ foldl (λ gs r, match key r with
                               | Some k => group_insert ltb k r gs
                               | None => gs
                               end) acc l' →
      x ∈ rs → x ∈ l) as Hgen.
  { induction l' as [|r l' IH]; intros acc Hacc Hsub k0 rs0 x0; simpl.
    - apply Hacc.
    - apply IH; [|set_solver].
      intros k1 rs1 x1 Hin Hx. destruct (key r) as [kr|] eqn:Hkr; [|by eapply Hacc].
      destruct (group_insert_rows _ _ _ _ _ _ Hin Hx) as [->|(k2 & rs2 & Hin2 & Hx2)].
      + set_solver.
      + by eapply Hacc. }
  apply (Hgen l []); [|done]. intros k1 rs1 x1 H. by apply elem_of_nil in H.
Qed.

End GroupRows.

(** * Properties of the market shares *)

Section MarketShares.

Import MarketAnalyzer.

(** A number of bookings that is missing or not negative. *)
Definition nonneg_or_missing (x : float) : Prop :=
  x = NaN ∨ ∃ q, x = Fin q ∧ (0 <= q)%Q.

Definition nonneg_or_missingb (x : float) : bool :=
  match x with
  | NaN => true
  | Fin q => Qle_bool 0 q
  | _ => false
  end.

Definition bookings_nonneg (data : DataFrame) : Prop :=
  forallb (λ row, nonneg_or_missingb (row_num "bookings" row)) (rows data) = true.

Lemma bookings_nonneg_row data row :
  bookings_nonneg data → row ∈ rows data →
  nonneg_or_missing (row_num "bookings" row).
Proof.
  intros H Hrow. unfold bookings_nonneg in H.
  rewrite forallb_forall in H. apply list_elem_of_In in Hrow.
  specialize (H row Hrow). unfold nonneg_or_missing.
  destruct (row_num "bookings" row) as [| | |q]; try done.
  - by left.
  - right. exists q. split; [done|]. by apply Qle_bool_iff.
Qed.

Lemma filter_nonneg (xs : list float) :
  Forall nonneg_or_missing xs →
  ∃ qs, filter (λ x, Float.is_nan x = false) xs = Fin <$> qs ∧
        Forall (λ q, 0 <= q)%Q qs.
Proof.
  induction 1 as [|x xs Hx _ (qs & IH & Hqs)].
  - by exists [].
  - destruct Hx as [->|(q & -> & Hq)].
    + rewrite filter_cons_False by done. by exists qs.
    + rewrite filter_cons_True by done. exists (q :: qs).
      split; [by rewrite IH|by constructor].
Qed.

Lemma sum_nonneg (xs : list float) :
  Forall nonneg_or_missing xs →
  ∃ s, Float.sum xs = Fin s ∧ (0 <= s)%Q.
Proof.
  intros (qs & Hf & Hqs)%filter_nonneg. unfold Float.sum. rewrite Hf.
  destruct (foldl_add_Fin 0 qs) as (s & -> & Hs).
  exists s. split; [done|]. pose proof (Qsum_nonneg qs Hqs). lra.
Qed.

Definition finite_nonneg (x : float) : Prop := ∃ q, x = Fin q ∧ (0 <= q)%Q.

Lemma route_stats_nonneg data :
  bookings_nonneg data →
  Forall (λ r, finite_nonneg (rs_bookings r)) (route_stats_of data).
Proof.
  intros Hdata. unfold route_stats_of. apply Forall_fmap, Forall_forall.
  intros [k rs] Hg. cbn [rs_bookings snd compose]. apply sum_nonneg.
  unfold nums. apply Forall_fmap, Forall_forall. intros row Hrow.
  apply (bookings_nonneg_row data); [done|]. by eapply groupby_rows_from_list.
Qed.

Lemma insert_desc_Forall (P : RouteStat → Prop) x l :
  P x → Forall P l → Forall P (insert_desc x l).
Proof.
  intros Hx. induction 1 as [|y l Hy Hl IH]; simpl.
  - by constructor.
  - destruct (goes_before _ _); repeat constructor; done.
Qed.

Lemma sort_desc_Forall (P : RouteStat → Prop) l :
  Forall P l → Forall P (sort_desc l).
Proof.
  induction 1 as [|x l Hx Hl IH]; simpl; [constructor|].
  by apply insert_desc_Forall.
Qed.

Lemma length_insert_desc x l : length (insert_desc x l) = S (length l).
Proof.
  induction l as [|y l IH]; [done|]. simpl.
  destruct (goes_before _ _); simpl; congruence.
Qed.

Lemma length_sort_desc l : length (sort_desc l) = length l.
Proof.
  induction l as [|x l IH]; [done|]. simpl. rewrite length_insert_desc. congruence.
Qed.

Lemma finite_nonneg_list (xs : list float) :
  Forall finite_nonneg xs →
  ∃ qs, xs = Fin <$> qs ∧ Forall (λ q, 0 <= q)%Q qs.
Proof.
  induction 1 as [|x xs (q & -> & Hq) _ (qs & -> & Hqs)].
  - by exists [].
  - exists (q :: qs). split; [done|by constructor].
Qed.

Lemma Qltb_true a b : Float.Qltb a b = true → (a < b)%Q.
Proof.
  unfold Float.Qltb. intros H. apply negb_true_iff in H.
  apply Qnot_le_lt. intros Hle. apply Qle_bool_iff in Hle. congruence.
Qed.

(** The share of a route with [b] bookings out of a total of [T]. *)
Definition share (T b : Q) : Q :=
  Float.Qround_dec 1 (Qred (Qred (b / T) * inject_Z 100)).

Lemma market_share_Fin T b r :
  (0 < T)%Q → rs_bookings r = Fin b →
  market_share (Fin T) r = Fin (share T b).
Proof.
  intros HT Hb. unfold market_share, share. rewrite Hb.
  unfold Float.div. destruct (Qeq_bool T 0) eqn:HT0.
  { apply Qeq_bool_iff in HT0. lra. }
  done.
Qed.

Lemma share_upper T b : (0 < T)%Q → (share T b <= b * / T * 100 + (1 # 20))%Q.
Proof.
  intros HT. unfold share.
  eapply Qle_trans; [apply Qround_dec_1_upper|].
  rewrite !Qred_correct. change (inject_Z 100) with 100%Q.
  unfold Qdiv. lra.
Qed.

Lemma Qsum_shares_upper T (bs : list Q) :
  (0 < T)%Q →
  (Qsum (share T <$> bs) <=
   Qsum bs * / T * 100 + (1 # 20) * inject_Z (Z.of_nat (length bs)))%Q.
Proof.
  intros HT. induction bs as [|b bs IH].
  - unfold Qsum. cbn [fmap list_fmap foldr length]. set (c := (/ T)%Q).
    change (inject_Z (Z.of_nat 0)) with 0%Q. lra.
  - pose proof (share_upper T b HT) as Hb.
    rewrite fmap_cons. cbn [length]. rewrite Nat2Z.inj_succ.
    unfold Z.succ. rewrite inject_Z_plus. change (inject_Z 1) with 1%Q.
    unfold Qsum in *. cbn [foldr].
    set (c := (/ T)%Q) in *.
    assert ((b + foldr Qplus 0 bs) * c * 100 ==
            b * c * 100 + foldr Qplus 0 bs * c * 100)%Q as -> by ring.
    lra.
Qed.

Lemma market_shares_Fin T (stats : list RouteStat) (bs : list Q) n :
  (0 < T)%Q → rs_bookings <$> stats = Fin <$> bs →
  market_share (Fin T) <$> take n stats = Fin <$> (share T <$> take n bs).
Proof.
  intros HT. revert bs n.
  induction stats as [|r stats IH]; intros [|b bs] [|n] H; try done.
  rewrite !fmap_cons in H. injection H as Hb Hrest.
  cbn [take fmap list_fmap]. f_equal.
  - by apply market_share_Fin.
  - by apply IH.
Qed.

(** The total the shares are taken of: the bookings of all routes. *)
Definition total_route_bookings (data : DataFrame) : float :=
  Float.sum (rs_bookings <$> sort_desc (route_stats_of data)).

Lemma market_share_sum_computed (data : DataFrame) (pr : PopularRoutes) :
  popular_routes_body data = Ret pr →
  bookings_nonneg data →
  Float.gtb (total_route_bookings data) (Float.of_Z 0) = true →
  ∃ s, Float.sum (tr_market_share pr) = Fin s ∧
       (length (tr_market_share pr) ≤ 10)%nat ∧
       (s <= 100 + (1 # 20) * inject_Z (Z.of_nat (length (tr_market_share pr))))%Q.
Proof.
  intros Hbody Hnn Hpos. unfold popular_routes_body in Hbody.
  obind_inv Hbody. cbn [tr_market_share].
  unfold total_route_bookings in Hpos.
  set (stats := sort_desc (route_stats_of data)) in *.
  assert (Forall finite_nonneg (rs_bookings <$> stats)) as Hfin.
  { apply Forall_fmap. apply sort_desc_Forall. by apply route_stats_nonneg. }
  destruct (finite_nonneg_list _ Hfin) as (bs & Hbs & Hbs0).
  rewrite Hbs in *.
  destruct (sum_Fin bs) as (T & HT & HTs). rewrite HT in *.
  assert (0 < T)%Q as HT0 by (by apply Qltb_true in Hpos).
  unfold head. rewrite (market_shares_Fin T stats bs 10 HT0 Hbs).
  destruct (sum_Fin (share T <$> take 10 bs)) as (s & -> & Hs).
  exists s. rewrite !length_fmap.
  assert (length (take 10 bs) ≤ 10)%nat as Hlen by (rewrite length_take; lia).
  split_and!; [done|done|].
  rewrite Hs.
  eapply Qle_trans; [by apply Qsum_shares_upper|].
  pose proof (Qsum_take_le 10 bs Hbs0) as Htake.
  pose proof (Qsum_nonneg (take 10 bs) (Forall_take _ _ _ Hbs0)) as Hnonneg.
  assert (Qsum (take 10 bs) * / T <= 1)%Q as Hfrac.
  { assert (1 == T * / T)%Q as -> by (rewrite Qmult_inv_r; [done|lra]).
    apply Qmult_le_compat_r; [lra|].
    apply Qlt_le_weak, Qinv_lt_0_compat, HT0. }
  set (frac := (Qsum (take 10 bs) * / T)%Q) in *. lra.
Qed.

Lemma adds_up_nonneg data :
  adds_up "bookings" (rows data) → bookings_nonneg data.
Proof.
  intros [H _]. unfold bookings_nonneg.
  rewrite forallb_forall in H. apply forallb_forall. intros row Hrow.
  assert (In (row_num "bookings" row) (nums "bookings" (rows data))) as Hin.
  { apply list_elem_of_In, list_elem_of_fmap_2. by apply list_elem_of_In. }
  specialize (H _ Hin). unfold whole_number, nonneg_or_missingb in *.
  destruct (row_num "bookings" row) as [| | |q]; try done.
  by apply andb_true_iff in H as [_ ?].
Qed.

(** C5, as amended.  For a table whose bookings are whole numbers, none
    negative, that add up without wrap-around or rounding, and whose
    routes total a positive number of bookings, the market shares listed in
    [top_routes] are at most ten and their sum is at most 100 plus 0.05 for
    every listed route (each share is rounded to one decimal on its own),
    hence at most 100.5. *)
Theorem market_share_sum_bound (data : DataFrame) :
  adds_up "bookings" (rows data) →
  Float.gtb (total_route_bookings data) (Float.of_Z 0) = true →
  let shares := tr_market_share (_analyze_popular_routes data) in
  ∃ s, Float.sum shares = Fin s ∧
       (length shares ≤ 10)%nat ∧
       (s <= 100 + (1 # 20) * inject_Z (Z.of_nat (length shares)))%Q ∧
       (s <= 100 + (1 # 2))%Q.
Proof.
  intros Hnn%adds_up_nonneg Hpos. cbv zeta. unfold _analyze_popular_routes.
  destruct (popular_routes_body data) as [pr|e] eqn:Hbody.
  - destruct (market_share_sum_computed data pr Hbody Hnn Hpos)
      as (s & Hs & Hlen & Hbound).
    exists s. split_and!; [done|done|done|].
    eapply Qle_trans; [exact Hbound|].
    assert (inject_Z (Z.of_nat (length (tr_market_share pr))) <= 10)%Q.
    { change 10%Q with (inject_Z 10). rewrite <- Zle_Qle. lia. }
    lra.
  - exists (452 # 5)%Q. split_and!; [by vm_compute| |by vm_compute..].
    vm_compute. lia.
Qed.

End MarketShares.

(** The claim C5 as it is stated: the listed market shares of a cleaned
    table with a positive total of bookings sum to at most 100. *)
Definition market_shares_sum_to_at_most_100 : Prop :=
  ∀ parse_datetime parse_numeric (h : store) (flight_data : ref) t r h' data,
    h !! flight_data = Some t →
    MarketAnalyzer.clean_body parse_datetime parse_numeric flight_data h = (Ret r, h') →
    h' !! r = Some data →
    Float.gtb (total_route_bookings data) (Float.of_Z 0) = true →
    Float.leb
      (Float.sum (MarketAnalyzer.tr_market_share
                    (MarketAnalyzer._analyze_popular_routes data)))
      (Float.of_Z 100) = true.

(** C5 fails on the code: each of the seven routes has the share
    100/7 = 14.2857..., listed as 14.3, and seven times 14.3 is 100.1. *)
Lemma seven_equal_routes_exceed_100 : ¬ market_shares_sum_to_at_most_100.
Proof.
  intros H.
  specialize (H no_datetime no_numeric [seven_routes] 0%nat seven_routes 3%nat
                (snd (MarketAnalyzer.clean_body no_datetime no_numeric 0%nat
                        [seven_routes]))
                (cleaned seven_routes)).
  assert (Float.sum (MarketAnalyzer.tr_market_share
                       (MarketAnalyzer._analyze_popular_routes
                          (cleaned seven_routes))) = Fin (1001 # 10)) as Hcode
    by (vm_compute; reflexivity).
  rewrite Hcode in H.
  assert (Float.leb (Fin (1001 # 10)) (Float.of_Z 100) = false) as Hgt
    by (vm_compute; reflexivity).
  rewrite H in Hgt; [discriminate Hgt|vm_compute; reflexivity..].
Qed.

Lemma market_share_sum_bound_witness :
  adds_up "bookings" (rows (cleaned seven_routes)) ∧
  Float.gtb (total_route_bookings (cleaned seven_routes)) (Float.of_Z 0) = true ∧
  ∃ s, Float.sum (MarketAnalyzer.tr_market_share
                    (MarketAnalyzer._analyze_popular_routes
                       (cleaned seven_routes))) = Fin s ∧
       (s <= 100 + (1 # 2))%Q.
Proof.
  assert (adds_up "bookings" (rows (cleaned seven_routes))) as E2
    by (split; vm_compute; reflexivity).
  assert (Float.gtb (total_route_bookings (cleaned seven_routes))
                    (Float.of_Z 0) = true) as E3 by (vm_compute; reflexivity).
  destruct (market_share_sum_bound (cleaned seven_routes) E2 E3)
    as (s & Hs & _ & _ & Hle).
  exact (conj E2 (conj E3 (ex_intro _ s (conj Hs Hle)))).
Defined.

(** * Properties of the forecast *)

Section ForecastProperties.

Import MarketAnalyzer.

Context (now : Calendar.Timestamp).

(** With seven records or fewer the local variable [trend] is never bound:
    building the result raises, and the forecast is the static one. *)
Lemma forecast_of_short_table (data : DataFrame) :
  (length (rows data) ≤ 7)%nat →
  _generate_forecasts now data = default_forecast.
Proof.
  intros Hlen. unfold _generate_forecasts, forecasts_body.
  destruct (require _ data) as [[]|e]; [|done]. cbn [obind].
  rewrite bool_decide_eq_false_2 by lia.
  destruct (int _) as [z|e]; done.
Qed.

End ForecastProperties.

Section ForecastOfLongTables.

Import MarketAnalyzer.

Context (now : Calendar.Timestamp).

(** With more than seven records the forecast is computed as specified: the
    mean of the last seven prices in date order plus seven times the slope,
    times the factor of the current month, cut to an integer. *)
Lemma forecast_of_long_table (data : DataFrame) (f : Forecast) :
  (7 < length (rows data))%nat →
  forecasts_body now data = Ret f →
  let prices := nums "price" (sort_by_date (rows data)) in
  let factor := default 1%Q (seasonal_factors (Calendar.month now)) in
  int (Float.mul
         (Float.add (Float.mean (tail 7 prices))
                    (Float.mul (_calculate_trend prices) (Float.of_Z 7)))
         (Fin factor)) = Ret (pf_next_week f) ∧
  pf_confidence f = "Medium"%string ∧
  df_next_week f =
    (if bool_decide (Calendar.month now ∈ [12; 1; 6; 7])
     then "High" else "Medium")%string.
Proof.
  intros Hlen Hbody. unfold forecasts_body in Hbody.
  apply obind_Ret in Hbody as ([] & _ & Hbody).
  rewrite bool_decide_eq_true_2 in Hbody by lia.
  apply obind_Ret in Hbody as (next_week & Hint & Hbody).
  apply obind_Ret in Hbody as (trend & _ & Hbody).
  apply Ret_inj in Hbody as <-. by cbn.
Qed.

End ForecastOfLongTables.


(** C9 fails on the code.  The cleaned table of [single_flight] has one
    record, at 400; in December the claim gives the price forecast
    400 x 1.3 = 520 and the demand forecast "High", the code returns its
    static forecast, 495 and "Medium". *)
Theorem forecast_of_single_flight_in_december :
  Calendar.month 20071 = 12 ∧
  MarketAnalyzer.nums "price" (rows (cleaned single_flight)) = [Fin 400] ∧
  MarketAnalyzer.seasonal_factors 12 = Some (13 # 10)%Q ∧
  MarketAnalyzer._generate_forecasts 20071 (cleaned single_flight)
    = MarketAnalyzer.default_forecast ∧
  MarketAnalyzer.pf_next_week
    (MarketAnalyzer._generate_forecasts 20071 (cleaned single_flight)) = 495 ∧
  MarketAnalyzer.df_next_week
    (MarketAnalyzer._generate_forecasts 20071 (cleaned single_flight))
    = "Medium"%string.
Proof.
  assert (MarketAnalyzer._generate_forecasts 20071 (cleaned single_flight)
          = MarketAnalyzer.default_forecast) as H.
  { apply forecast_of_short_table. vm_compute. lia. }
  rewrite H. split_and!; by vm_compute.
Qed.

(** * Integers as doubles *)

Section Doubles.

Lemma Qpower_2_log2 (y : Z) : 0 < y → (2 ^ Z.log2 y <= inject_Z y)%Q.
Proof.
  intros Hy. pose proof (Z.log2_spec y Hy) as [Hlo _].
  pose proof (Z.log2_nonneg y) as H0.
  change 2%Q with (inject_Z 2). rewrite <- Zpower_Qpower by done.
  by rewrite <- Zle_Qle.
Qed.

Lemma ilog2_integer (y : Z) : Float.ilog2 (inject_Z y) ≤ Z.log2 y.
Proof.
  unfold Float.ilog2. cbn [Qnum Qden inject_Z].
  change (Z.log2 1) with 0. rewrite Z.sub_0_r.
  destruct (Float.Qltb _ _); lia.
Qed.

(** The double next to a positive integer is not zero. *)
Lemma round64_positive_integer (y : Z) :
  0 < y → InsightsGenerator.is_zero (Float.round64 (inject_Z y)) = false.
Proof.
  intros Hy. unfold Float.round64.
  assert (0 < inject_Z y)%Q as Hq.
  { change 0%Q with (inject_Z 0). by rewrite <- Zlt_Qlt. }
  assert (Qeq_bool (inject_Z y) 0 = false) as ->.
  { apply not_true_iff_false. intros H%Qeq_bool_iff. lra. }
  assert (Float.Qltb (inject_Z y) 0 = false) as ->.
  { unfold Float.Qltb. apply negb_false_iff, Qle_bool_iff. lra. }
  cbv zeta.
  set (e := Z.max (Float.ilog2 (inject_Z y)) (-1022)).
  set (ulp := (2 ^ (e - 52))%Q).
  assert (0 < ulp)%Q as Hulp by (by apply Qpower_0_lt).
  assert (ulp <= inject_Z y)%Q as Hle.
  { eapply Qle_trans; [|by apply Qpower_2_log2].
    apply Qpower_le_compat_l; [|done].
    pose proof (ilog2_integer y). pose proof (Z.log2_nonneg y). lia. }
  set (k := Float.Qrint (inject_Z y / ulp)).
  assert (1 ≤ k) as Hk.
  { pose proof (Qrint_lower (inject_Z y / ulp)) as Hlow. fold k in Hlow.
    assert (1 <= inject_Z y / ulp)%Q as H1.
    { apply Qle_shift_div_l; [done|]. lra. }
    destruct (Z.le_gt_cases 1 k) as [|Hk0]; [done|].
    assert (inject_Z k <= 0)%Q as Hneg.
    { change 0%Q with (inject_Z 0). rewrite <- Zle_Qle. lia. }
    lra. }
  assert (0 < Qred (inject_Z k * ulp))%Q as Hr.
  { rewrite Qred_correct. apply Qmult_lt_0_compat; [|done].
    change 0%Q with (inject_Z 0). rewrite <- Zlt_Qlt. lia. }
  destruct (Qle_bool _ _).
  - cbn [Qnum inject_Z]. rewrite Z.sgn_pos by done. done.
  - unfold InsightsGenerator.is_zero. apply not_true_iff_false.
    intros H%Qeq_bool_iff. lra.
Qed.

End Doubles.

(** * Properties of the insight generator *)

Section InsightProperties.

Import InsightsGenerator.

Context (py_repr : value → string).
Context (post : nat → response).
Context (_parse_ai_insights : string → list Insight).
Context (current_month : Z).

Local Abbreviation generate_insights' :=
  (generate_insights py_repr post _parse_ai_insights current_month).
Local Abbreviation fallback_insights' := (_generate_fallback_insights current_month).

(** An analysis object of the shape the analyzer documents: a non-empty
    dictionary whose sections [statistics], [popular_routes] and
    [seasonal_trends], where present, are dictionaries; in the statistics
    the demand score, where present, is a number, and the average price, the
    price change and the number of routes are numbers, texts, truth values
    or None; the bookings of the routes and the seasonal demand, where
    present, are empty or lists of numbers.  The integers are those of 64
    bits, as the analyzer makes them. *)
Definition is_small (z : Z) : bool := (- 2 ^ 63 <=? z) && (z <? 2 ^ 63).

Definition is_number (v : value) : bool :=
  match v with
  | VInt z => is_small z
  | VFloat _ | VBool _ => true
  | _ => false
  end.

Definition is_scalar (v : value) : bool :=
  match v with
  | VNone | VStr _ => true
  | VList _ | VDict _ => false
  | _ => is_number v
  end.

Definition series_ok (v : value) : bool :=
  negb (truthy v) ||
  match v with
  | VList l => forallb is_number l
  | _ => false
  end.

Definition entry_ok (d : gmap string value) (key : string) (ok : value → bool)
  : bool :=
  match d !! key with
  | Some v => ok v
  | None => true
  end.

Definition section_ok (d : gmap string value) (key : string)
    (ok : gmap string value → bool) : bool :=
  entry_ok d key (λ v, match v with VDict s => ok s | _ => false end).

Definition statistics_ok (s : gmap string value) : bool :=
  entry_ok s "demand_score" is_number &&
  entry_ok s "avg_price" is_scalar &&
  entry_ok s "price_change" is_scalar &&
  entry_ok s "total_routes" is_scalar.

Definition well_formed (v : value) : bool :=
  match v with
  | VDict d =>
      truthy v &&
      section_ok d "statistics" statistics_ok &&
      section_ok d "popular_routes" (λ s, entry_ok s "bookings" series_ok) &&
      section_ok d "seasonal_trends" (λ s, entry_ok s "demand" series_ok)
  | _ => false
  end.

Lemma number_is_number v : is_number v = true → ∃ x, number v = Ret x.
Proof. destruct v; try done; by eexists. Qed.

Lemma extreme_numbers better best l :
  forallb is_number l = true → is_number (fst best) = true →
  ∃ v, extreme better best l = Ret v ∧ is_number v = true.
Proof.
  revert best. induction l as [|v l IH]; intros best Hl Hbest; simpl.
  - by exists (fst best).
  - simpl in Hl. apply andb_true_iff in Hl as [Hv Hl].
    destruct (number_is_number v Hv) as [x ->]. cbn [obind].
    destruct (better x (snd best)); by apply IH.
Qed.

Lemma extreme_of_series better v :
  series_ok v = true → truthy v = true →
  ∃ w, extreme_of better v = Ret w ∧ is_number w = true.
Proof.
  unfold series_ok. intros H Ht. rewrite Ht in H. cbn [negb orb] in H.
  destruct v as [| | | | |l|]; try done.
  destruct l as [|v0 l]; [by simpl in Ht|]. cbn [forallb] in H.
  apply andb_true_iff in H as [Hv0 Hl].
  unfold extreme_of. destruct (number_is_number v0 Hv0) as [x ->]. cbn [obind].
  by apply extreme_numbers.
Qed.

Lemma demand_insight_title v :
  is_number v = true →
  ∃ i, demand_insight py_repr v = Ret i ∧ title i = "Demand Assessment"%string.
Proof.
  intros Hv. unfold demand_insight, gt.
  destruct (number_is_number v Hv) as [x ->]. cbn [obind].
  destruct (Float.gtb x (Float.of_Z 75)); [by eexists|].
  destruct (Float.gtb x (Float.of_Z 50)); by eexists.
Qed.

Lemma route_insight_title total_routes (s : gmap string value) :
  entry_ok s "bookings" series_ok = true →
  ∃ i, route_insight py_repr total_routes (VDict s) = Ret i ∧
       (title i = "Route Network Optimization"%string ∨
        title i = "Route Network Analysis"%string).
Proof.
  unfold entry_ok, route_insight, get, getitem. intros Hs.
  destruct (s !! "bookings"%string) as [b|] eqn:Hb; cbn [default from_option id obind].
  - destruct (truthy b) eqn:Ht; [|eexists; split; [done|by right]].
    cbn [obind].
    destruct (extreme_of_series Float.gtb b Hs Ht) as (w & Hw & _).
    unfold py_max. rewrite Hw. cbn [obind]. eexists. split; [done|by left].
  - cbn [truthy]. eexists. split; [done|by right].
Qed.

(** *** The arithmetic of the seasonal variation *)

Lemma huge_large : 2 ^ 64 < huge.
Proof. by vm_compute. Qed.

Lemma is_small_bounds z : is_small z = true → - 2 ^ 63 ≤ z < 2 ^ 63.
Proof. unfold is_small. intros [?%Z.leb_le ?%Z.ltb_lt]%andb_true_iff. done. Qed.

Lemma integer_of_number v z :
  is_number v = true → integer v = Some z → - 2 ^ 63 ≤ z < 2 ^ 63.
Proof.
  destruct v as [|b|z'| | | |]; try done; intros H [= <-].
  - destruct b; lia.
  - by apply is_small_bounds.
Qed.

(** What a difference of two numbers is: a double, or an integer of 65
    bits. *)
Definition is_difference (v : value) : bool :=
  match v with
  | VInt z => Z.abs z <? 2 ^ 64
  | VFloat _ => true
  | _ => false
  end.

Lemma not_huge z : Z.abs z ≤ 2 ^ 64 → (huge <=? Z.abs z) = false.
Proof. intros H. apply Z.leb_gt. pose proof huge_large. lia. Qed.

Lemma to_float_number v : is_number v = true → ∃ x, to_float v = Ret x.
Proof.
  intros Hv. destruct v as [|b|z|x| | |]; try done.
  - exists (Float.round64 (inject_Z (if b then 1 else 0))).
    unfold to_float. cbn [integer]. rewrite not_huge; [done|]. destruct b; lia.
  - exists (Float.round64 (inject_Z z)).
    unfold to_float. cbn [integer]. rewrite not_huge; [done|].
    apply is_small_bounds in Hv. lia.
  - by exists x.
Qed.

Lemma to_float_difference v : is_difference v = true → ∃ x, to_float v = Ret x.
Proof.
  intros Hv. destruct v as [| |z|x| | |]; try done.
  - exists (Float.round64 (inject_Z z)).
    unfold to_float. cbn [integer]. rewrite not_huge; [done|].
    apply Z.ltb_lt in Hv. lia.
  - by exists x.
Qed.

Lemma py_sub_numbers a b :
  is_number a = true → is_number b = true →
  ∃ d, py_sub a b = Ret d ∧ is_difference d = true.
Proof.
  intros Ha Hb. unfold py_sub.
  destruct (integer a) as [x|] eqn:Hx; [destruct (integer b) as [y|] eqn:Hy|].
  - exists (VInt (x - y)). split; [done|]. cbn [is_difference].
    apply Z.ltb_lt.
    pose proof (integer_of_number a x Ha Hx).
    pose proof (integer_of_number b y Hb Hy). lia.
  - destruct (to_float_number a Ha) as [fa ->], (to_float_number b Hb) as [fb ->].
    cbn [obind]. by eexists.
  - destruct (to_float_number a Ha) as [fa ->], (to_float_number b Hb) as [fb ->].
    cbn [obind]. by eexists.
Qed.

Lemma positive_integer v y :
  integer v = Some y → gt v 0 = Ret true → 0 < y.
Proof.
  destruct v as [|b|z| | | |]; try done; intros [= <-] H.
  - destruct b; [lia|by vm_compute in H].
  - unfold gt in H. cbn [number obind] in H. apply Ret_inj in H.
    unfold Float.gtb, Float.of_Z in H. cbn [Float.ltb] in H.
    apply Qltb_true in H. change 0%Q with (inject_Z 0) in H.
    by rewrite <- Zlt_Qlt in H.
Qed.

Lemma to_float_positive v :
  is_number v = true → gt v 0 = Ret true →
  ∃ x, to_float v = Ret x ∧ is_zero x = false.
Proof.
  intros Hv Hpos. destruct (integer v) as [y|] eqn:Hy.
  - pose proof (positive_integer v y Hy Hpos) as Hy0.
    pose proof (integer_of_number v y Hv Hy) as Hys.
    exists (Float.round64 (inject_Z y)). split.
    + unfold to_float. rewrite Hy. rewrite not_huge by lia.
      by destruct v.
    + by apply round64_positive_integer.
  - destruct v as [| | |x| | |]; try done. exists x. split; [done|].
    unfold gt in Hpos. cbn [number obind] in Hpos. apply Ret_inj in Hpos.
    destruct x as [| | |q]; try done.
    unfold Float.gtb, Float.of_Z in Hpos. cbn [Float.ltb] in Hpos.
    apply Qltb_true in Hpos. cbn [is_zero].
    apply not_true_iff_false. intros H%Qeq_bool_iff.
    change (inject_Z 0) with 0%Q in Hpos. lra.
Qed.

(** The quotient by a positive number is a double: nothing is raised. *)
Lemma py_truediv_numbers d b :
  is_difference d = true → is_number b = true → gt b 0 = Ret true →
  ∃ x, py_truediv d b = Ret (VFloat x).
Proof.
  intros Hd Hb Hpos. unfold py_truediv.
  destruct (to_float_difference d Hd) as [fd Hfd].
  destruct (to_float_positive b Hb Hpos) as (fb & Hfb & Hnz).
  destruct (integer d) as [x|] eqn:Hx; [destruct (integer b) as [y|] eqn:Hy|].
  - pose proof (positive_integer b y Hy Hpos) as Hy0.
    assert (Z.abs x < 2 ^ 64) as Hxs.
    { destruct d as [| |z| | | |]; try done. injection Hx as <-.
      by apply Z.ltb_lt in Hd. }
    rewrite (proj2 (Z.eqb_neq y 0)) by lia.
    assert ((huge * Z.abs y <=? Z.abs x) = false) as ->.
    { apply Z.leb_gt. pose proof huge_large. nia. }
    by eexists.
  - rewrite Hfd, Hfb. cbn [obind]. rewrite Hnz. by eexists.
  - rewrite Hfd, Hfb. cbn [obind]. rewrite Hnz. by eexists.
Qed.

Lemma py_mul_100 x : ∃ y, py_mul (VFloat x) (VInt 100) = Ret (VFloat y).
Proof.
  unfold py_mul. cbn [integer to_float obind].
  rewrite not_huge by lia. cbn [obind]. by eexists.
Qed.

Lemma to_float_0 : ∃ x, to_float (VInt 0) = Ret x.
Proof. unfold to_float. cbn [integer]. rewrite not_huge by lia. by eexists. Qed.

Lemma seasonal_insight_title (s : gmap string value) :
  entry_ok s "demand" series_ok = true →
  ∃ i, seasonal_insight py_repr (VDict s) = Ret i ∧
       (title i = "Seasonal Strategy & Growth"%string ∨
        title i = "Strategic Growth Opportunities"%string).
Proof.
  unfold entry_ok, seasonal_insight, get, getitem. intros Hs.
  destruct (s !! "demand"%string) as [b|] eqn:Hb; cbn [default from_option id obind].
  - destruct (truthy b) eqn:Ht; [|eexists; split; [done|by right]].
    cbn [obind].
    destruct (extreme_of_series Float.gtb b Hs Ht) as (hi & Hhi & Nhi).
    destruct (extreme_of_series Float.ltb b Hs Ht) as (lo & Hlo & Nlo).
    unfold py_max, py_min. rewrite Hhi, Hlo. cbn [obind].
    destruct (gt lo 0) as [[|]|e] eqn:Hpos.
    + cbn [obind].
      destruct (py_sub_numbers hi lo Nhi Nlo) as (d & -> & Hd). cbn [obind].
      destruct (py_truediv_numbers d lo Hd Nlo Hpos) as (x & ->). cbn [obind].
      destruct (py_mul_100 x) as (y & ->). cbn [obind to_float].
      eexists. split; [done|by left].
    + cbn [obind]. destruct to_float_0 as [x ->]. cbn [obind].
      eexists. split; [done|by left].
    + unfold gt in Hpos. by destruct (number_is_number lo Nlo) as [y Hy];
        rewrite Hy in Hpos.
  - cbn [truthy]. eexists. split; [done|by right].
Qed.

(** The section of the analysis under [key]: a dictionary, empty when the
    key is absent. *)
Definition section_of (d : gmap string value) (key : string)
  : gmap string value :=
  match d !! key with
  | Some (VDict s) => s
  | _ => ∅
  end.

Lemma get_section d key ok :
  section_ok d key ok = true →
  get (VDict d) key (VDict ∅) = Ret (VDict (section_of d key)).
Proof.
  unfold section_ok, entry_ok, section_of, get.
  destruct (d !! key) as [[| | | | | |s]|]; done.
Qed.

Lemma section_of_ok d key ok :
  ok ∅ = true → section_ok d key ok = true → ok (section_of d key) = true.
Proof.
  unfold section_ok, entry_ok, section_of.
  destruct (d !! key) as [[| | | | | |s]|]; done.
Qed.

Lemma title_price_insight price_change avg_price :
  title (price_insight py_repr price_change avg_price)
  = "Price Trend Analysis"%string.
Proof. unfold price_insight. by destruct (contains _ _). Qed.

(** The four insights of the rule-based tier on a well-formed analysis. *)
Lemma rule_based_four (d : gmap string value) :
  well_formed (VDict d) = true →
  let stats := section_of d "statistics" in
  ∃ i2 i3 i4,
    _generate_rule_based_insights py_repr (VDict d) =
      Ret [price_insight py_repr
             (default (VStr "+0%") (stats !! "price_change"%string))
             (default (VInt 400) (stats !! "avg_price"%string));
           i2; i3; i4] ∧
    demand_insight py_repr (default (VInt 50) (stats !! "demand_score"%string))
      = Ret i2 ∧
    title i2 = "Demand Assessment"%string ∧
    (title i3 = "Route Network Optimization"%string ∨
     title i3 = "Route Network Analysis"%string) ∧
    (title i4 = "Seasonal Strategy & Growth"%string ∨
     title i4 = "Strategic Growth Opportunities"%string).
Proof.
  unfold well_formed. intros H.
  apply andb_true_iff in H as [H Hseason].
  apply andb_true_iff in H as [H Hroutes].
  apply andb_true_iff in H as [_ Hstats].
  cbv zeta. unfold _generate_rule_based_insights.
  rewrite (get_section _ _ _ Hstats). cbn [obind].
  apply section_of_ok in Hstats; [|done].
  set (stats := section_of d "statistics") in *.
  unfold get at 1 2 3. cbn [obind].
  assert (is_number (default (VInt 50) (stats !! "demand_score"%string)) = true)
    as Hscore.
  { unfold statistics_ok in Hstats.
    do 3 apply andb_true_iff in Hstats as [Hstats _].
    unfold entry_ok in Hstats. by destruct (stats !! "demand_score"%string). }
  destruct (demand_insight_title _ Hscore) as (i2 & Hi2 & Ht2).
  rewrite Hi2. cbn [obind]. unfold get at 1. cbn [obind].
  rewrite (get_section _ _ _ Hroutes). cbn [obind].
  apply section_of_ok in Hroutes; [|done].
  destruct (route_insight_title
              (default (VInt 20) (stats !! "total_routes"%string))
              _ Hroutes) as (i3 & Hi3 & Ht3).
  rewrite Hi3. cbn [obind].
  rewrite (get_section _ _ _ Hseason). cbn [obind].
  apply section_of_ok in Hseason; [|done].
  destruct (seasonal_insight_title _ Hseason) as (i4 & Hi4 & Ht4).
  rewrite Hi4. cbn [obind].
  by exists i2, i3, i4.
Qed.

(** C6.  Without a configured credential, a well-formed analysis yields
    exactly four insights, those of the rule-based tier, in the order price
    trend, demand, route network, season; no request is sent.  When the
    statistics hold the price change "+8.0%" and the demand score 80, the
    first insight is titled "Price Trend Analysis" and reports that prices
    have increased by +8.0%, and the second reports an exceptional demand
    score of 80%. *)
Theorem rule_based_insights (self : Generator) (d : gmap string value) :
  _is_openai_configured self = false →
  well_formed (VDict d) = true →
  ∃ i1 i2 i3 i4,
    generate_insights' self (VDict d) =
      ([LogInfo "Using rule-based insights generation"], Ret [i1; i2; i3; i4]) ∧
    title i1 = "Price Trend Analysis"%string ∧
    title i2 = "Demand Assessment"%string ∧
    (title i3 = "Route Network Optimization"%string ∨
     title i3 = "Route Network Analysis"%string) ∧
    (title i4 = "Seasonal Strategy & Growth"%string ∨
     title i4 = "Strategic Growth Opportunities"%string) ∧
    (∀ stats,
       d !! "statistics"%string = Some (VDict stats) →
       stats !! "price_change"%string = Some (VStr "+8.0%") →
       stats !! "demand_score"%string = Some (VInt 80) →
       String.prefix "Market prices have increased by +8.0%, indicating strong demand"
                     (content i1) = true ∧
       String.prefix "Exceptional demand score of 80% indicates"
                     (content i2) = true).
Proof.
  intros Hkey Hwf.
  destruct (rule_based_four d Hwf) as (i2 & i3 & i4 & Hrun & Hi2 & Ht2 & Ht3 & Ht4).
  eexists _, i2, i3, i4. split_and!; [|apply title_price_insight|done..|].
  - unfold generate_insights, ttry.
    assert (truthy (VDict d) = true) as ->.
    { unfold well_formed in Hwf. by repeat apply andb_true_iff in Hwf as [Hwf _]. }
    cbn [is_dict negb orb]. rewrite Hkey. unfold tbind, tret, emit, tlift.
    rewrite Hrun. done.
  - intros stats Hstats Hchange Hscore.
    unfold section_of in *. rewrite Hstats in *.
    rewrite Hchange. rewrite Hscore in Hi2. cbn [default from_option id] in *.
    split; [done|].
    unfold demand_insight, gt in Hi2. cbn in Hi2. by apply Ret_inj in Hi2 as <-.
Qed.

(** C7.  On an analysis that is absent or is not a dictionary, with or
    without a configured credential, the result is the four static insights;
    the only effect is the warning record: no request is sent, and the
    rule-based tier is not entered. *)
Theorem fallback_on_invalid_input (self : Generator) (v : value) :
  is_dict v = false →
  generate_insights' self v =
    ([LogWarning "Invalid market analysis data, using fallback insights"],
     Ret fallback_insights') ∧
  length fallback_insights' = 4%nat ∧
  (∀ n, HttpPost n ∉ fst (generate_insights' self v)) ∧
  LogInfo "Using rule-based insights generation" ∉ fst (generate_insights' self v).
Proof.
  intros Hv.
  assert (generate_insights' self v =
          ([LogWarning "Invalid market analysis data, using fallback insights"],
           Ret fallback_insights')) as Hrun.
  { unfold generate_insights. rewrite Hv. cbn [negb]. by rewrite orb_true_r. }
  rewrite Hrun. split_and!; [done|done| |].
  - intros n Hn. apply list_elem_of_singleton in Hn. discriminate Hn.
  - intros Hn. apply list_elem_of_singleton in Hn. discriminate Hn.
Qed.

(** The sentiment classifier as the specification words it: ordered checks
    on the demand score and on the direction of the price. *)
Inductive sentiment := Bullish | Optimistic | Bearish | Cautious | Neutral.

Inductive direction := Rising | Steady | Falling.

Definition is_direction (a b : direction) : bool :=
  match a, b with
  | Rising, Rising | Steady, Steady | Falling, Falling => true
  | _, _ => false
  end.

Definition sentiment_of_spec (demand : float) (price : direction) : sentiment :=
  if Float.gtb demand (Float.of_Z 70) && is_direction price Rising then Bullish
  else if Float.gtb demand (Float.of_Z 60) && is_direction price Steady
  then Optimistic
  else if Float.ltb demand (Float.of_Z 40) && is_direction price Falling
  then Bearish
  else if Float.ltb demand (Float.of_Z 50) then Cautious
  else Neutral.

(** The direction a price change shows: a plus sign somewhere in the text
    is a rise; without one, a minus sign is a fall. *)
Definition sign_of (text : string) : direction :=
  match String.index 0 "+" text, String.index 0 "-" text with
  | Some _, _ => Rising
  | None, Some _ => Falling
  | None, None => Steady
  end.

(** The label of the specification, and the text the code returns for it. *)
Definition sentiment_label (s : sentiment) : string :=
  match s with
  | Bullish => "Bullish"
  | Optimistic => "Optimistic"
  | Bearish => "Bearish"
  | Cautious => "Cautious"
  | Neutral => "Neutral"
  end.

Definition sentiment_text (s : sentiment) : string :=
  match s with
  | Bullish => "Bullish - Strong demand with rising prices"
  | Optimistic => "Optimistic - Stable demand with controlled pricing"
  | Bearish => "Bearish - Weak demand with falling prices"
  | Cautious => "Cautious - Below-average demand conditions"
  | Neutral => "Neutral - Balanced market conditions"
  end.

Lemma sentiment_text_starts_with_label s :
  String.prefix (sentiment_label s) (sentiment_text s) = true.
Proof. by destruct s. Qed.

Definition statistics_of (demand_score price_change : value) : value :=
  VDict {[ "statistics"%string :=
             VDict {[ "demand_score"%string := demand_score;
                      "price_change"%string := price_change ]} ]}.

Lemma contains_index (c : ascii) (text : string) :
  contains c text =
  match String.index 0 (String c EmptyString) text with
  | Some _ => true
  | None => false
  end.
Proof.
  induction text as [|a text IH]; [done|].
  cbn [contains String.index String.prefix].
  destruct (Ascii.eqb_spec a c) as [->|Hne].
  - destruct (ascii_dec c c) as [_|?]; [|done]. by destruct text.
  - destruct (ascii_dec c a) as [->|_]; [done|].
    cbn [orb]. rewrite IH. by destruct (String.index 0 _ text).
Qed.

Lemma price_trend_of_text (text : string) :
  price_trend_of py_repr (VStr text) =
  match sign_of text with
  | Rising => Positive
  | Falling => Negative
  | Steady => Stable
  end.
Proof.
  unfold price_trend_of, sign_of. cbn [str]. rewrite !contains_index.
  by destruct (String.index 0 "+" text), (String.index 0 "-" text).
Qed.

(** C8, as amended.  With a numeric demand score (50 when the statistics
    have none) and a price change that is a text ("+0%" when the statistics
    have none), the sentiment is decided by the ordered checks of the
    specification on the demand score and on the direction that the sign in
    the text shows, and is the label followed by its description.  Demand 75
    with "+5%" is "Bullish - Strong demand with rising prices", demand 65
    with "0.0%" is optimistic, demand 35 with "-3.0%" bearish, demand 45 with
    "+2%" cautious, and demand 55 with "-1.0%", as demand 65 with "+0.0%",
    neutral. *)
Theorem market_sentiment_classifier (d stats : gmap string value)
    (demand : float) (text : string) :
  default (VDict ∅) (d !! "statistics"%string) = VDict stats →
  number (default (VInt 50) (stats !! "demand_score"%string)) = Ret demand →
  default (VStr "+0%") (stats !! "price_change"%string) = VStr text →
  get_market_sentiment py_repr (VDict d) =
    sentiment_text (sentiment_of_spec demand (sign_of text)) ∧
  get_market_sentiment py_repr (statistics_of (VInt 75) (VStr "+5%"))
    = "Bullish - Strong demand with rising prices"%string ∧
  get_market_sentiment py_repr (statistics_of (VInt 65) (VStr "0.0%"))
    = "Optimistic - Stable demand with controlled pricing"%string ∧
  get_market_sentiment py_repr (statistics_of (VInt 35) (VStr "-3.0%"))
    = "Bearish - Weak demand with falling prices"%string ∧
  get_market_sentiment py_repr (statistics_of (VInt 45) (VStr "+2%"))
    = "Cautious - Below-average demand conditions"%string ∧
  get_market_sentiment py_repr (statistics_of (VInt 55) (VStr "-1.0%"))
    = "Neutral - Balanced market conditions"%string ∧
  get_market_sentiment py_repr (statistics_of (VInt 65) (VStr "+0.0%"))
    = "Neutral - Balanced market conditions"%string.
Proof.
  intros Hstats Hnum Htext. split_and!.
  - unfold get_market_sentiment, sentiment_body, get at 1.
    rewrite Hstats. cbn [obind]. unfold get. cbn [obind].
    unfold gt, lt. rewrite Hnum, Htext. cbn [obind].
    rewrite price_trend_of_text. unfold sentiment_of_spec.
    destruct (sign_of text); cbn [is_trend is_direction];
      rewrite ?andb_false_r, ?andb_true_r;
      repeat (destruct (Float.gtb demand _) || destruct (Float.ltb demand _));
      done.
  - by vm_compute.
  - by vm_compute.
  - by vm_compute.
  - by vm_compute.
  - by vm_compute.
  - by vm_compute.
Qed.

(** The classifier returns on every input; what is not a dictionary is
    neutral. *)
Lemma market_sentiment_malformed (v : value) :
  is_dict v = false →
  get_market_sentiment py_repr v = "Neutral - Market analysis in progress"%string.
Proof. by destruct v. Qed.

End InsightProperties.

(** The claim C8 as it is stated: the sentiment is the label that the
    ordered checks select. *)
Definition sentiment_is_the_label : Prop :=
  ∀ (py_repr : InsightsGenerator.value → string)
    (d stats : gmap string InsightsGenerator.value) (demand : float)
    (text : string),
    default (InsightsGenerator.VDict ∅) (d !! "statistics"%string)
      = InsightsGenerator.VDict stats →
    InsightsGenerator.number
      (default (InsightsGenerator.VInt 50) (stats !! "demand_score"%string))
      = Ret demand →
    default (InsightsGenerator.VStr "+0%") (stats !! "price_change"%string)
      = InsightsGenerator.VStr text →
    InsightsGenerator.get_market_sentiment py_repr (InsightsGenerator.VDict d)
    = sentiment_label (sentiment_of_spec demand (sign_of text)).

(** C8 fails on the code: for demand 75 with "+5%" the claim gives
    "Bullish", the code returns "Bullish - Strong demand with rising
    prices". *)
Lemma sentiment_is_more_than_the_label : ¬ sentiment_is_the_label.
Proof.
  intros H.
  specialize (H no_py_repr
                {[ "statistics"%string := InsightsGenerator.VDict strong_demand ]}
                strong_demand (Float.of_Z 75) "+5%"%string).
  assert (InsightsGenerator.get_market_sentiment no_py_repr
            (InsightsGenerator.VDict
               {[ "statistics"%string := InsightsGenerator.VDict strong_demand ]})
          = "Bullish - Strong demand with rising prices"%string) as Hcode
    by (vm_compute; reflexivity).
  rewrite H in Hcode; [discriminate Hcode|vm_compute; reflexivity..].
Qed.

(** The rule-based tier on an analysis with seasonal demand: the variation
    between 80 and 120 is 50 percent. *)
Example seasonal_market_insights :
  well_formed (InsightsGenerator.VDict seasonal_market) = true ∧
  ∃ i1 i2 i3 i4,
    InsightsGenerator.generate_insights no_py_repr no_network no_parse 12
      without_credential (InsightsGenerator.VDict seasonal_market) =
      ([InsightsGenerator.LogInfo "Using rule-based insights generation"],
       Ret [i1; i2; i3; i4]) ∧
    String.prefix "Market prices have decreased by -2.5%"
      (InsightsGenerator.content i1) = true ∧
    String.prefix "Moderate demand score of 60%"
      (InsightsGenerator.content i2) = true ∧
    String.prefix "Network analysis of 20 routes reveals concentrated demand patterns. Top routes generate 300 bookings"
      (InsightsGenerator.content i3) = true ∧
    String.prefix "Seasonal demand variation of 50% presents revenue management opportunities. Peak periods show 120 bookings vs 80 in low season."
      (InsightsGenerator.content i4) = true.
Proof. split; [by vm_compute|]. do 4 eexists. by vm_compute. Qed.

(** An analysis that is not well-formed: the seasonal demand 10^400 is an
    integer, but no double is near the quotient; the division raises, and
    the insights are the static ones. *)
Example overflowing_market_insights :
  well_formed (InsightsGenerator.VDict overflowing_market) = false ∧
  InsightsGenerator.generate_insights no_py_repr no_network no_parse 12
    without_credential (InsightsGenerator.VDict overflowing_market) =
    ([InsightsGenerator.LogInfo "Using rule-based insights generation";
      InsightsGenerator.LogError "Insights generation error"],
     Ret (InsightsGenerator._generate_fallback_insights 12)).
Proof. split; by vm_compute. Qed.

Lemma rule_based_insights_witness :
  InsightsGenerator._is_openai_configured without_credential = false ∧
  well_formed (InsightsGenerator.VDict seasonal_market) = true ∧
  ∃ i1 i2 i3 i4,
    InsightsGenerator.generate_insights no_py_repr no_network no_parse 12
      without_credential (InsightsGenerator.VDict seasonal_market) =
      ([InsightsGenerator.LogInfo "Using rule-based insights generation"],
       Ret [i1; i2; i3; i4]) ∧
    InsightsGenerator.title i1 = "Price Trend Analysis"%string.
Proof.
  assert (InsightsGenerator._is_openai_configured without_credential = false)
    as E1 by (vm_compute; reflexivity).
  assert (well_formed (InsightsGenerator.VDict seasonal_market) = true)
    as E2 by (vm_compute; reflexivity).
  destruct (rule_based_insights no_py_repr no_network no_parse 12
              without_credential seasonal_market E1 E2)
    as (i1 & i2 & i3 & i4 & Hrun & Ht1 & _).
  exact (conj E1 (conj E2
    (ex_intro _ i1 (ex_intro _ i2 (ex_intro _ i3 (ex_intro _ i4
       (conj Hrun Ht1))))))).
Defined.

Lemma fallback_on_invalid_input_witness :
  InsightsGenerator._is_openai_configured with_credential = true ∧
  InsightsGenerator.is_dict InsightsGenerator.VNone = false ∧
  InsightsGenerator.generate_insights no_py_repr no_network no_parse 12
    with_credential InsightsGenerator.VNone =
    ([InsightsGenerator.LogWarning
        "Invalid market analysis data, using fallback insights"],
     Ret (InsightsGenerator._generate_fallback_insights 12)).
Proof.
  assert (InsightsGenerator.is_dict InsightsGenerator.VNone = false) as E
    by reflexivity.
  split; [vm_compute; reflexivity|]. split; [exact E|].
  exact (proj1 (fallback_on_invalid_input no_py_repr no_network no_parse 12
                  with_credential InsightsGenerator.VNone E)).
Defined.

Lemma market_sentiment_classifier_witness :
  InsightsGenerator.get_market_sentiment no_py_repr
    (InsightsGenerator.VDict
       {[ "statistics"%string := InsightsGenerator.VDict strong_demand ]})
  = "Bullish - Strong demand with rising prices"%string.
Proof.
  refine (eq_trans
    (proj1 (market_sentiment_classifier no_py_repr
              {[ "statistics"%string := InsightsGenerator.VDict strong_demand ]}
              strong_demand (Float.of_Z 75) "+5%" _ _ _)) _);
    vm_compute; reflexivity.
Defined.

(** * Further properties of the cleaning step *)

(** ** The cleaned table, step by step *)

Section CleanedRows.

Import MarketAnalyzer.

(** The frame after [t[c] = f(row)] for every row. *)
Definition map_col (c : string) (f : gmap string cell → cell) (x : DataFrame)
  : DataFrame :=
  set_col c (f <$> rows x) x.

Lemma rows_map_col c f x :
  rows (map_col c f x) = (λ r, <[c := f r]> r) <$> rows x.
Proof.
  unfold map_col, set_col. cbn [rows]. generalize (rows x). intros rs.
  induction rs as [|r rs IH]; [done|]. cbn. by rewrite IH.
Qed.

Lemma set_col_of_column c c0 (g : cell → cell) x :
  set_col c (g <$> (row_get c0 <$> rows x)) x = map_col c (λ r, g (row_get c0 r)) x.
Proof. unfold map_col. by rewrite <- list_fmap_compose. Qed.

Lemma columns_map_col c f x :
  columns (map_col c f x) = if has_column c x then columns x else columns x ++ [c].
Proof. done. Qed.

Lemma select_rows_fmap (f : gmap string cell → bool) rs :
  select_rows (f <$> rs) rs = filter (λ r, f r = true) rs.
Proof.
  induction rs as [|r rs IH]; [done|]. cbn [fmap list_fmap select_rows].
  destruct (f r) eqn:Hf.
  - rewrite filter_cons_True by done. by rewrite IH.
  - rewrite filter_cons_False by congruence. done.
Qed.

(** The bounds of the outlier filter, from the quartiles of the prices. *)
Definition price_bounds (price : list float) : float * float :=
  let price_q1 := Float.quantile (1 # 4) price in
  let price_q3 := Float.quantile (3 # 4) price in
  let price_iqr := Float.sub price_q3 price_q1 in
  let lower_bound := Float.sub price_q1 (Float.mul (Fin (3 # 2)) price_iqr) in
  let upper_bound := Float.add price_q3 (Float.mul (Fin (3 # 2)) price_iqr) in
  (Float.py_max lower_bound (Float.of_Z 50),
   Float.py_min upper_bound (Float.of_Z 2000)).

Definition in_bounds (b : float * float) (r : gmap string cell) : bool :=
  Float.geb (row_num "price" r) (fst b) && Float.leb (row_num "price" r) (snd b).

Lemma remove_outliers_result l x :
  has_column "price" x = true →
  remove_outliers (length l) (l ++ [x]) =
  (Ret (length (l ++ [x])),
   (l ++ [x]) ++ [{| columns := columns x;
                     rows := filter (λ r, in_bounds (price_bounds (nums "price" (rows x))) r = true)
                                    (rows x) |}]).
Proof.
  intros Hcol. unfold remove_outliers.
  rewrite run_bind, run_getitem_last. unfold getitem. rewrite Hcol.
  cbv zeta. rewrite run_select_last. unfold select. do 3 f_equal.
  rewrite <- !list_fmap_compose.
  rewrite <- select_rows_fmap. f_equal.
Qed.

(** A price that passes the filter is a number between 50 and 2000,
    whatever the quartiles are. *)
Lemma in_bounds_price price r :
  in_bounds (price_bounds price) r = true →
  ∃ q, row_num "price" r = Fin q ∧ (50 <= q <= 2000)%Q.
Proof.
  unfold in_bounds, price_bounds. cbv zeta. cbn [fst snd].
  set (lower := Float.sub _ _). set (upper := Float.add _ _).
  intros [Hlo Hhi]%andb_true_iff.
  unfold Float.geb, Float.py_max, Float.py_min, Float.gtb, Float.of_Z in *.
  destruct (row_num "price" r) as [| | |q].
  - by destruct (if Float.ltb _ _ then _ else _).
  - destruct (Float.ltb lower (Fin (inject_Z 50))) eqn:E; [done|].
    destruct lower; try done.
  - destruct (Float.ltb (Fin (inject_Z 2000)) upper) eqn:E; [done|].
    destruct upper; try done.
  - exists q. split; [done|]. split.
    + destruct (Float.ltb lower (Fin (inject_Z 50))) eqn:E.
      * simpl in Hlo. apply Qle_bool_iff in Hlo. exact Hlo.
      * destruct lower as [| | |a]; try done. simpl in *.
        apply Qle_bool_iff in Hlo. apply Qltb_ge in E.
        change (inject_Z 50) with 50%Q in E. lra.
    + destruct (Float.ltb (Fin (inject_Z 2000)) upper) eqn:E.
      * simpl in Hhi. apply Qle_bool_iff in Hhi. exact Hhi.
      * destruct upper as [| | |a]; try done. simpl in *.
        apply Qle_bool_iff in Hhi. apply Qltb_ge in E.
        change (inject_Z 2000) with 2000%Q in E. lra.
Qed.

Lemma zip_with_columns {X} (f : cell → cell → X) (g h : gmap string cell → cell)
    (rs : list (gmap string cell)) :
  zip_with f (g <$> rs) (h <$> rs) = (λ r, f (g r) (h r)) <$> rs.
Proof. induction rs as [|r rs IH]; [done|]. cbn. by rewrite IH. Qed.

Lemma has_column_map_col c f x : has_column c (map_col c f x) = true.
Proof.
  unfold has_column. rewrite columns_map_col. fold (has_column c x).
  destruct (has_column c x) eqn:E; [done|].
  apply bool_decide_eq_true. rewrite elem_of_app, list_elem_of_singleton. by right.
Qed.

Lemma has_column_map_col_ne c c' f x :
  c ≠ c' → has_column c' (map_col c f x) = has_column c' x.
Proof.
  intros Hne. unfold has_column at 1. rewrite columns_map_col.
  destruct (has_column c x); [done|]. unfold has_column.
  apply bool_decide_ext. rewrite elem_of_app, list_elem_of_singleton.
  split; [intros [H|H]; [done|congruence]|by left].
Qed.

Definition with_load_factor (x : DataFrame) : DataFrame :=
  if has_column "bookings" x && has_column "capacity" x then
    map_col "load_factor"
      (λ r, Num (Float.clip 0 1 (as_float (row_get "load_factor" r))))
      (map_col "load_factor"
         (λ r, Num (Float.div (as_float (row_get "bookings" r))
                              (as_float (row_get "capacity" r)))) x)
  else x.

Lemma add_load_factor_result l x :
  add_load_factor (length l) (l ++ [x]) = (Ret tt, l ++ [with_load_factor x]).
Proof.
  unfold add_load_factor, with_load_factor.
  rewrite run_bind, run_columns_last.
  fold (has_column "bookings" x). fold (has_column "capacity" x).
  destruct (has_column "bookings" x) eqn:Hb; [|done].
  destruct (has_column "capacity" x) eqn:Hc; [|done].
  cbn [andb].
  rewrite run_bind, run_getitem_last. unfold getitem at 1. rewrite Hb.
  rewrite run_bind, run_getitem_last. unfold getitem at 1. rewrite Hc.
  rewrite run_bind, run_setitem_last.
  rewrite setitem_same_length
    by (rewrite length_col_div, !length_fmap; lia).
  unfold col_div. rewrite zip_with_columns.
  fold (map_col "load_factor"
          (λ r, Num (Float.div (as_float (row_get "bookings" r))
                               (as_float (row_get "capacity" r)))) x).
  set (x1 := map_col "load_factor" _ x).
  rewrite run_bind, run_getitem_last. unfold getitem.
  unfold x1 at 1. rewrite has_column_map_col.
  rewrite run_setitem_last.
  rewrite setitem_same_length by (by rewrite length_col_clip, length_fmap).
  unfold col_clip. by rewrite set_col_of_column.
Qed.

Definition with_time_features (x : DataFrame) : DataFrame :=
  map_col "is_weekend" (λ r, dt_is_weekend (row_get "date" r))
    (map_col "week" (λ r, dt_week (row_get "date" r))
       (map_col "month" (λ r, dt_month (row_get "date" r))
          (map_col "day_of_week" (λ r, dt_day_name (row_get "date" r)) x))).

Lemma add_time_features_result l x :
  has_column "date" x = true →
  add_time_features (length l) (l ++ [x]) = (Ret tt, l ++ [with_time_features x]).
Proof.
  intros Hdate. unfold add_time_features, with_time_features.
  rewrite run_time_feature. unfold getitem at 1. rewrite Hdate.
  rewrite set_col_of_column. set (x1 := map_col "day_of_week" _ x).
  assert (has_column "date" x1 = true) as H1
    by (unfold x1; by rewrite has_column_map_col_ne).
  rewrite run_time_feature. unfold getitem at 1. rewrite H1.
  rewrite set_col_of_column. set (x2 := map_col "month" _ x1).
  assert (has_column "date" x2 = true) as H2
    by (unfold x2; by rewrite has_column_map_col_ne).
  rewrite run_time_feature. unfold getitem at 1. rewrite H2.
  rewrite set_col_of_column. set (x3 := map_col "week" _ x2).
  assert (has_column "date" x3 = true) as H3
    by (unfold x3; by rewrite has_column_map_col_ne).
  rewrite run_bind, run_getitem_last. unfold getitem. rewrite H3.
  rewrite run_setitem_last.
  rewrite setitem_same_length by (by rewrite !length_fmap).
  by rewrite set_col_of_column.
Qed.

Lemma length_rows_map_col c f x : length (rows (map_col c f x)) = length (rows x).
Proof. by rewrite rows_map_col, length_fmap. Qed.

Lemma Forall_rows_map_col (P : gmap string cell → Prop) c f x :
  (∀ r, P r → P (<[c := f r]> r)) →
  Forall P (rows x) → Forall P (rows (map_col c f x)).
Proof.
  intros HP H. rewrite rows_map_col. apply Forall_fmap.
  eapply Forall_impl; [exact H|]. intros r. apply HP.
Qed.

Lemma columns_map_col_old c f x :
  has_column c x = true → columns (map_col c f x) = columns x.
Proof. intros H. by rewrite columns_map_col, H. Qed.

(** A record of a cleaned table: a date, a price between 50 and 2000, and
    the four time features as the calendar gives them for the date. *)
Definition cleaned_row (r : gmap string cell) : Prop :=
  ∃ d q,
    row_get "date" r = Date d ∧
    row_get "price" r = Num (Fin q) ∧ (50 <= q <= 2000)%Q ∧
    row_get "day_of_week" r = Str (Calendar.day_name d) ∧
    row_get "month" r = Num (Float.of_Z (Calendar.month d)) ∧
    row_get "week" r = Num (Float.of_Z (Calendar.isoweek d)) ∧
    row_get "is_weekend" r = Flag (Calendar.is_weekend d).

Definition dated (r : gmap string cell) : Prop :=
  row_get "date" r = NA ∨ ∃ d, row_get "date" r = Date d.

Lemma as_float_price c q :
  as_float c = Fin q → (50 <= q)%Q → c = Num (Fin q).
Proof.
  destruct c as [|x|s|d|b]; simpl; try done.
  - by intros ->.
  - unfold Float.of_Z. intros [= <-] H. by destruct b.
Qed.

Lemma with_time_features_rows x :
  Forall (λ r, ∃ d q, row_get "date" r = Date d ∧
                      row_get "price" r = Num (Fin q) ∧ (50 <= q <= 2000)%Q)
         (rows x) →
  Forall cleaned_row (rows (with_time_features x)).
Proof.
  intros H. unfold with_time_features. rewrite !rows_map_col.
  rewrite <- !list_fmap_compose. apply Forall_fmap.
  eapply Forall_impl; [exact H|]. intros r (d & q & Hd & Hp & Hq).
  exists d, q. cbn [compose].
  rewrite !row_get_insert_eq.
  repeat (rewrite row_get_insert_ne by done).
  rewrite !row_get_insert_eq.
  repeat (rewrite row_get_insert_ne by done).
  rewrite !row_get_insert_eq.
  repeat (rewrite row_get_insert_ne by done).
  rewrite !row_get_insert_eq.
  rewrite Hd, Hp. done.
Qed.

Lemma with_load_factor_rows (P : gmap string cell → Prop) x :
  (∀ r y, P r → P (<["load_factor"%string := y]> r)) →
  Forall P (rows x) → Forall P (rows (with_load_factor x)).
Proof.
  intros HP H. unfold with_load_factor.
  destruct (_ && _); [|done].
  apply Forall_rows_map_col; [by intros; apply HP|].
  apply Forall_rows_map_col; [by intros; apply HP|done].
Qed.

Context (parse_datetime : string → option Calendar.Timestamp).
Context (parse_numeric : string → option Q).

Local Abbreviation clean_body' := (clean_body parse_datetime parse_numeric).

Lemma to_datetime_cells v v' :
  to_datetime parse_datetime v = Ret v' →
  length v' = length v ∧ Forall (λ c, c = NA ∨ ∃ d, c = Date d) v'.
Proof.
  unfold to_datetime. revert v'. induction v as [|c v IH]; intros v' H; simpl in H.
  - apply Ret_inj in H as <-. by split.
  - apply obind_Ret in H as (c' & Hc & H).
    apply obind_Ret in H as (v0 & Hv & H). apply Ret_inj in H as <-.
    destruct (IH v0 Hv) as [Hlen Hall]. split; [simpl; congruence|].
    constructor; [|done].
    destruct c as [|[| | |q]|s|d|b]; simpl in Hc; try discriminate.
    + left. congruence.
    + left. congruence.
    + right. eexists. by apply Ret_inj in Hc as <-.
    + destruct (parse_datetime s); [|discriminate].
      right. eexists. by apply Ret_inj in Hc as <-.
    + right. eexists. by apply Ret_inj in Hc as <-.
Qed.

(** What each block of [_clean_data] leaves in the copy. *)

Lemma convert_date_result l x :
  match convert_date parse_datetime (length l) (l ++ [x]) with
  | (Ret _, h') =>
      ∃ date', to_datetime parse_datetime (row_get "date" <$> rows x) = Ret date' ∧
               has_column "date" x = true ∧ h' = l ++ [set_col "date" date' x]
  | (Raise _, _) => True
  end.
Proof.
  unfold convert_date. rewrite run_bind, run_getitem_last.
  destruct (getitem "date" x) as [date|e] eqn:Hget; [|done].
  apply getitem_Ret in Hget as [Hcol ->].
  rewrite run_bind. unfold lift.
  destruct (to_datetime parse_datetime _) as [date'|e] eqn:Hconv; [|done].
  rewrite run_setitem_last.
  destruct (setitem "date" date' x) as [x'|e] eqn:Hset; [|done].
  apply setitem_Ret in Hset as [-> _]. by exists date'.
Qed.

Definition numeric_col (col : string) (x : DataFrame) : DataFrame :=
  if has_column col x
  then map_col col (λ r, to_numeric1 parse_numeric (row_get col r)) x
  else x.

Lemma numeric_iteration_result col l x :
  (cols <- df_columns (length l) ;;
   if bool_decide (col ∈ cols) then
     v <- df_getitem (length l) col ;;
     df_setitem (length l) col (to_numeric parse_numeric v)
   else ret tt) (l ++ [x]) = (Ret tt, l ++ [numeric_col col x]).
Proof.
  rewrite run_bind, run_columns_last. unfold numeric_col.
  fold (has_column col x).
  destruct (has_column col x) eqn:Hcol; [|done].
  rewrite run_bind, run_getitem_last. unfold getitem. rewrite Hcol.
  rewrite run_setitem_last.
  rewrite setitem_same_length
    by (unfold to_numeric; by rewrite !length_fmap).
  unfold to_numeric. by rewrite set_col_of_column.
Qed.

Lemma ensure_numeric_result l x :
  ensure_numeric parse_numeric (length l) (l ++ [x]) =
  (Ret tt, l ++ [numeric_col "capacity" (numeric_col "bookings" (numeric_col "price" x))]).
Proof.
  unfold ensure_numeric, numeric_columns. cbn [for_each].
  rewrite run_bind, numeric_iteration_result.
  rewrite run_bind, numeric_iteration_result.
  rewrite run_bind, numeric_iteration_result. done.
Qed.

Lemma dropna_result cs x x' :
  dropna cs x = Ret x' →
  Forall (λ c, has_column c x = true) cs ∧
  columns x' = columns x ∧
  rows x' = filter (λ r, forallb (λ c, negb (isna (row_get c r))) cs = true) (rows x).
Proof.
  unfold dropna. destruct (filter _ cs) as [|c cs'] eqn:Hf; [|done].
  intros [= <-]. split; [|done].
  apply Forall_forall. intros c Hc.
  destruct (has_column c x) eqn:E; [done|].
  assert (c ∈ filter (λ c, has_column c x = false) cs) as Hin
    by (by apply list_elem_of_filter).
  rewrite Hf in Hin. by apply elem_of_nil in Hin.
Qed.

Lemma columns_numeric_col col x : columns (numeric_col col x) = columns x.
Proof.
  unfold numeric_col. destruct (has_column col x) eqn:E; [|done].
  by apply columns_map_col_old.
Qed.

Lemma length_rows_numeric_col col x :
  length (rows (numeric_col col x)) = length (rows x).
Proof.
  unfold numeric_col. destruct (has_column col x); [|done].
  apply length_rows_map_col.
Qed.

Lemma dated_numeric_col col x :
  col ≠ "date"%string →
  Forall dated (rows x) → Forall dated (rows (numeric_col col x)).
Proof.
  intros Hne H. unfold numeric_col. destruct (has_column col x); [|done].
  apply Forall_rows_map_col; [|done].
  intros r. unfold dated. by rewrite row_get_insert_ne.
Qed.

(** The cleaned table: what a successful run of the body of [_clean_data]
    returns. *)
Lemma clean_body_result h (data : ref) t r h' :
  h !! data = Some t →
  clean_body' data h = (Ret r, h') →
  ∃ t', h' !! r = Some t' ∧
    Forall cleaned_row (rows t') ∧
    (length (rows t') ≤ length (rows t))%nat ∧
    (∀ c, has_column c t = true → has_column c t' = true) ∧
    Forall (λ c, has_column c t' = true)
      ["date"; "price"; "day_of_week"; "month"; "week"; "is_weekend"]%string ∧
    has_column "load_factor" t' =
      has_column "load_factor" t || (has_column "bookings" t && has_column "capacity" t).
Proof.
  intros Hdata. unfold clean_body.
  rewrite run_bind, (run_copy _ _ _ Hdata).
  (* convert the date column *)
  rewrite run_bind. pose proof (convert_date_result h t) as H1.
  destruct (convert_date parse_datetime (length h) (h ++ [t])) as [[[]|e] h1];
    [|done].
  destruct H1 as (date' & Hconv & Hdate & ->).
  apply to_datetime_cells in Hconv as [Hlen Hcells].
  rewrite length_fmap in Hlen.
  set (x1 := set_col "date" date' t).
  assert (columns x1 = columns t) as C1 by (by apply columns_set_col_old).
  assert (length (rows x1) = length (rows t)) as L1
    by (by apply length_rows_set_col).
  assert (Forall dated (rows x1)) as D1.
  { pose proof (column_set_col_eq "date" date' t Hlen) as Hcol.
    fold x1 in Hcol. rewrite <- Hcol in Hcells.
    by apply Forall_fmap in Hcells. }
  (* coerce the numeric columns *)
  rewrite run_bind, ensure_numeric_result.
  set (x2 := numeric_col "capacity" _).
  assert (columns x2 = columns t) as C2
    by (unfold x2; by rewrite !columns_numeric_col).
  assert (length (rows x2) = length (rows t)) as L2
    by (unfold x2; by rewrite !length_rows_numeric_col).
  assert (Forall dated (rows x2)) as D2
    by (unfold x2; by repeat apply dated_numeric_col).
  (* drop the rows without date or price *)
  rewrite run_bind, run_dropna_last.
  destruct (dropna ["date"; "price"]%string x2) as [x3|e] eqn:H3; [|done].
  apply dropna_result in H3 as (Hcols & C3 & R3).
  apply Forall_cons in Hcols as [_ Hprice%Forall_cons_1].
  destruct Hprice as [Hprice _].
  (* remove the outliers *)
  assert (has_column "price" x3 = true) as Hprice3
    by (etrans; [|exact Hprice]; by apply has_column_columns).
  rewrite run_bind, remove_outliers_result by done.
  set (x4 := {| columns := columns x3; rows := _ |}).
  (* load factor and time features *)
  rewrite run_bind, add_load_factor_result.
  assert (∀ c, has_column c x4 = has_column c t) as C4
    by (intros c; apply has_column_columns; cbn; congruence).
  assert (∀ c, has_column c t = true → has_column c (with_load_factor x4) = true)
    as C5.
  { intros c Hc. unfold with_load_factor. rewrite <- C4 in Hc.
    destruct (_ && _); [|done]. by do 2 apply has_column_set_col. }
  rewrite run_bind, add_time_features_result by (by apply C5).
  intros [= <- <-]. eexists. split; [apply lookup_last|].
  split_and!.
  - apply with_time_features_rows. apply with_load_factor_rows.
    { intros r0 y (d & q & ? & ? & ?). exists d, q.
      by rewrite !row_get_insert_ne by done. }
    unfold x4. cbn [rows]. apply Forall_forall. intros r0 Hr0.
    apply list_elem_of_filter in Hr0 as [Hin Hr0].
    apply in_bounds_price in Hin as (q & Hq & Hbounds).
    rewrite R3 in Hr0. apply list_elem_of_filter in Hr0 as [Hna Hr0].
    cbn [forallb] in Hna. apply andb_true_iff in Hna as [Hna _].
    rewrite Forall_forall in D2. destruct (D2 r0 Hr0) as [E|[d Hd]].
    { rewrite E in Hna. done. }
    exists d, q. split; [done|]. split; [|done].
    apply as_float_price; [done|]. apply Hbounds.
  - unfold with_time_features. rewrite !length_rows_map_col.
    transitivity (length (rows x4)).
    { unfold with_load_factor. destruct (_ && _); [|done].
      by rewrite !length_rows_map_col. }
    unfold x4. cbn [rows]. etrans; [apply length_filter|].
    rewrite R3. etrans; [apply length_filter|]. lia.
  - intros c Hc. unfold with_time_features.
    by do 4 apply has_column_set_col; apply C5.
  - unfold with_time_features.
    repeat apply Forall_cons_2; [| | | | | |done].
    + do 4 apply has_column_set_col. by apply C5.
    + do 4 apply has_column_set_col. apply C5.
      etrans; [|exact Hprice]. by apply has_column_columns.
    + do 3 apply has_column_set_col. apply has_column_map_col.
    + do 2 apply has_column_set_col. apply has_column_map_col.
    + apply has_column_set_col. apply has_column_map_col.
    + apply has_column_map_col.
  - unfold with_time_features. rewrite !has_column_map_col_ne by done.
    unfold with_load_factor. rewrite !C4.
    destruct (has_column "bookings" t && has_column "capacity" t).
    + rewrite has_column_map_col. by rewrite orb_true_r.
    + rewrite C4. by rewrite orb_false_r.
Qed.

End CleanedRows.

(** ** The records and the columns of a cleaned table *)

Section CalendarFacts.

Lemma weekday_range d : 0 ≤ Calendar.weekday d ≤ 6.
Proof. unfold Calendar.weekday. pose proof (Z.mod_pos_bound (d + 3) 7). lia. Qed.

Lemma day_name_weekend d :
  Calendar.day_name d ∈ Calendar.day_names ∧
  (Calendar.is_weekend d = true ↔
   Calendar.day_name d = "Saturday"%string ∨ Calendar.day_name d = "Sunday"%string).
Proof.
  unfold Calendar.day_name, Calendar.is_weekend.
  pose proof (weekday_range d) as H.
  assert (Calendar.weekday d = 0 ∨ Calendar.weekday d = 1 ∨ Calendar.weekday d = 2 ∨
          Calendar.weekday d = 3 ∨ Calendar.weekday d = 4 ∨ Calendar.weekday d = 5 ∨
          Calendar.weekday d = 6) as Hcases by lia.
  unfold Calendar.day_names.
  destruct Hcases as [->|[->|[->|[->|[->|[->| ->]]]]]]; cbn;
    (split; [rewrite !elem_of_cons; auto 10|split; [done|intros [?|?]; done]]) ||
    (split; [rewrite !elem_of_cons; auto 10|split; [auto|done]]).
Qed.

Lemma month_range d : 1 ≤ Calendar.month d ≤ 12.
Proof.
  unfold Calendar.month, Calendar.civil. cbv zeta. cbn [fst snd].
  match goal with |- 1 ≤ ?a mod 12 + 1 ≤ 12 =>
    pose proof (Z.mod_pos_bound a 12) end. lia.
Qed.

Lemma iso_weeks_in_year_range y :
  Calendar.iso_weeks_in_year y = 52 ∨ Calendar.iso_weeks_in_year y = 53.
Proof. unfold Calendar.iso_weeks_in_year. destruct (_ || _); auto. Qed.

Lemma isoweek_range d : 1 ≤ Calendar.isoweek d ≤ 53.
Proof.
  unfold Calendar.isoweek. cbv zeta.
  set (w := (_ / 7)).
  destruct (w <? 1) eqn:E1.
  { destruct (iso_weeks_in_year_range (Calendar.year d - 1)) as [-> | ->]; lia. }
  destruct (Calendar.iso_weeks_in_year (Calendar.year d) <? w) eqn:E2; [lia|].
  apply Z.ltb_ge in E1, E2.
  destruct (iso_weeks_in_year_range (Calendar.year d)) as [H|H]; rewrite H in E2; lia.
Qed.

End CalendarFacts.

Section CleanedTables.

Import MarketAnalyzer.

Context (parse_datetime : string → option Calendar.Timestamp).
Context (parse_numeric : string → option Q).

Local Abbreviation clean_body' := (clean_body parse_datetime parse_numeric).

(** X1.  When the cleaning succeeds, every record of the cleaned table has
    a date and a price that is a number between 50 and 2000: the records
    without a date or a price are dropped, and the bounds of the outlier
    filter are never wider than 50 and 2000, whatever the quartiles of the
    prices are. *)
Theorem cleaned_records_are_dated_and_priced (h : store) (data : ref)
    (t : DataFrame) (r : ref) (h' : store) (t' : DataFrame) :
  h !! data = Some t →
  clean_body' data h = (Ret r, h') →
  h' !! r = Some t' →
  Forall (λ row, (∃ d, row_get "date" row = Date d) ∧
                 ∃ q, row_get "price" row = Num (Fin q) ∧ (50 <= q <= 2000)%Q)
         (rows t').
Proof.
  intros Hdata Hrun Hr.
  destruct (clean_body_result parse_datetime parse_numeric h data t r h' Hdata Hrun)
    as (t0 & Hr0 & Hrows & _).
  assert (t0 = t') as -> by congruence.
  eapply Forall_impl; [exact Hrows|].
  intros row (d & q & Hd & Hp & Hq & _). split; [by exists d|by exists q].
Qed.

(** X2.  When the cleaning succeeds, the four time features of every record
    are those of its date: the name of the weekday, one of the seven; the
    month, between 1 and 12; the ISO week, between 1 and 53; and the weekend
    flag, which holds exactly on the records whose weekday is Saturday or
    Sunday. *)
Theorem cleaned_records_time_features (h : store) (data : ref)
    (t : DataFrame) (r : ref) (h' : store) (t' : DataFrame) :
  h !! data = Some t →
  clean_body' data h = (Ret r, h') →
  h' !! r = Some t' →
  Forall (λ row, ∃ d name is_weekend,
            row_get "date" row = Date d ∧
            row_get "day_of_week" row = Str name ∧
            name = Calendar.day_name d ∧ name ∈ day_order ∧
            row_get "month" row = Num (Float.of_Z (Calendar.month d)) ∧
            1 ≤ Calendar.month d ≤ 12 ∧
            row_get "week" row = Num (Float.of_Z (Calendar.isoweek d)) ∧
            1 ≤ Calendar.isoweek d ≤ 53 ∧
            row_get "is_weekend" row = Flag is_weekend ∧
            (is_weekend = true ↔
             name = "Saturday"%string ∨ name = "Sunday"%string))
         (rows t').
Proof.
  intros Hdata Hrun Hr.
  destruct (clean_body_result parse_datetime parse_numeric h data t r h' Hdata Hrun)
    as (t0 & Hr0 & Hrows & _).
  assert (t0 = t') as -> by congruence.
  eapply Forall_impl; [exact Hrows|].
  intros row (d & q & Hd & _ & _ & Hday & Hmonth & Hweek & Hwe).
  destruct (day_name_weekend d) as [Hname Hiff].
  exists d, (Calendar.day_name d), (Calendar.is_weekend d).
  split_and!; try done.
  - apply month_range.
  - apply month_range.
  - apply isoweek_range.
  - apply isoweek_range.
Qed.

(** X3.  When the cleaning succeeds, the cleaned table keeps every column
    of the input and has the columns of the four time features; it has a
    load factor column exactly when the input has one or has both bookings
    and capacity; and it has at most as many records as the input. *)
Theorem cleaned_table_columns (h : store) (data : ref)
    (t : DataFrame) (r : ref) (h' : store) (t' : DataFrame) :
  h !! data = Some t →
  clean_body' data h = (Ret r, h') →
  h' !! r = Some t' →
  (∀ c, has_column c t = true → has_column c t' = true) ∧
  has_column "day_of_week" t' = true ∧ has_column "month" t' = true ∧
  has_column "week" t' = true ∧ has_column "is_weekend" t' = true ∧
  has_column "load_factor" t' =
    has_column "load_factor" t || (has_column "bookings" t && has_column "capacity" t) ∧
  (length (rows t') ≤ length (rows t))%nat.
Proof.
  intros Hdata Hrun Hr.
  destruct (clean_body_result parse_datetime parse_numeric h data t r h' Hdata Hrun)
    as (t0 & Hr0 & _ & Hlen & Hcols & Hnew & Hlf).
  assert (t0 = t') as -> by congruence.
  rewrite !Forall_cons in Hnew.
  destruct Hnew as (_ & _ & ? & ? & ? & ? & _).
  by split_and!.
Qed.

End CleanedTables.

Lemma cleaned_records_are_dated_and_priced_witness :
  Forall (λ row, (∃ d, row_get "date" row = Date d) ∧
                 ∃ q, row_get "price" row = Num (Fin q) ∧ (50 <= q <= 2000)%Q)
         (rows (cleaned two_flights)).
Proof.
  apply (cleaned_records_are_dated_and_priced no_datetime no_numeric
           [two_flights] 0%nat two_flights 3%nat
           (snd (MarketAnalyzer.clean_body no_datetime no_numeric 0%nat
                   [two_flights])));
    by vm_compute.
Defined.

Lemma cleaned_records_time_features_witness :
  Forall (λ row, ∃ d name is_weekend,
            row_get "date" row = Date d ∧
            row_get "day_of_week" row = Str name ∧
            name = Calendar.day_name d ∧ name ∈ MarketAnalyzer.day_order ∧
            row_get "month" row = Num (Float.of_Z (Calendar.month d)) ∧
            1 ≤ Calendar.month d ≤ 12 ∧
            row_get "week" row = Num (Float.of_Z (Calendar.isoweek d)) ∧
            1 ≤ Calendar.isoweek d ≤ 53 ∧
            row_get "is_weekend" row = Flag is_weekend ∧
            (is_weekend = true ↔
             name = "Saturday"%string ∨ name = "Sunday"%string))
         (rows (cleaned saturday_flight)).
Proof.
  apply (cleaned_records_time_features no_datetime no_numeric
           [saturday_flight] 0%nat saturday_flight 3%nat
           (snd (MarketAnalyzer.clean_body no_datetime no_numeric 0%nat
                   [saturday_flight])));
    by vm_compute.
Defined.

Lemma cleaned_table_columns_witness :
  (∀ c, has_column c flight_without_capacity = true →
        has_column c (cleaned flight_without_capacity) = true) ∧
  has_column "day_of_week" (cleaned flight_without_capacity) = true ∧
  has_column "month" (cleaned flight_without_capacity) = true ∧
  has_column "week" (cleaned flight_without_capacity) = true ∧
  has_column "is_weekend" (cleaned flight_without_capacity) = true ∧
  has_column "load_factor" (cleaned flight_without_capacity) =
    has_column "load_factor" flight_without_capacity ||
    (has_column "bookings" flight_without_capacity &&
     has_column "capacity" flight_without_capacity) ∧
  (length (rows (cleaned flight_without_capacity))
   ≤ length (rows flight_without_capacity))%nat.
Proof.
  apply (cleaned_table_columns no_datetime no_numeric
           [flight_without_capacity] 0%nat flight_without_capacity 3%nat
           (snd (MarketAnalyzer.clean_body no_datetime no_numeric 0%nat
                   [flight_without_capacity])));
    by vm_compute.
Defined.

(** * Further properties of the sections *)

(** ** Tables without a load factor *)

Section MissingColumns.

Import MarketAnalyzer.

Lemma require_missing cs c data :
  c ∈ cs → has_column c data = false → ∃ e, require cs data = Raise e.
Proof.
  intros Hin Hc. unfold require.
  destruct (filter (λ c, has_column c data = false) cs) as [|c' cs'] eqn:Hf.
  - assert (c ∈ filter (λ c, has_column c data = false) cs) as H
      by (by apply list_elem_of_filter).
    rewrite Hf in H. by apply elem_of_nil in H.
  - by eexists.
Qed.

Lemma require_Ret cs data :
  require cs data = Ret tt → Forall (λ c, has_column c data = true) cs.
Proof.
  unfold require.
  destruct (filter (λ c, has_column c data = false) cs) as [|c' cs'] eqn:Hf; [|done].
  intros _. apply Forall_forall. intros c Hc.
  destruct (has_column c data) eqn:E; [done|].
  assert (c ∈ filter (λ c, has_column c data = false) cs) as H
    by (by apply list_elem_of_filter).
  rewrite Hf in H. by apply elem_of_nil in H.
Qed.

Lemma require_columns cs data :
  Forall (λ c, has_column c data = true) cs → require cs data = Ret tt.
Proof.
  intros H. unfold require.
  destruct (filter (λ c, has_column c data = false) cs) as [|c' cs'] eqn:Hf;
    [done|].
  assert (c' ∈ filter (λ c, has_column c data = false) cs) as Hin
    by (rewrite Hf; apply elem_of_cons; by left).
  apply list_elem_of_filter in Hin as [Hc Hin].
  rewrite Forall_forall in H. by rewrite (H c' Hin) in Hc.
Qed.

(** With both columns the routes are the groups of their values. *)
Lemma groupby_routes_of_columns data :
  has_column "origin" data = true → has_column "destination" data = true →
  groupby_routes data = Ret (snd <$> groupby route_ltb route_key (rows data)).
Proof.
  intros Ho Hd. unfold groupby_routes.
  rewrite require_columns; [done|]. by repeat constructor.
Qed.

Context (repr_float : float → string).
Context (std : list float → float).

(** The demand patterns, the popular routes and the seasonal trends each
    aggregate the load factor, and fail as a whole without the column. *)
Lemma sections_without_load_factor (data : DataFrame) :
  has_column "load_factor" data = false →
  _analyze_demand_patterns repr_float data = default_demand_patterns ∧
  _analyze_popular_routes data = default_popular_routes ∧
  _analyze_seasonal_trends std data = default_seasonal_trends.
Proof.
  intros Hlf. split_and!.
  - unfold _analyze_demand_patterns, demand_patterns_body.
    destruct (require ["day_of_week"; "bookings"; "price"]%string data) as [[]|e];
      [|done].
    cbn [obind].
    destruct (require ["month"]%string data) as [[]|e]; [|done].
    cbn [obind].
    destruct (require_missing ["is_weekend"; "load_factor"]%string "load_factor" data)
      as [e ->]; [|done..].
    apply elem_of_cons. right. by apply list_elem_of_singleton.
  - unfold _analyze_popular_routes, popular_routes_body.
    destruct (require_missing
                ["origin"; "destination"; "bookings"; "price"; "load_factor"]%string
                "load_factor" data) as [e ->]; [|done..].
    rewrite !elem_of_cons. auto 10.
  - unfold _analyze_seasonal_trends, seasonal_trends_body.
    destruct (require_missing
                ["month"; "bookings"; "price"; "load_factor"]%string
                "load_factor" data) as [e ->]; [|done..].
    rewrite !elem_of_cons. auto 10.
Qed.

Context (parse_datetime : string → option Calendar.Timestamp).
Context (parse_numeric : string → option Q).
Context (now : Calendar.Timestamp).

Local Abbreviation clean_body' := (clean_body parse_datetime parse_numeric).
Local Abbreviation analyze_market_trends' :=
  (analyze_market_trends parse_datetime parse_numeric repr_float std now
     Sections (sections std now) (default_sections now)).

(** X4.  The analysis of a table that is not empty and comes without a
    load factor and without one of bookings and capacity: the demand
    patterns, the popular routes and the seasonal trends are the static
    substitutes, whatever the flights are.  Each of the three sections
    aggregates the load factor, which the cleaning step did not add, and
    fails as a whole. *)
Theorem analysis_without_load_factor (self : Analyzer) (h : store)
    (flight_data : ref) (t : DataFrame) :
  h !! flight_data = Some t →
  df_empty t = false →
  has_column "load_factor" t = false →
  has_column "bookings" t && has_column "capacity" t = false →
  ∃ a self' h',
    analyze_market_trends' self flight_data h = (Ret (a, self'), h') ∧
    an_demand_patterns a = default_demand_patterns ∧
    an_popular_routes a = default_popular_routes ∧
    an_seasonal_trends a = default_seasonal_trends.
Proof.
  intros Hdata Hne Hlf Hboth.
  destruct (analyze_market_trends_run parse_datetime parse_numeric repr_float
              std now Sections (sections std now) (default_sections now)
              self h flight_data)
    as (a & self' & h' & Hrun & _ & Hcases).
  exists a, self', h'. split; [done|].
  destruct Hcases as [(_ & _ & Hemp)|(t0 & r & t' & Ht & _ & Hr & -> & _ & Hc)].
  { rewrite Hdata in Hemp. congruence. }
  assert (t0 = t) as -> by congruence.
  assert (has_column "load_factor" t' = false) as Hlf'.
  { destruct Hc as [[Hbody _]|(_ & _ & ->)]; [|done].
    destruct (clean_body_result parse_datetime parse_numeric h flight_data t r h'
                Hdata Hbody) as (t1 & Hr1 & _ & _ & _ & _ & Hnew).
    assert (t1 = t') as -> by congruence.
    by rewrite Hnew, Hlf, Hboth. }
  unfold assemble. cbn [an_demand_patterns an_popular_routes an_seasonal_trends].
  by apply sections_without_load_factor.
Qed.

End MissingColumns.

Lemma analysis_without_load_factor_witness :
  ∃ a self' h',
    MarketAnalyzer.analyze_market_trends no_datetime no_numeric no_repr no_std 19723
      MarketAnalyzer.Sections (MarketAnalyzer.sections no_std 19723)
      (MarketAnalyzer.default_sections 19723)
      fresh_analyzer 0%nat [flight_without_capacity] = (Ret (a, self'), h') ∧
    MarketAnalyzer.an_demand_patterns a = MarketAnalyzer.default_demand_patterns ∧
    MarketAnalyzer.an_popular_routes a = MarketAnalyzer.default_popular_routes ∧
    MarketAnalyzer.an_seasonal_trends a = MarketAnalyzer.default_seasonal_trends.
Proof.
  apply (analysis_without_load_factor no_repr no_std no_datetime no_numeric 19723
           fresh_analyzer [flight_without_capacity] 0%nat flight_without_capacity);
    by vm_compute.
Defined.

(** ** The weekend analysis *)

Section WeekendAnalysis.

Import MarketAnalyzer.

Context (repr_float : float → string).

Lemma bool_ltb_irrefl a : bool_ltb a a = false.
Proof. by destruct a. Qed.

Lemma bool_ltb_trans a b c :
  bool_ltb a b = true → bool_ltb b c = true → bool_ltb a c = true.
Proof. by destruct a, b, c. Qed.

(** The groups of [groupby('is_weekend')] when every flag is [b]. *)
Lemma weekend_groups_one_kind (b : bool) (rs : list (gmap string cell)) :
  (∃ row, row ∈ rs ∧ flag_key "is_weekend" row = Some b) →
  (∀ row, row ∈ rs → flag_key "is_weekend" row ≠ Some (negb b)) →
  ∃ g, groupby bool_ltb (flag_key "is_weekend") rs = [(b, g)].
Proof.
  intros (row & Hrow & Hkey) Hall.
  pose proof (groupby_ascending bool_ltb (flag_key "is_weekend") bool_ltb_trans rs)
    as Hsorted.
  assert (∀ k g, (k, g) ∈ groupby bool_ltb (flag_key "is_weekend") rs → k = b)
    as Hkeys.
  { intros k g Hin. apply groupby_key_from_row in Hin as (r & Hr & Hk).
    specialize (Hall r Hr). destruct k, b; simpl in *; congruence. }
  destruct (groupby_complete bool_ltb (flag_key "is_weekend") bool_ltb_irrefl
              rs row b Hrow Hkey) as (k' & g & Hin & _).
  destruct (groupby bool_ltb (flag_key "is_weekend") rs) as [|[k1 g1] gs] eqn:E.
  { by apply elem_of_nil in Hin. }
  assert (k1 = b) as -> by (apply (Hkeys k1 g1), elem_of_cons; by left).
  destruct gs as [|[k2 g2] gs]; [by exists g1|].
  assert (k2 = b) as ->.
  { apply (Hkeys k2 g2). apply elem_of_cons. right. apply elem_of_cons. by left. }
  unfold keys_ascending in Hsorted. cbn in Hsorted.
  apply StronglySorted_inv in Hsorted as [_ Hlt].
  apply Forall_cons in Hlt as [Hlt _]. by rewrite bool_ltb_irrefl in Hlt.
Qed.

(** Every record of the table carries the weekend flag [b]. *)
Definition weekend_flag (b : bool) (row : gmap string cell) : bool :=
  match row_get "is_weekend" row with
  | Flag b' => Bool.eqb b b'
  | _ => false
  end.

Definition all_flagged (b : bool) (data : DataFrame) : Prop :=
  forallb (weekend_flag b) (rows data) = true.

Lemma all_flagged_groups b data :
  (1 ≤ length (rows data))%nat → all_flagged b data →
  ∃ g, groupby bool_ltb (flag_key "is_weekend") (rows data) = [(b, g)].
Proof.
  intros Hlen Hall. unfold all_flagged in Hall. rewrite forallb_forall in Hall.
  assert (∀ row, row ∈ rows data → flag_key "is_weekend" row = Some b) as Hkey.
  { intros row Hrow%list_elem_of_In. specialize (Hall row Hrow).
    unfold weekend_flag, flag_key in *.
    destruct (row_get "is_weekend" row); try done.
    apply Bool.eqb_prop in Hall. by subst. }
  apply weekend_groups_one_kind.
  - destruct (rows data) as [|row rs]; [simpl in Hlen; lia|].
    exists row. split; [apply elem_of_cons; by left|].
    apply Hkey, elem_of_cons. by left.
  - intros row Hrow. rewrite (Hkey row Hrow). by destruct b.
Qed.

(** X5.  On a table whose flights are all on weekends, the demand patterns
    are the static substitute as a whole: the weekend analysis looks up the
    weekday row whenever it has any row, the look-up raises, and the
    handler of the section replaces the daily and monthly patterns as
    well. *)
Theorem demand_patterns_of_weekend_flights (data : DataFrame) :
  (1 ≤ length (rows data))%nat →
  all_flagged true data →
  _analyze_demand_patterns repr_float data = default_demand_patterns.
Proof.
  intros Hlen Hall.
  destruct (all_flagged_groups true data Hlen Hall) as [g Hg].
  unfold _analyze_demand_patterns, demand_patterns_body.
  destruct (require ["day_of_week"; "bookings"; "price"]%string data) as [[]|e];
    [|done].
  cbn [obind]. destruct (require ["month"]%string data) as [[]|e]; [|done].
  cbn [obind].
  destruct (require ["is_weekend"; "load_factor"]%string data) as [[]|e]; [|done].
  cbn [obind]. rewrite Hg. done.
Qed.

(** X6.  On a table whose flights are all on weekdays, the weekend side of
    the weekend analysis is reported as 0, bookings and price, where the
    demand patterns are computed: the side is read only when both kinds of
    day occur. *)
Theorem weekend_side_of_weekday_flights (data : DataFrame) (dp : DemandPatterns) :
  (1 ≤ length (rows data))%nat →
  all_flagged false data →
  demand_patterns_body repr_float data = Ret dp →
  _analyze_demand_patterns repr_float data = dp ∧
  weekend_bookings (weekend_analysis dp) = Float.of_Z 0 ∧
  weekend_price (weekend_analysis dp) = Float.of_Z 0.
Proof.
  intros Hlen Hall Hbody.
  destruct (all_flagged_groups false data Hlen Hall) as [g Hg].
  unfold _analyze_demand_patterns. rewrite Hbody. split; [done|].
  unfold demand_patterns_body in Hbody. rewrite Hg in Hbody.
  cbn [fmap list_fmap length] in Hbody.
  rewrite (bool_decide_eq_false_2 (1 < 1)%nat) in Hbody by lia.
  apply obind_Ret in Hbody as ([] & _ & Hbody).
  apply obind_Ret in Hbody as ([] & _ & Hbody).
  apply obind_Ret in Hbody as ([] & _ & Hbody).
  apply obind_Ret in Hbody as (wd_b & _ & Hbody).
  apply obind_Ret in Hbody as (we_b & Hwe_b & Hbody).
  apply obind_Ret in Hbody as (wd_p & _ & Hbody).
  apply obind_Ret in Hbody as (we_p & Hwe_p & Hbody).
  apply Ret_inj in Hbody as <-. apply Ret_inj in Hwe_b as <-.
  apply Ret_inj in Hwe_p as <-. done.
Qed.

End WeekendAnalysis.

Lemma demand_patterns_of_weekend_flights_witness :
  Calendar.day_name 19728 = "Saturday"%string ∧
  (1 ≤ length (rows (cleaned saturday_flight)))%nat ∧
  all_flagged true (cleaned saturday_flight) ∧
  MarketAnalyzer._analyze_demand_patterns no_repr (cleaned saturday_flight)
  = MarketAnalyzer.default_demand_patterns.
Proof.
  assert (1 ≤ length (rows (cleaned saturday_flight)))%nat as E1
    by (vm_compute; lia).
  assert (all_flagged true (cleaned saturday_flight)) as E2
    by (vm_compute; reflexivity).
  split; [vm_compute; reflexivity|].
  exact (conj E1 (conj E2
    (demand_patterns_of_weekend_flights no_repr (cleaned saturday_flight) E1 E2))).
Defined.

Lemma weekend_side_of_weekday_flights_witness :
  (1 ≤ length (rows (cleaned single_flight)))%nat ∧
  all_flagged false (cleaned single_flight) ∧
  MarketAnalyzer.weekend_bookings
    (MarketAnalyzer.weekend_analysis
       (MarketAnalyzer._analyze_demand_patterns no_repr (cleaned single_flight)))
  = Float.of_Z 0.
Proof.
  assert (1 ≤ length (rows (cleaned single_flight)))%nat as E1
    by (vm_compute; lia).
  assert (all_flagged false (cleaned single_flight)) as E2
    by (vm_compute; reflexivity).
  assert (MarketAnalyzer.demand_patterns_body no_repr (cleaned single_flight)
          = Ret (MarketAnalyzer._analyze_demand_patterns no_repr (cleaned single_flight)))
    as E3 by (vm_compute; reflexivity).
  destruct (weekend_side_of_weekday_flights no_repr (cleaned single_flight) _ E1 E2 E3)
    as (_ & H & _).
  exact (conj E1 (conj E2 H)).
Defined.

(** ** The daily patterns *)

Section DailyPatterns.

Import MarketAnalyzer.

Context (repr_float : float → string).

(** No flight of the frame is on weekday [d]. *)
Definition weekday_absent (d : string) (data : DataFrame) : Prop :=
  ∀ row, row ∈ rows data → str_key "day_of_week" row ≠ Some d.

Lemma daily_patterns_computed data dp :
  demand_patterns_body repr_float data = Ret dp →
  ∃ by_day : string → float * float,
    (∀ d, weekday_absent d data → by_day d = (Float.of_Z 0, Float.of_Z 0)) ∧
    daily_patterns dp =
      {| dp_labels := day_order;
         dp_bookings := (λ d, fillna (Float.of_Z 0) (fst (by_day d))) <$> day_order;
         dp_avg_prices :=
           (λ d, Float.round_dec 0 (fillna (Float.of_Z 0) (snd (by_day d)))) <$> day_order |}.
Proof.
  unfold demand_patterns_body. intros H. obind_inv H. cbn [daily_patterns].
  eexists (λ d, match filter (λ g, fst g = d)
                        (groupby String.ltb (str_key "day_of_week") (rows data)) with
                | g :: _ => _
                | [] => _
                end).
  split; [|by rewrite <- !list_fmap_compose].
  intros d Habs. cbv beta.
  destruct (filter _ _) as [|[k g] gs] eqn:Hf; [done|]. exfalso.
  assert ((k, g) ∈ filter (λ g, fst g = d)
            (groupby String.ltb (str_key "day_of_week") (rows data))) as Hin
    by (rewrite Hf; apply elem_of_cons; by left).
  apply list_elem_of_filter in Hin as [Hk Hin]. cbn in Hk. subst k.
  apply groupby_key_from_row in Hin as (row & Hrow & Hkey).
  by apply (Habs row).
Qed.

(** X7.  The daily patterns always carry the seven weekdays, Monday to
    Sunday, with seven bookings and seven average prices, computed or
    static.  Where they are computed, a weekday on which no flight of the
    table falls has bookings 0 and average price 0. *)
Theorem daily_patterns_cover_the_week (data : DataFrame) :
  let dp := daily_patterns (_analyze_demand_patterns repr_float data) in
  dp_labels dp = day_order ∧
  length (dp_bookings dp) = 7%nat ∧
  length (dp_avg_prices dp) = 7%nat ∧
  ∀ computed i d,
    demand_patterns_body repr_float data = Ret computed →
    day_order !! i = Some d →
    weekday_absent d data →
    dp_bookings dp !! i = Some (Float.of_Z 0) ∧
    dp_avg_prices dp !! i = Some (Float.of_Z 0).
Proof.
  cbv zeta. unfold _analyze_demand_patterns.
  destruct (demand_patterns_body repr_float data) as [dp|e] eqn:Hbody.
  - destruct (daily_patterns_computed data dp Hbody) as (by_day & Habs & ->).
    cbn [dp_labels dp_bookings dp_avg_prices]. rewrite !length_fmap.
    split_and!; [done..|].
    intros _ i d _ Hi Hd. rewrite !list_lookup_fmap, Hi. cbn.
    by rewrite (Habs d Hd).
  - split_and!; [done..|]. intros ? ? ? [=].
Qed.

End DailyPatterns.

(** ** The market health *)

Section MarketHealth.

Import MarketAnalyzer.

Context (std : list float → float).

(** The number of distinct routes of the table. *)
Definition distinct_routes (data : DataFrame) : nat :=
  length (groupby route_ltb route_key (rows data)).

(** X8.  On a table with at most five distinct routes the market health
    is never "Excellent": price stability and load factor give at most two
    points each, and five are needed.  When the table has no load factor
    column either, the label is "Fair" or "Poor" where it is computed, and
    "Good" is then the answer of the handler only. *)
Theorem market_health_of_few_routes (data : DataFrame) :
  (distinct_routes data ≤ 5)%nat →
  _calculate_market_health std data ∈ ["Good"; "Fair"; "Poor"]%string ∧
  (has_column "load_factor" data = false →
   ∀ label, market_health_body std data = Ret label →
     label = "Fair"%string ∨ label = "Poor"%string).
Proof.
  intros Hn.
  assert (∀ n, unique_routes_of data = Ret n → (n ≤ 5)%nat) as Hroutes.
  { unfold unique_routes_of, groupby_routes, distinct_routes in *. intros n.
    destruct (require ["origin"; "destination"]%string data) as [[]|e].
    - cbn [obind]. intros [= <-]. by rewrite length_fmap.
    - destruct (rows data) as [|r0 [|r1 [|r2 rs]]]; cbn [obind]; try done.
      intros [= <-]. cbn [length]. lia. }
  unfold _calculate_market_health, market_health_body.
  destruct (numeric "price" data) as [price|e].
  2:{ cbn [obind]. split; [rewrite !elem_of_cons; auto|by intros]. }
  cbn [obind].
  destruct (unique_routes_of data) as [n|e].
  2:{ cbn [obind]. split; [rewrite !elem_of_cons; auto|by intros]. }
  cbn [obind]. specialize (Hroutes n eq_refl).
  set (s1 := if Float.ltb _ _ then 2 else if Float.ltb _ _ then 1 else 0).
  set (s2 := if has_column "load_factor" data then _ else 0).
  set (s3 := if bool_decide (10 < n)%nat then 2
             else if bool_decide (5 < n)%nat then 1 else 0).
  assert (0 ≤ s1 ≤ 2) as H1.
  { unfold s1. destruct (Float.ltb _ _); [lia|]. destruct (Float.ltb _ _); lia. }
  assert (0 ≤ s2 ≤ 2) as H2.
  { unfold s2. destruct (has_column _ _); [|lia].
    destruct (Float.gtb _ _); [lia|]. destruct (Float.gtb _ _); lia. }
  assert (s3 = 0) as -> by (unfold s3; repeat case_bool_decide; lia).
  split.
  - destruct (5 <=? s1 + s2 + 0) eqn:E; [apply Z.leb_le in E; lia|].
    destruct (3 <=? s1 + s2 + 0); [rewrite !elem_of_cons; auto|].
    destruct (1 <=? s1 + s2 + 0); rewrite !elem_of_cons; auto.
  - intros Hlf label Hlabel. apply Ret_inj in Hlabel as <-.
    assert (s2 = 0) as -> by (unfold s2; by rewrite Hlf).
    destruct (5 <=? s1 + 0 + 0) eqn:E5; [apply Z.leb_le in E5; lia|].
    destruct (3 <=? s1 + 0 + 0) eqn:E3; [apply Z.leb_le in E3; lia|].
    destruct (1 <=? s1 + 0 + 0); auto.
Qed.

End MarketHealth.

Lemma market_health_of_few_routes_witness :
  (distinct_routes (cleaned two_flights) ≤ 5)%nat ∧
  MarketAnalyzer._calculate_market_health no_std (cleaned two_flights)
    ∈ ["Good"; "Fair"; "Poor"]%string.
Proof.
  assert (distinct_routes (cleaned two_flights) ≤ 5)%nat as E
    by (vm_compute; lia).
  exact (conj E (proj1 (market_health_of_few_routes no_std (cleaned two_flights) E))).
Defined.

(** ** The popular routes *)

Section PopularRoutes.

Import MarketAnalyzer.

Context (std : list float → float).

(** Bookings in descending order. *)
Definition descending (xs : list float) : Prop :=
  StronglySorted (λ a b, Float.leb b a = true) xs.

Lemma goes_before_finite (a b : Q) :
  goes_before (Fin a) (Fin b) = false → (a <= b)%Q.
Proof. unfold goes_before. simpl. apply Qltb_ge. Qed.

Lemma insert_desc_elem x l y :
  y ∈ insert_desc x l → y = x ∨ y ∈ l.
Proof.
  induction l as [|z l IH]; simpl.
  - intros H%list_elem_of_singleton. by left.
  - destruct (goes_before _ _).
    + intros [->|H]%elem_of_cons; [right; apply elem_of_cons; by left|].
      destruct (IH H) as [->|Hin]; [by left|right; apply elem_of_cons; by right].
    + intros [->|H]%elem_of_cons; [by left|by right].
Qed.

Lemma insert_desc_sorted x l :
  finite_nonneg (rs_bookings x) →
  Forall (λ r, finite_nonneg (rs_bookings r)) l →
  descending (rs_bookings <$> l) →
  descending (rs_bookings <$> insert_desc x l).
Proof.
  intros (qx & Hx & _) Hfin. unfold descending.
  induction l as [|y l IH]; simpl; intros Hs.
  - repeat constructor.
  - apply Forall_cons in Hfin as [(qy & Hy & _) Hfin].
    apply StronglySorted_inv in Hs as [Hs Hall].
    destruct (goes_before (rs_bookings y) (rs_bookings x)) eqn:E.
    + cbn. constructor; [by apply IH|].
      apply Forall_fmap, Forall_forall. intros z Hz. cbn.
      apply insert_desc_elem in Hz as [->|Hz].
      * rewrite Hx, Hy in *. unfold goes_before in E. simpl in *.
        apply Qltb_lt in E. apply Qle_bool_iff. lra.
      * rewrite Forall_fmap, Forall_forall in Hall. by apply Hall.
    + cbn. constructor; [by constructor|].
      constructor.
      * rewrite Hx, Hy in *. apply goes_before_finite in E.
        simpl. by apply Qle_bool_iff.
      * rewrite Forall_fmap, Forall_forall in Hall.
        apply Forall_fmap, Forall_forall. intros z Hz. cbn.
        specialize (Hall z Hz). cbn in Hall.
        rewrite Forall_forall in Hfin. destruct (Hfin z Hz) as (qz & Hqz & _).
        rewrite Hx, Hy, Hqz in *. apply goes_before_finite in E.
        simpl in *. apply Qle_bool_iff in Hall. apply Qle_bool_iff. lra.
Qed.

Lemma sort_desc_sorted l :
  Forall (λ r, finite_nonneg (rs_bookings r)) l →
  descending (rs_bookings <$> sort_desc l).
Proof.
  induction 1 as [|x l Hx Hl IH]; simpl; [constructor|].
  apply insert_desc_sorted; [done| |done]. by apply sort_desc_Forall.
Qed.

Lemma StronglySorted_take {X} (R : X → X → Prop) n l :
  StronglySorted R l → StronglySorted R (take n l).
Proof.
  intros H. revert n. induction H as [|x l Hl IH Hall]; intros [|n]; simpl;
    try constructor; [apply IH|].
  by apply Forall_take.
Qed.

(** X9.  The four lists of [top_routes] have one length, at most ten.  Where
    the section is computed, that length is the number of distinct routes,
    cut at ten; [total_routes] is that number, the same that the summary
    statistics report as [unique_routes]; and [top_route] is the first
    label, "N/A" on a table without routes.  On a table whose bookings are
    not negative, the routes are listed by descending bookings. *)
Theorem top_routes_listing (data : DataFrame) :
  let pr := _analyze_popular_routes data in
  length (tr_labels pr) = length (tr_bookings pr) ∧
  length (tr_avg_prices pr) = length (tr_bookings pr) ∧
  length (tr_market_share pr) = length (tr_bookings pr) ∧
  (length (tr_bookings pr) ≤ 10)%nat ∧
  (∀ computed, popular_routes_body data = Ret computed →
     length (tr_bookings pr) = (10 `min` distinct_routes data)%nat ∧
     ra_total_routes pr = distinct_routes data ∧
     ra_top_route pr = default "N/A"%string (tr_labels pr !! 0%nat) ∧
     ∀ st, statistics_body std data = Ret st →
       st_unique_routes st = Z.of_nat (ra_total_routes pr)) ∧
  (bookings_nonneg data → descending (tr_bookings pr)).
Proof.
  cbv zeta. unfold _analyze_popular_routes.
  destruct (popular_routes_body data) as [pr|e] eqn:Hbody.
  - unfold popular_routes_body in Hbody.
    apply obind_Ret in Hbody as ([] & Hreq & Hbody). apply Ret_inj in Hbody as <-.
    apply require_Ret in Hreq. apply Forall_cons in Hreq as [Ho Hreq].
    apply Forall_cons in Hreq as [Hd _].
    pose proof (groupby_routes_of_columns data Ho Hd) as Hroutes.
    cbn [tr_labels tr_bookings tr_avg_prices tr_market_share ra_total_routes
         ra_top_route].
    unfold MarketAnalyzer.head. rewrite !length_fmap, length_take.
    rewrite length_sort_desc.
    assert (length (route_stats_of data) = distinct_routes data) as Hn
      by (unfold route_stats_of; by rewrite length_fmap).
    rewrite !Hn.
    split_and!; [done|done|done|lia| |].
    + intros _ _. split_and!; [lia|done| |].
      * destruct (sort_desc (route_stats_of data)); done.
      * intros st Hst. unfold statistics_body in Hst.
        repeat (let x := fresh "x" in let E := fresh "E" in
                apply obind_Ret in Hst as (x & E & Hst)).
        apply Ret_inj in Hst as <-. cbn [st_unique_routes].
        unfold unique_routes_of in *. rewrite Hroutes in *.
        match goal with H : obind (Ret _) _ = Ret ?n |- _ =>
          cbn [obind] in H; apply Ret_inj in H; subst n end.
        unfold distinct_routes. by rewrite length_fmap.
    + intros Hnn. unfold descending. rewrite fmap_take. apply StronglySorted_take.
      apply sort_desc_sorted. by apply route_stats_nonneg.
  - cbn. split_and!; [done|done|done|lia|by intros|].
    intros _. unfold descending. repeat constructor.
Qed.

End PopularRoutes.

(** ** Sorted series, means and medians *)

Section SortedSeries.

Lemma ltb_irrefl x : Float.ltb x x = false.
Proof.
  destruct x as [| | |a]; try done. simpl. apply Qltb_ge. apply Qle_refl.
Qed.

Lemma ltb_asym x y : Float.ltb x y = true → Float.ltb y x = false.
Proof.
  destruct x as [| | |a], y as [| | |b]; try done. simpl.
  intros H%Qltb_lt. apply Qltb_ge. lra.
Qed.

Lemma ltb_trans x y z :
  Float.ltb x y = true → Float.ltb y z = true → Float.ltb x z = true.
Proof.
  destruct x as [| | |a], y as [| | |b], z as [| | |c]; try done. simpl.
  intros H1%Qltb_lt H2%Qltb_lt. apply Qltb_lt. lra.
Qed.

(** Ascending order, as [Series.sort_values] leaves it. *)
Definition ascending (xs : list float) : Prop :=
  StronglySorted (λ a b, Float.ltb b a = false) xs.

Lemma insert_sorted_elem x l y :
  y ∈ Float.insert_sorted x l ↔ y = x ∨ y ∈ l.
Proof.
  induction l as [|z l IH]; simpl.
  - rewrite list_elem_of_singleton, elem_of_nil. tauto.
  - destruct (Float.ltb x z).
    + by rewrite elem_of_cons.
    + rewrite !elem_of_cons, IH. tauto.
Qed.

Lemma sort_elem l y : y ∈ Float.sort l ↔ y ∈ l.
Proof.
  unfold Float.sort. induction l as [|x l IH]; simpl; [done|].
  rewrite insert_sorted_elem, elem_of_cons, IH. tauto.
Qed.

Lemma insert_sorted_ascending x l :
  ascending l → ascending (Float.insert_sorted x l).
Proof.
  unfold ascending. induction l as [|y l IH]; simpl; intros Hs.
  - repeat constructor.
  - apply StronglySorted_inv in Hs as [Hs Hall].
    destruct (Float.ltb x y) eqn:E.
    + constructor; [by constructor|]. constructor; [by apply ltb_asym|].
      eapply Forall_impl; [exact Hall|]. intros z Hz. cbv beta in *.
      destruct (Float.ltb z x) eqn:Ez; [|done].
      by rewrite (ltb_trans z x y Ez E) in Hz.
    + constructor; [by apply IH|].
      apply Forall_forall. intros z Hz. apply insert_sorted_elem in Hz as [->|Hz]; [done|].
      rewrite Forall_forall in Hall. by apply Hall.
Qed.

Lemma sort_ascending l : ascending (Float.sort l).
Proof.
  unfold Float.sort. induction l as [|x l IH]; simpl; [constructor|].
  by apply insert_sorted_ascending.
Qed.

(** A series whose least and greatest values are the numbers [m] and [M]
    holds numbers between [m] and [M] only. *)
Definition between (m M : Q) (x : float) : Prop :=
  ∃ q, x = Fin q ∧ (m <= q <= M)%Q.

Lemma ascending_between (s : list float) m M :
  ascending s → Forall (λ x, Float.is_nan x = false) s →
  (match s with x :: _ => x | [] => NaN end) = Fin m →
  List.last s NaN = Fin M →
  Forall (between m M) s.
Proof.
  intros Hs Hnan Hmin Hmax.
  destruct s as [|x0 s']; [done|]. subst x0.
  assert (Fin m :: s' ≠ []) as Hne by done.
  pose proof (app_removelast_last NaN Hne) as Hsplit. rewrite Hmax in Hsplit.
  apply Forall_forall. intros x Hx.
  rewrite Forall_forall in Hnan. specialize (Hnan x Hx).
  assert (Float.ltb x (Fin m) = false) as Hlo.
  { apply elem_of_cons in Hx as [->|Hx]; [apply ltb_irrefl|].
    apply StronglySorted_inv in Hs as [_ Hall].
    rewrite Forall_forall in Hall. by apply Hall. }
  assert (Float.ltb (Fin M) x = false) as Hhi.
  { rewrite Hsplit in Hx, Hs. apply elem_of_app in Hx as [Hx|Hx].
    - unfold ascending in Hs.
      apply (StronglySorted_app_1_elem_of _ _ _ x (Fin M) Hs Hx).
      by apply list_elem_of_singleton.
    - apply list_elem_of_singleton in Hx as ->. apply ltb_irrefl. }
  destruct x as [| | |q]; try done.
  exists q. split; [done|]. simpl in Hlo, Hhi.
  apply Qltb_ge in Hlo, Hhi. done.
Qed.

Lemma between_list m M xs :
  Forall (between m M) xs →
  ∃ qs, xs = Fin <$> qs ∧ Forall (λ q, m <= q <= M)%Q qs.
Proof.
  induction 1 as [|x xs (q & -> & Hq) _ (qs & -> & Hqs)].
  - by exists [].
  - exists (q :: qs). split; [done|by constructor].
Qed.

Lemma Qsum_between m M qs :
  Forall (λ q, m <= q <= M)%Q qs →
  (m * inject_Z (Z.of_nat (length qs)) <= MarketAnalyzer.Qsum qs
   <= M * inject_Z (Z.of_nat (length qs)))%Q.
Proof.
  induction 1 as [|q qs Hq _ IH].
  - unfold MarketAnalyzer.Qsum. cbn [length foldr].
    change (inject_Z (Z.of_nat 0)) with 0%Q. lra.
  - cbn [length]. rewrite Nat2Z.inj_succ. unfold Z.succ. rewrite inject_Z_plus.
    change (inject_Z 1) with 1%Q. unfold MarketAnalyzer.Qsum in *. cbn [foldr].
    lra.
Qed.

Lemma mean_between m M qs :
  (1 ≤ length qs)%nat → Forall (λ q, m <= q <= M)%Q qs →
  between m M (Float.mean (Fin <$> qs)).
Proof.
  intros Hlen Hqs. unfold Float.mean, Float.count.
  rewrite filter_not_nan_Fin, length_fmap.
  destruct (length qs) as [|n] eqn:E; [lia|]. rewrite <- E.
  destruct (sum_Fin qs) as (s & -> & Hs).
  pose proof (Qsum_between m M qs Hqs) as Hb.
  assert (0 < inject_Z (Z.of_nat (length qs)))%Q as Hpos.
  { change 0%Q with (inject_Z 0). rewrite <- Zlt_Qlt. lia. }
  unfold Float.div, Float.of_Z.
  destruct (Qeq_bool (inject_Z (Z.of_nat (length qs))) 0) eqn:E0.
  { apply Qeq_bool_iff in E0. lra. }
  eexists. split; [done|]. rewrite Qred_correct, Hs.
  set (N := inject_Z (Z.of_nat (length qs))) in *.
  split.
  - apply Qle_shift_div_l; [done|]. lra.
  - apply Qle_shift_div_r; [done|]. lra.
Qed.

(** [int] cuts toward zero, and keeps the order. *)
Definition trunc (q : Q) : Z := Z.quot (Qnum q) (Zpos (Qden q)).

Lemma trunc_nonneg q : (0 <= q)%Q → trunc q = Qfloor q.
Proof.
  intros H. unfold trunc. destruct q as [n d]. simpl.
  apply Z.quot_div_nonneg; [|lia].
  unfold Qle in H. simpl in H. lia.
Qed.

Lemma trunc_neg q : (q <= 0)%Q → trunc q = - Qfloor (- q).
Proof.
  intros H. rewrite <- trunc_nonneg by lra.
  unfold trunc. destruct q as [n d]. simpl. by rewrite Z.quot_opp_l, Z.opp_involutive.
Qed.

Lemma trunc_mono a b : (a <= b)%Q → trunc a ≤ trunc b.
Proof.
  intros Hab. destruct (Qlt_le_dec a 0) as [Ha|Ha], (Qlt_le_dec b 0) as [Hb|Hb].
  - rewrite !trunc_neg by lra.
    assert (Qfloor (- b) ≤ Qfloor (- a)); [apply Qfloor_resp_le; lra|lia].
  - rewrite trunc_neg by lra. rewrite (trunc_nonneg b) by done.
    assert (Qfloor 0 ≤ Qfloor (- a)) by (apply Qfloor_resp_le; lra).
    assert (Qfloor 0 ≤ Qfloor b) by (by apply Qfloor_resp_le).
    change (Qfloor 0) with 0 in *. lia.
  - lra.
  - rewrite !trunc_nonneg by lra. by apply Qfloor_resp_le.
Qed.

End SortedSeries.

(** ** The order of the summary statistics *)

Section StatisticsOrder.

Import MarketAnalyzer.

Context (std : list float → float).
Context (now : Calendar.Timestamp).

Lemma int_Fin x z : int x = Ret z → ∃ q, x = Fin q ∧ z = trunc q.
Proof.
  unfold int, Float.to_int. destruct x as [| | |q]; try done.
  intros [= <-]. by exists q.
Qed.

Lemma filter_not_nan_idemp (xs : list float) :
  filter (λ x, Float.is_nan x = false) (filter (λ x, Float.is_nan x = false) xs)
  = filter (λ x, Float.is_nan x = false) xs.
Proof.
  induction xs as [|x xs IH]; [done|].
  destruct (Float.is_nan x) eqn:E.
  - by rewrite filter_cons_False by congruence.
  - rewrite filter_cons_True by done. rewrite filter_cons_True by done.
    by rewrite IH.
Qed.

Lemma mean_filter (xs : list float) :
  Float.mean (filter (λ x, Float.is_nan x = false) xs) = Float.mean xs.
Proof.
  unfold Float.mean, Float.count, Float.sum. by rewrite filter_not_nan_idemp.
Qed.

Lemma nth_between m M (qs : list Q) i :
  Forall (λ q, m <= q <= M)%Q qs → (i < length qs)%nat →
  ∃ q, nth i (Fin <$> qs) NaN = Fin q ∧ (m <= q <= M)%Q.
Proof.
  intros Hqs. revert i. induction Hqs as [|q qs Hq _ IH]; intros i Hi.
  - simpl in Hi. lia.
  - destruct i as [|i]; [by exists q|]. cbn. apply IH. simpl in Hi. lia.
Qed.

(** The prices that are not missing, when the least and the greatest of
    them are the numbers [m] and [M]. *)
Lemma prices_between price m M :
  series_min price = Fin m → series_max price = Fin M →
  ∃ qs ss,
    filter (λ x, Float.is_nan x = false) price = Fin <$> qs ∧
    Float.sort (filter (λ x, Float.is_nan x = false) price) = Fin <$> ss ∧
    (1 ≤ length qs)%nat ∧ (1 ≤ length ss)%nat ∧
    Forall (λ q, m <= q <= M)%Q qs ∧ Forall (λ q, m <= q <= M)%Q ss.
Proof.
  unfold series_min, series_max.
  set (f := filter (λ x, Float.is_nan x = false) price).
  intros Hmin Hmax.
  assert (Forall (between m M) (Float.sort f)) as Hs.
  { apply ascending_between; [apply sort_ascending| |done|done].
    apply Forall_forall. intros x Hx. apply (proj1 (sort_elem _ _)) in Hx.
    by apply list_elem_of_filter in Hx as [Hx _]. }
  assert (Forall (between m M) f) as Hf.
  { apply Forall_forall. intros x Hx. apply (proj2 (sort_elem _ _)) in Hx.
    rewrite Forall_forall in Hs. by apply Hs. }
  destruct (between_list m M f Hf) as (qs & Hqs & Bqs).
  destruct (between_list m M (Float.sort f) Hs) as (ss & Hss & Bss).
  exists qs, ss. split_and!; try done.
  - destruct qs as [|q qs]; [|simpl; lia].
    rewrite Hqs in Hmin. done.
  - destruct ss as [|q ss]; [|simpl; lia]. rewrite Hss in Hmin. done.
Qed.

Lemma median_between price m M :
  series_min price = Fin m → series_max price = Fin M →
  between m M (median price).
Proof.
  intros Hmin Hmax.
  destruct (prices_between price m M Hmin Hmax)
    as (qs & ss & _ & Hss & _ & Hlen & _ & Bss).
  unfold median. rewrite Hss.
  destruct (Fin <$> ss) as [|s0 s'] eqn:E.
  { destruct ss; [simpl in Hlen; lia|done]. }
  rewrite <- E. rewrite length_fmap.
  assert (length ss / 2 < length ss)%nat as H2
    by (apply Nat.div_lt; lia).
  destruct (Nat.even (length ss)).
  - assert (length ss / 2 - 1 < length ss)%nat as H1 by lia.
    destruct (nth_between m M ss _ Bss H1) as (a & -> & Ha).
    destruct (nth_between m M ss _ Bss H2) as (b & -> & Hb).
    eexists. split; [done|]. rewrite !Qred_correct.
    change (inject_Z 2) with 2%Q.
    split; [apply Qle_shift_div_l|apply Qle_shift_div_r]; lra.
  - destruct (nth_between m M ss _ Bss H2) as (b & -> & Hb). by exists b.
Qed.

Lemma avg_between price m M :
  series_min price = Fin m → series_max price = Fin M →
  between m M (Float.mean price).
Proof.
  intros Hmin Hmax.
  destruct (prices_between price m M Hmin Hmax)
    as (qs & ss & Hqs & _ & Hlen & _ & Bqs & _).
  rewrite <- mean_filter, Hqs. by apply mean_between.
Qed.

Lemma date_range_nonneg rs dmin dmax :
  date_min rs = Some dmin → date_max rs = Some dmax → dmin ≤ dmax.
Proof.
  unfold date_min, date_max. destruct (omap _ rs) as [|d ds]; [done|].
  intros [= <-] [= <-].
  assert (foldr Z.min d ds ≤ d ≤ foldr Z.max d ds); [|lia].
  induction ds as [|x ds IH]; simpl; lia.
Qed.

(** X10.  In the summary statistics, computed or static, the average price
    and the median price lie between the minimum and the maximum price, and
    the date range spans a number of days that is not negative. *)
Theorem statistics_are_ordered (data : DataFrame) :
  let st := _calculate_comprehensive_statistics std now data in
  st_min_price st ≤ st_avg_price st ≤ st_max_price st ∧
  st_min_price st ≤ st_median_price st ≤ st_max_price st ∧
  0 ≤ dr_days (st_date_range st).
Proof.
  cbv zeta. unfold _calculate_comprehensive_statistics.
  destruct (statistics_body std data) as [st|e] eqn:Hbody; [|cbn; lia].
  unfold statistics_body in Hbody.
  apply obind_Ret in Hbody as (price & _ & Hbody).
  apply obind_Ret in Hbody as (avg & Havg & Hbody).
  apply obind_Ret in Hbody as (med & Hmed & Hbody).
  apply obind_Ret in Hbody as (mn & Hmn & Hbody).
  apply obind_Ret in Hbody as (mx & Hmx & Hbody).
  apply obind_Ret in Hbody as (tb & _ & Hbody).
  apply obind_Ret in Hbody as (ab & _ & Hbody).
  apply obind_Ret in Hbody as (tc & _ & Hbody).
  apply obind_Ret in Hbody as (ur & _ & Hbody).
  apply obind_Ret in Hbody as ([] & _ & Hbody).
  apply obind_Ret in Hbody as (start & Hstart & Hbody).
  apply obind_Ret in Hbody as (end_ & Hend & Hbody).
  apply Ret_inj in Hbody as <-.
  cbn [st_min_price st_avg_price st_max_price st_median_price st_date_range dr_days].
  apply int_Fin in Hmn as (m & Hmin & ->). apply int_Fin in Hmx as (M & Hmax & ->).
  destruct (avg_between price m M Hmin Hmax) as (a & Ha & Hab).
  destruct (median_between price m M Hmin Hmax) as (b & Hb & Hbb).
  rewrite Ha in Havg. rewrite Hb in Hmed.
  apply int_Fin in Havg as (a' & [= <-] & ->).
  apply int_Fin in Hmed as (b' & [= <-] & ->).
  split_and!; try (apply trunc_mono; lra).
  destruct (date_min (rows data)) as [dmin|] eqn:Emin; [|done].
  destruct (date_max (rows data)) as [dmax|] eqn:Emax; [|done].
  pose proof (date_range_nonneg _ _ _ Emin Emax). cbn. lia.
Qed.

End StatisticsOrder.

(** ** The forecast of a long table *)

Section ForecastOfFinitePrices.

Import MarketAnalyzer.

Context (now : Calendar.Timestamp).

Definition finite_price (row : gmap string cell) : bool :=
  match row_num "price" row with Fin _ => true | _ => false end.

(** Every price of the table is a number. *)
Definition prices_finite (data : DataFrame) : Prop :=
  forallb finite_price (rows data) = true.

Lemma sort_insert_Forall {K} (ltb : K → K → bool) key (P : gmap string cell → Prop) r l :
  P r → Forall P l → Forall P (sort_insert ltb key r l).
Proof.
  intros Hr. induction 1 as [|r' l Hr' Hl IH]; simpl.
  - by constructor.
  - destruct (key_lt ltb key r' r); repeat constructor; done.
Qed.

Lemma sort_rows_Forall {K} (ltb : K → K → bool) key (P : gmap string cell → Prop) rs :
  Forall P rs → Forall P (sort_rows ltb key rs).
Proof.
  induction 1 as [|r rs Hr Hrs IH]; simpl; [constructor|].
  by apply sort_insert_Forall.
Qed.

Lemma finite_prices_list rs :
  Forall (λ row, finite_price row = true) rs →
  ∃ qs, nums "price" rs = Fin <$> qs.
Proof.
  induction 1 as [|row rs Hrow _ (qs & IH)]; [by exists []|].
  unfold finite_price in Hrow.
  destruct (row_num "price" row) as [| | |q] eqn:E; try done.
  exists (q :: qs). unfold nums in *. cbn. by rewrite E, IH.
Qed.

Lemma mean_Fin (qs : list Q) :
  (1 ≤ length qs)%nat → ∃ m, Float.mean (Fin <$> qs) = Fin m.
Proof.
  intros Hlen. unfold Float.mean, Float.count.
  rewrite filter_not_nan_Fin, length_fmap.
  destruct (length qs) as [|n] eqn:E; [lia|].
  destruct (sum_Fin qs) as (s & -> & _).
  unfold Float.div, Float.of_Z.
  destruct (Qeq_bool (inject_Z (Z.of_nat (S n))) 0) eqn:E0; [|by eexists].
  apply Qeq_bool_iff in E0. unfold Qeq in E0. simpl in E0. lia.
Qed.

Lemma mapM_finite_Fin (qs : list Q) : mapM finite (Fin <$> qs) = Some qs.
Proof.
  induction qs as [|q qs IH]; [done|]. cbn. rewrite IH. done.
Qed.

Lemma calculate_trend_Fin (qs : list Q) :
  ∃ s, _calculate_trend (Fin <$> qs) = Fin s.
Proof.
  unfold _calculate_trend. case_bool_decide; [by eexists|].
  rewrite mapM_finite_Fin. by eexists.
Qed.

(** X12.  On a table with date and price columns, more than seven records
    and prices that are all whole numbers, the forecast is computed, not
    the static one, and follows the season: the confidence is "Medium", the
    trend is reported as increasing, decreasing or stable, the demand of
    next week is "High" in the months 12, 1, 6 and 7 and "Medium" otherwise,
    and the seasonal factor is that of the current month. *)
Theorem forecast_of_more_than_seven_records (data : DataFrame) :
  has_column "date" data = true →
  has_column "price" data = true →
  (7 < length (rows data))%nat →
  prices_finite data →
  adds_up "price" (rows data) →
  let forecast := _generate_forecasts now data in
  (∃ computed, forecasts_body now data = Ret computed) ∧
  pf_confidence forecast = "Medium"%string ∧
  pf_trend forecast ∈ ["increasing"; "decreasing"; "stable"]%string ∧
  df_next_week forecast =
    (if bool_decide (Calendar.month now ∈ [12; 1; 6; 7])
     then "High" else "Medium")%string ∧
  df_seasonal_factor forecast
  = default 1%Q (seasonal_factors (Calendar.month now)).
Proof.
  intros Hdate Hprice Hlen Hfin _. cbv zeta.
  unfold _generate_forecasts, forecasts_body, require.
  rewrite filter_cons_False by (by rewrite Hdate).
  rewrite filter_cons_False by (by rewrite Hprice).
  rewrite filter_nil. cbn [obind].
  rewrite bool_decide_eq_true_2 by lia.
  unfold prices_finite in Hfin. rewrite forallb_forall in Hfin.
  assert (Forall (λ row, finite_price row = true) (sort_by_date (rows data)))
    as Hsorted.
  { apply sort_rows_Forall, Forall_forall. intros row Hrow%list_elem_of_In.
    by apply Hfin. }
  destruct (finite_prices_list _ Hsorted) as (qs & Hqs).
  assert (length qs = length (rows data)) as Hqlen.
  { apply (f_equal length) in Hqs. unfold nums in Hqs.
    rewrite !length_fmap, length_sort_by_date in Hqs. done. }
  rewrite Hqs. unfold tail. rewrite <- fmap_drop.
  destruct (mean_Fin (drop (length (Fin <$> qs) - 7) qs)) as (m & ->).
  { rewrite length_drop, length_fmap. lia. }
  destruct (calculate_trend_Fin qs) as (s & Hs). rewrite Hs.
  cbn [Float.mul Float.add Float.of_Z int Float.to_int obind local].
  cbn [pf_confidence pf_trend df_next_week df_seasonal_factor].
  split_and!; [by eexists|done| |done|done].
  destruct (Float.gtb (Fin s) _); [rewrite !elem_of_cons; auto|].
  destruct (Float.ltb (Fin s) _); rewrite !elem_of_cons; auto.
Qed.

End ForecastOfFinitePrices.

Lemma forecast_of_more_than_seven_records_witness :
  has_column "date" (cleaned rising_prices) = true ∧
  has_column "price" (cleaned rising_prices) = true ∧
  (7 < length (rows (cleaned rising_prices)))%nat ∧
  prices_finite (cleaned rising_prices) ∧
  adds_up "price" (rows (cleaned rising_prices)) ∧
  MarketAnalyzer.df_next_week
    (MarketAnalyzer._generate_forecasts 20071 (cleaned rising_prices))
  = "High"%string ∧
  MarketAnalyzer.df_seasonal_factor
    (MarketAnalyzer._generate_forecasts 20071 (cleaned rising_prices))
  = (13 # 10)%Q.
Proof.
  assert (has_column "date" (cleaned rising_prices) = true) as E1
    by (vm_compute; reflexivity).
  assert (has_column "price" (cleaned rising_prices) = true) as E2
    by (vm_compute; reflexivity).
  assert (7 < length (rows (cleaned rising_prices)))%nat as E3
    by (vm_compute; lia).
  assert (prices_finite (cleaned rising_prices)) as E4
    by (vm_compute; reflexivity).
  assert (adds_up "price" (rows (cleaned rising_prices))) as E5
    by (split; vm_compute; reflexivity).
  destruct (forecast_of_more_than_seven_records 20071 (cleaned rising_prices)
              E1 E2 E3 E4 E5) as (_ & _ & _ & Hd & Hf).
  exact (conj E1 (conj E2 (conj E3 (conj E4 (conj E5 (conj Hd Hf)))))).
Defined.

(** ** The price trends *)

Section PriceTrendsProperties.

Import MarketAnalyzer.

Context (std : list float → float).
Context (now : Calendar.Timestamp).

Lemma length_omapM {X Y} (f : X → outcome Y) l l' :
  omapM f l = Ret l' → length l' = length l.
Proof.
  revert l'. induction l as [|x l IH]; intros l' H; simpl in H.
  - by apply Ret_inj in H as <-.
  - apply obind_Ret in H as (y & _ & H). apply obind_Ret in H as (ys & Hys & H).
    apply Ret_inj in H as <-. simpl. f_equal. by apply IH.
Qed.

Lemma length_tail_le {X} n (l : list X) : (length (tail n l) ≤ n)%nat.
Proof. unfold tail. rewrite length_drop. lia. Qed.

Lemma length_head_le {X} n (l : list X) : (length (MarketAnalyzer.head n l) ≤ n)%nat.
Proof. unfold MarketAnalyzer.head. rewrite length_take. lia. Qed.

Lemma length_tail_fmap {X Y} (f : X → Y) n l :
  length (tail n (f <$> l)) = length (tail n l).
Proof. unfold tail. by rewrite !length_drop, !length_fmap. Qed.

(** All flights of the table with a date are on one day. *)
Definition single_day (data : DataFrame) : Prop :=
  ∀ r1 r2 d1 d2, r1 ∈ rows data → r2 ∈ rows data →
    date_key "date" r1 = Some d1 → date_key "date" r2 = Some d2 → d1 = d2.

Lemma single_day_groups data :
  single_day data →
  (length (groupby Z.ltb (date_key "date") (rows data)) ≤ 1)%nat.
Proof.
  intros Hday.
  pose proof (groupby_ascending Z.ltb (date_key "date")
                ltac:(intros a b c ?%Z.ltb_lt ?%Z.ltb_lt; apply Z.ltb_lt; lia)
                (rows data)) as Hsorted.
  destruct (groupby Z.ltb (date_key "date") (rows data))
    as [|[k1 g1] [|[k2 g2] gs]] eqn:E; [simpl; lia..|].
  exfalso.
  assert ((k1, g1) ∈ groupby Z.ltb (date_key "date") (rows data)) as H1
    by (rewrite E; apply elem_of_cons; by left).
  assert ((k2, g2) ∈ groupby Z.ltb (date_key "date") (rows data)) as H2
    by (rewrite E; apply elem_of_cons; right; apply elem_of_cons; by left).
  apply groupby_key_from_row in H1 as (r1 & Hr1 & Hk1).
  apply groupby_key_from_row in H2 as (r2 & Hr2 & Hk2).
  pose proof (Hday r1 r2 k1 k2 Hr1 Hr2 Hk1 Hk2) as ->.
  unfold keys_ascending in Hsorted. cbn in Hsorted.
  apply StronglySorted_inv in Hsorted as [_ Hlt].
  apply Forall_cons in Hlt as [Hlt _]. apply Z.ltb_lt in Hlt. lia.
Qed.

(** X13.  The weekly series of the price trends, labels and average,
    minimum and maximum prices, have one length, at most eight; the daily
    series, dates and prices, have one length, at most fourteen; computed or
    static.  On a table whose flights are all on one day the trend is not
    fitted: where the section is computed, the direction is "stable" and
    the volatility and the strength of the trend are 0. *)
Theorem price_trends_listing (data : DataFrame) :
  let pt := _analyze_price_trends std now data in
  length (wt_avg_prices pt) = length (wt_labels pt) ∧
  length (wt_min_prices pt) = length (wt_labels pt) ∧
  length (wt_max_prices pt) = length (wt_labels pt) ∧
  (length (wt_labels pt) ≤ 8)%nat ∧
  length (dt_prices pt) = length (dt_dates pt) ∧
  (length (dt_dates pt) ≤ 14)%nat ∧
  (∀ computed, price_trends_body std data = Ret computed → single_day data →
     ta_direction pt = "stable"%string ∧
     ta_volatility pt = Float.of_Z 0 ∧
     ta_trend_strength pt = Float.of_Z 0).
Proof.
  cbv zeta. unfold _analyze_price_trends.
  destruct (price_trends_body std data) as [pt|e] eqn:Hbody.
  - unfold price_trends_body in Hbody.
    apply obind_Ret in Hbody as ([] & _ & Hbody).
    apply obind_Ret in Hbody as ([] & _ & Hbody).
    destruct (bool_decide (1 < length _)%nat) eqn:Hlen in Hbody.
    + apply obind_Ret in Hbody as (labels & Hlabels & Hbody).
      apply Ret_inj in Hbody as <-. apply length_omapM in Hlabels.
      cbn [wt_labels wt_avg_prices wt_min_prices wt_max_prices dt_dates dt_prices
           ta_direction ta_volatility ta_trend_strength].
      rewrite !length_fmap, Hlabels, !length_tail_fmap.
      split_and!; [done|done|done|apply length_head_le|done|apply length_tail_le|].
      intros _ _ Hday%single_day_groups.
      exfalso. apply bool_decide_eq_true in Hlen. rewrite length_fmap in Hlen.
      exact (Nat.lt_irrefl _ (Nat.lt_le_trans _ _ _ Hlen Hday)).
    + apply obind_Ret in Hbody as (labels & Hlabels & Hbody).
      apply Ret_inj in Hbody as <-. apply length_omapM in Hlabels.
      cbn [wt_labels wt_avg_prices wt_min_prices wt_max_prices dt_dates dt_prices
           ta_direction ta_volatility ta_trend_strength].
      rewrite !length_fmap, Hlabels, !length_tail_fmap.
      split_and!; [done|done|done|apply length_head_le|done|apply length_tail_le|].
      intros _ _ _. by vm_compute.
  - split_and!; [done|done|done|cbn; lia|done|cbn; lia|]. by intros.
Qed.

End PriceTrendsProperties.

(** ** The airline performance and the capacity utilization *)

Section AirlinePerformanceProperties.

Import MarketAnalyzer.

Lemma length_insert_desc_by {X} (by_ : X → float) x l :
  length (insert_desc_by by_ x l) = S (length l).
Proof.
  induction l as [|y l IH]; [done|]. simpl.
  destruct (goes_before _ _); simpl; congruence.
Qed.

Lemma length_sort_desc_by {X} (by_ : X → float) l :
  length (sort_desc_by by_ l) = length l.
Proof.
  induction l as [|x l IH]; [done|]. simpl. rewrite length_insert_desc_by. congruence.
Qed.

(** The number of airlines of the table. *)
Definition distinct_airlines (data : DataFrame) : nat :=
  length (groupby String.ltb (str_key "airline") (rows data)).

(** X14.  The airline performance of a table without an airline column is
    the error marker "Airline data not available", not the static
    substitute.  Otherwise it is a report whose market shares and
    performance metrics list the same airlines in the same order, at most
    six, with one share, one average price and one load factor each; where
    the report is computed their number is the number of airlines of the
    table, cut at six. *)
Theorem airline_performance_listing (data : DataFrame) :
  match _analyze_airline_performance data with
  | NotAvailable msg =>
      has_column "airline" data = false ∧ msg = "Airline data not available"%string
  | Report p =>
      has_column "airline" data = true ∧
      pm_airlines p = ms_labels p ∧
      length (ms_shares p) = length (ms_labels p) ∧
      length (pm_avg_prices p) = length (ms_labels p) ∧
      length (pm_load_factors p) = length (ms_labels p) ∧
      (length (ms_labels p) ≤ 6)%nat ∧
      (airline_performance_body data = Ret (Report p) →
       length (ms_labels p) = (6 `min` distinct_airlines data)%nat)
  end.
Proof.
  unfold _analyze_airline_performance, airline_performance_body.
  destruct (has_column "airline" data) eqn:Hcol; cbn [negb]; [|done].
  destruct (require _ data) as [[]|e]; cbn [obind].
  - cbn [ms_labels ms_shares pm_airlines pm_avg_prices pm_load_factors].
    unfold MarketAnalyzer.head.
    rewrite !length_fmap, length_take, length_sort_desc_by, length_fmap.
    fold (distinct_airlines data). split_and!; try done; lia.
  - split_and!; try done. cbn. lia.
Qed.

End AirlinePerformanceProperties.

Section CapacityProperties.

Import MarketAnalyzer.

Context (now : Calendar.Timestamp).

(** Every flight has bookings and a capacity that are numbers, with
    bookings between 0 and the capacity. *)
Definition within_capacityb (row : gmap string cell) : bool :=
  match row_num "bookings" row, row_num "capacity" row with
  | Fin b, Fin c => Qle_bool 0 b && Qle_bool b c
  | _, _ => false
  end.

Definition within_capacity (data : DataFrame) : Prop :=
  forallb within_capacityb (rows data) = true.

Lemma within_capacity_sums rs :
  Forall (λ row, within_capacityb row = true) rs →
  ∃ b c, Float.sum (nums "bookings" rs) = Fin b ∧
         Float.sum (nums "capacity" rs) = Fin c ∧ (0 <= b <= c)%Q.
Proof.
  intros H.
  assert (∃ bs cs, nums "bookings" rs = Fin <$> bs ∧ nums "capacity" rs = Fin <$> cs ∧
                   (0 <= Qsum bs <= Qsum cs)%Q) as (bs & cs & Hb & Hc & Hsum).
  { induction H as [|row rs Hrow _ (bs & cs & Hb & Hc & Hsum)].
    - exists [], []. split_and!; try done.
    - unfold within_capacityb in Hrow.
      destruct (row_num "bookings" row) as [| | |b] eqn:Eb; try done.
      destruct (row_num "capacity" row) as [| | |c] eqn:Ec; try done.
      apply andb_true_iff in Hrow as [H0%Qle_bool_iff Hbc%Qle_bool_iff].
      exists (b :: bs), (c :: cs). unfold nums in *. cbn [fmap list_fmap].
      rewrite Eb, Ec, Hb, Hc. split_and!; try done;
        unfold Qsum in *; cbn [foldr]; lra. }
  rewrite Hb, Hc.
  destruct (sum_Fin bs) as (b & -> & Eb). destruct (sum_Fin cs) as (c & -> & Ec).
  exists b, c. split_and!; try done; lra.
Qed.

Lemma Qround_dec_1_percent (a : Q) :
  (0 <= a <= 100)%Q → (0 <= Float.Qround_dec 1 a <= 100)%Q.
Proof.
  intros Ha. unfold Float.Qround_dec. rewrite Qred_correct.
  change (inject_Z (10 ^ Z.of_nat 1)) with 10%Q.
  pose proof (Qrint_upper (a * 10)) as Hu. pose proof (Qrint_lower (a * 10)) as Hl.
  assert (0 ≤ Float.Qrint (a * 10) ≤ 1000) as [H0 H1].
  { split.
    - assert (-1 < Float.Qrint (a * 10)); [|lia].
      rewrite Zlt_Qlt. change (inject_Z (-1)) with (-1)%Q. lra.
    - assert (Float.Qrint (a * 10) < 1001); [|lia].
      rewrite Zlt_Qlt. change (inject_Z 1001) with 1001%Q. lra. }
  rewrite Zle_Qle in H0, H1.
  change (inject_Z 0) with 0%Q in H0. change (inject_Z 1000) with 1000%Q in H1.
  split; [apply Qle_shift_div_l|apply Qle_shift_div_r]; lra.
Qed.

(** X15.  The capacity utilization of a table without a capacity or a
    bookings column is the error marker "Capacity data not available".
    On a table where every flight has bookings between 0 and its capacity,
    both whole numbers that add up without wrap-around or rounding, the
    overall utilization is a percentage between 0 and 100, computed or
    static; it is 0, not a division by zero, when the capacities total 0. *)
Theorem overall_utilization_is_a_percentage (data : DataFrame) :
  within_capacity data →
  adds_up "bookings" (rows data) →
  adds_up "capacity" (rows data) →
  match _analyze_capacity_utilization now data with
  | NotAvailable msg =>
      (has_column "capacity" data = false ∨ has_column "bookings" data = false) ∧
      msg = "Capacity data not available"%string
  | Report c =>
      has_column "capacity" data = true ∧ has_column "bookings" data = true ∧
      ∃ q, overall_utilization c = Fin q ∧ (0 <= q <= 100)%Q ∧
           (capacity_utilization_body data = Ret (Report c) →
            Float.sum (nums "capacity" (rows data)) = Fin 0 → (q == 0)%Q)
  end.
Proof.
  intros Hwc _ _. unfold _analyze_capacity_utilization, capacity_utilization_body.
  destruct (has_column "capacity" data) eqn:Hc; cbn [negb orb]; [|by split; [left|]].
  destruct (has_column "bookings" data) eqn:Hb; cbn [negb orb]; [|by split; [right|]].
  unfold within_capacity in Hwc. rewrite forallb_forall in Hwc.
  destruct (within_capacity_sums (rows data)) as (b & c & Eb & Ec & Hbc).
  { apply Forall_forall. intros row Hrow%list_elem_of_In. by apply Hwc. }
  rewrite Eb, Ec.
  assert (∃ q, Float.round_dec 1
                 (if Float.gtb (Fin c) (Float.of_Z 0)
                  then Float.mul (Float.div (Fin b) (Fin c)) (Float.of_Z 100)
                  else Float.of_Z 0) = Fin q ∧ (0 <= q <= 100)%Q ∧
               (Fin c = Fin 0 → (q == 0)%Q)) as (q & Hq & Hrange & Hzero).
  { unfold Float.gtb, Float.of_Z. cbn [Float.ltb].
    destruct (Float.Qltb (inject_Z 0) c) eqn:E.
    - apply Qltb_lt in E. change (inject_Z 0) with 0%Q in E.
      unfold Float.div. destruct (Qeq_bool c 0) eqn:E0.
      { apply Qeq_bool_iff in E0. lra. }
      cbn [Float.mul Float.round_dec]. eexists. split; [done|]. split.
      + apply Qround_dec_1_percent. rewrite !Qred_correct.
        change (inject_Z 100) with 100%Q.
        assert (0 <= b / c <= 1)%Q as Hfrac.
        { split; [apply Qle_shift_div_l; lra|apply Qle_shift_div_r; lra]. }
        set (f := (b / c)%Q) in *. lra.
      + intros [= ->]. lra.
    - eexists. split; [done|]. split; [by vm_compute|]. intros _. by vm_compute. }
  destruct (require ["date"]%string data) as [[]|e]; cbn [obind].
  2:{ split_and!; try done. exists (785 # 10)%Q. split_and!; try done. }
  destruct (require ["origin"; "destination"]%string data) as [[]|e]; cbn [obind].
  2:{ split_and!; try done. exists (785 # 10)%Q. split_and!; try done. }
  split_and!; try done. exists q. cbn [overall_utilization].
  split_and!; [done|apply Hrange|apply Hrange|]. intros _. apply Hzero.
Qed.

End CapacityProperties.

Lemma overall_utilization_is_a_percentage_witness :
  within_capacity (cleaned two_flights) ∧
  adds_up "bookings" (rows (cleaned two_flights)) ∧
  adds_up "capacity" (rows (cleaned two_flights)) ∧
  ∃ c q,
    MarketAnalyzer._analyze_capacity_utilization 19723 (cleaned two_flights)
    = MarketAnalyzer.Report c ∧
    MarketAnalyzer.overall_utilization c = Fin q ∧ (0 <= q <= 100)%Q.
Proof.
  assert (within_capacity (cleaned two_flights)) as E
    by (vm_compute; reflexivity).
  assert (∃ c, MarketAnalyzer._analyze_capacity_utilization 19723 (cleaned two_flights)
               = MarketAnalyzer.Report c) as [c Hc]
    by (vm_compute; eexists; reflexivity).
  assert (adds_up "bookings" (rows (cleaned two_flights))) as Eb
    by (split; vm_compute; reflexivity).
  assert (adds_up "capacity" (rows (cleaned two_flights))) as Ec
    by (split; vm_compute; reflexivity).
  pose proof (overall_utilization_is_a_percentage 19723 (cleaned two_flights)
                E Eb Ec) as H.
  rewrite Hc in H. destruct H as (_ & _ & q & Hq & Hrange & _).
  exact (conj E (conj Eb (conj Ec
    (ex_intro _ c (ex_intro _ q (conj Hc (conj Hq Hrange))))))).
Defined.

(** ** The automated insights *)

Section MarketInsightsProperties.

Import MarketAnalyzer.

Context (std : list float → float).

(** Every flight of the table is on the route from [o] to [d]. *)
Definition on_routeb (o d : string) (row : gmap string cell) : bool :=
  match row_get "origin" row, row_get "destination" row with
  | Str o', Str d' => String.eqb o o' && String.eqb d d'
  | _, _ => false
  end.

Definition single_route (o d : string) (data : DataFrame) : Prop :=
  forallb (on_routeb o d) (rows data) = true.

Lemma string_compare_refl s : String.compare s s = Eq.
Proof.
  pose proof (String.compare_antisym s s) as H.
  destruct (String.compare s s); simpl in H; congruence.
Qed.

Lemma route_ltb_irrefl k : route_ltb k k = false.
Proof.
  unfold route_ltb, String.ltb. by rewrite !string_compare_refl.
Qed.

(** [groupby] on rows that all carry the key [k]: one group, with all the
    rows. *)
Lemma groupby_single_key {K A} (ltb : K → K → bool) (key : A → option K) k l :
  ltb k k = false → l ≠ [] → Forall (λ r, key r = Some k) l →
  groupby ltb key l = [(k, l)].
Proof.
  intros Hirr Hne Hall. unfold groupby.
  assert (∀ acc l', Forall (λ r, key r = Some k) l' → acc ≠ [] →
            foldl (λ gs r, match key r with
                           | Some k => group_insert ltb k r gs
                           | None => gs
                           end) [(k, acc)] l' = [(k, acc ++ l')]) as Hgen.
  { intros acc l' Hl'. revert acc. induction Hl' as [|r l' Hr _ IH]; intros acc Hacc.
    - by rewrite app_nil_r.
    - cbn [foldl]. rewrite Hr. cbn [group_insert]. rewrite Hirr.
      rewrite IH by (by destruct acc). by rewrite <- app_assoc. }
  destruct l as [|r l]; [done|].
  apply Forall_cons in Hall as [Hr Hl]. cbn [foldl]. rewrite Hr. cbn [group_insert].
  by rewrite (Hgen [r] l Hl).
Qed.

Lemma single_route_groups o d data :
  (1 ≤ length (rows data))%nat → single_route o d data →
  groupby route_ltb route_key (rows data) = [((o, d), rows data)].
Proof.
  intros Hlen Hall. apply groupby_single_key.
  - apply route_ltb_irrefl.
  - destruct (rows data); [simpl in Hlen; lia|done].
  - unfold single_route in Hall. rewrite forallb_forall in Hall.
    apply Forall_forall. intros row Hrow%list_elem_of_In.
    specialize (Hall row Hrow). unfold on_routeb, route_key, str_key in *.
    destruct (row_get "origin" row) as [| |o'| |]; try done.
    destruct (row_get "destination" row) as [| |d'| |]; try done.
    apply andb_true_iff in Hall as [->%String.eqb_eq ->%String.eqb_eq]. done.
Qed.

Lemma div_self n :
  (1 ≤ n)%nat →
  Float.div (Float.of_Z (Z.of_nat n)) (Float.of_Z (Z.of_nat n)) = Fin 1.
Proof.
  intros Hn. unfold Float.div, Float.of_Z.
  destruct (Qeq_bool (inject_Z (Z.of_nat n)) 0) eqn:E.
  { apply Qeq_bool_iff in E. unfold Qeq in E. simpl in E. lia. }
  f_equal. change 1%Q with (Qred 1). apply Qred_complete.
  field. intros H. unfold Qeq in H. simpl in H. lia.
Qed.

(** Without one of the two columns the grouping fails, except on a table
    of two records, where each record is a group of its own. *)
Lemma groupby_routes_missing data :
  has_column "origin" data = false ∨ has_column "destination" data = false →
  length (rows data) ≠ 2%nat →
  ∃ e, groupby_routes data = Raise e.
Proof.
  intros Hmiss Hlen. unfold groupby_routes.
  assert (∃ e, require ["origin"; "destination"]%string data = Raise e)
    as [e ->].
  { destruct Hmiss as [H|H];
      [apply (require_missing _ "origin")|apply (require_missing _ "destination")];
      try done; rewrite !elem_of_cons; auto. }
  destruct (rows data) as [|r0 [|r1 [|r2 rs]]];
    [by eexists|by eexists|by cbn in Hlen|by eexists].
Qed.

Lemma groupby_routes_of_two_rows data r0 r1 :
  has_column "origin" data = false ∨ has_column "destination" data = false →
  rows data = [r0; r1] →
  groupby_routes data = Ret [[r1]; [r0]].
Proof.
  intros Hmiss Hrows. unfold groupby_routes.
  assert (∃ e, require ["origin"; "destination"]%string data = Raise e)
    as [e ->].
  { destruct Hmiss as [H|H];
      [apply (require_missing _ "origin")|apply (require_missing _ "destination")];
      try done; rewrite !elem_of_cons; auto. }
  by rewrite Hrows.
Qed.

(** X16.  The automated insights are at most four.  When a step fails, the
    result is the single static insight "Market Analysis", and the insights
    collected before the failure are not returned: so it is on a table
    without a price column, and on a table without an origin or a
    destination column, unless it has exactly two records.  On two records
    the grouping by a list of two names that are not both columns takes the
    names for labels of the records: nothing fails, and with a price column
    the last insight reports a top route with 50.0% of all flights. *)
Theorem market_insights_are_whole (data : DataFrame) :
  (length (_generate_market_insights std data) ≤ 4)%nat ∧
  (has_column "price" data = false →
   _generate_market_insights std data = default_market_insights) ∧
  (has_column "origin" data = false ∨ has_column "destination" data = false →
   length (rows data) ≠ 2%nat →
   _generate_market_insights std data = default_market_insights) ∧
  (has_column "origin" data = false ∨ has_column "destination" data = false →
   length (rows data) = 2%nat →
   has_column "price" data = true →
   ∃ earlier,
     _generate_market_insights std data =
       earlier ++
       [{| mi_type := "info"; mi_title := "Route Concentration";
           mi_content := "Top route accounts for 50.0% of all flights." |}] ∧
     (length earlier ≤ 3)%nat).
Proof.
  unfold _generate_market_insights, market_insights_body, numeric, getitem.
  split_and!.
  - destruct (has_column "price" data); cbn [obind]; [|cbn; lia].
    destruct (groupby_routes data) as [routes|e]; cbn [obind]; [|cbn; lia].
    repeat match goal with
           | |- context [if ?b then _ else _] => destruct b
           end; cbn; lia.
  - by intros ->.
  - intros Hmiss Hlen.
    destruct (groupby_routes_missing data Hmiss Hlen) as [e ->].
    by destruct (has_column "price" data).
  - intros Hmiss Hlen ->. cbn [obind].
    destruct (rows data) as [|r0 [|r1 [|r2 rs]]] eqn:Hrows; try done.
    rewrite (groupby_routes_of_two_rows data r0 r1 Hmiss Hrows). cbn [obind].
    cbn [fmap list_fmap length foldr Nat.max].
    rewrite bool_decide_eq_true_2 by lia.
    change (Float.gtb (Float.div (Float.of_Z (Z.of_nat 1)) (Float.of_Z (Z.of_nat 2)))
                      (Fin (3 # 10))) with true. cbv iota.
    change (format_1pct (Float.div (Float.of_Z (Z.of_nat 1)) (Float.of_Z (Z.of_nat 2))))
      with "50.0%"%string.
    eexists. split; [reflexivity|].
    repeat match goal with
           | |- context [if ?b then _ else _] => destruct b
           end; cbn; lia.
Qed.

(** Two records without the columns of the route: each is a group. *)
Example insights_of_two_unrouted_flights :
  unique_routes_of two_unrouted_flights = Ret 2%nat ∧
  _generate_market_insights std two_unrouted_flights =
    (if Float.gtb (std [Fin 400; Fin 460]) (Float.of_Z 100)
     then [{| mi_type := "warning"; mi_title := "High Price Volatility";
              mi_content := "Price volatility is high ($" +:+
                            format_0f (std [Fin 400; Fin 460]) +:+
                            "), indicating market uncertainty." |}]
     else []) ++
    [{| mi_type := "info"; mi_title := "Route Concentration";
        mi_content := "Top route accounts for 50.0% of all flights." |}].
Proof.
  split; [by vm_compute|].
  unfold _generate_market_insights, market_insights_body.
  change (numeric "price" two_unrouted_flights) with (Ret [Fin 400; Fin 460]).
  cbn [obind].
  change (has_column "load_factor" two_unrouted_flights) with false.
  change (has_column "is_weekend" two_unrouted_flights) with false.
  change (groupby_routes two_unrouted_flights)
    with (Ret [[list_to_map [("date", Date 19724); ("price", Num (Fin 460))]%string];
               [list_to_map [("date", Date 19723); ("price", Num (Fin 400))]%string]]
          : outcome (list (list (gmap string cell)))).
  cbn [obind fmap list_fmap length foldr Nat.max].
  by destruct (Float.gtb (std [Fin 400; Fin 460]) (Float.of_Z 100)).
Qed.

(** X17.  On a table with a price column whose flights are all on one
    route, the last of the automated insights is "Route Concentration",
    reporting that the top route accounts for 100.0% of all flights. *)
Theorem route_concentration_of_a_single_route (o d : string) (data : DataFrame) :
  has_column "price" data = true →
  has_column "origin" data = true →
  has_column "destination" data = true →
  (1 ≤ length (rows data))%nat →
  single_route o d data →
  ∃ earlier,
    _generate_market_insights std data =
      earlier ++
      [{| mi_type := "info"; mi_title := "Route Concentration";
          mi_content := "Top route accounts for 100.0% of all flights." |}] ∧
    (length earlier ≤ 3)%nat.
Proof.
  intros Hprice Ho Hd Hlen Hroute.
  unfold _generate_market_insights, market_insights_body, numeric, getitem.
  rewrite Hprice. cbn [obind].
  rewrite (groupby_routes_of_columns data Ho Hd). cbn [obind].
  rewrite (single_route_groups o d data Hlen Hroute).
  cbn [fmap list_fmap length foldr snd].
  rewrite bool_decide_eq_true_2 by lia.
  rewrite Nat.max_0_r, (div_self _ Hlen).
  change (Float.gtb (Fin 1) (Fin (3 # 10))) with true. cbv iota.
  change (format_1pct (Fin 1)) with "100.0%"%string.
  eexists. split; [reflexivity|].
  repeat match goal with
         | |- context [if ?b then _ else _] => destruct b
         end; cbn; lia.
Qed.

End MarketInsightsProperties.

Lemma route_concentration_of_a_single_route_witness :
  has_column "price" (cleaned single_flight) = true ∧
  has_column "origin" (cleaned single_flight) = true ∧
  has_column "destination" (cleaned single_flight) = true ∧
  (1 ≤ length (rows (cleaned single_flight)))%nat ∧
  single_route "SYD" "MEL" (cleaned single_flight) ∧
  ∃ earlier,
    MarketAnalyzer._generate_market_insights no_std (cleaned single_flight) =
      earlier ++
      [{| MarketAnalyzer.mi_type := "info";
          MarketAnalyzer.mi_title := "Route Concentration";
          MarketAnalyzer.mi_content := "Top route accounts for 100.0% of all flights." |}].
Proof.
  assert (has_column "price" (cleaned single_flight) = true) as E1
    by (vm_compute; reflexivity).
  assert (has_column "origin" (cleaned single_flight) = true) as E2
    by (vm_compute; reflexivity).
  assert (has_column "destination" (cleaned single_flight) = true) as E3
    by (vm_compute; reflexivity).
  assert (1 ≤ length (rows (cleaned single_flight)))%nat as E4
    by (vm_compute; lia).
  assert (single_route "SYD" "MEL" (cleaned single_flight)) as E5
    by (vm_compute; reflexivity).
  destruct (route_concentration_of_a_single_route no_std "SYD" "MEL"
              (cleaned single_flight) E1 E2 E3 E4 E5) as (earlier & H & _).
  exact (conj E1 (conj E2 (conj E3 (conj E4 (conj E5 (ex_intro _ earlier H)))))).
Defined.

(** * Further properties of the insight generator *)

(** ** The retry loop of the remote tier *)

Section RetryLoop.

Import InsightsGenerator.

(** The requests sent and the seconds slept in a trace. *)
Definition requests (evs : list event) : nat :=
  foldr (λ e n, match e with HttpPost _ => S n | _ => n end) 0%nat evs.

Definition slept (evs : list event) : Z :=
  foldr (λ e acc, match e with Sleep s => s + acc | _ => acc end) 0 evs.

Lemma requests_app a b : requests (a ++ b) = (requests a + requests b)%nat.
Proof.
  unfold requests. induction a as [|e a IH]; [done|]. cbn [app foldr].
  rewrite IH. by destruct e.
Qed.

Lemma slept_app a b : slept (a ++ b) = slept a + slept b.
Proof.
  unfold slept. induction a as [|e a IH]; [done|]. cbn [app foldr].
  rewrite IH. destruct e; lia.
Qed.

(** The five ways a reply is handled. *)
Lemma response_cases {X} (r : response) (A : string → X) (B C D E : X) :
  match r with
  | Status 200 (Content text) => A text
  | Status 200 NoContent => B
  | Status 429 _ => C
  | Status 200 BadJson | RequestException => D
  | Status _ _ => E
  end ∈ [B; C; D; E] ∨
  ∃ text, r = Status 200 (Content text) ∧
    match r with
    | Status 200 (Content text) => A text
    | Status 200 NoContent => B
    | Status 429 _ => C
    | Status 200 BadJson | RequestException => D
    | Status _ _ => E
    end = A text.
Proof.
  destruct r as [code body|]; [|left; rewrite !elem_of_cons; auto].
  destruct (decide (code = 200)) as [->|H200].
  { destruct body as [| |text]; [left; rewrite !elem_of_cons; auto..|].
    right. by exists text. }
  left.
  destruct code as [|p|p]; [rewrite !elem_of_cons; auto| |rewrite !elem_of_cons; auto].
  do 9 (destruct p as [p|p|]; try (rewrite !elem_of_cons; by auto)).
  all: try (rewrite !elem_of_cons; by auto).
  all: try (destruct body; rewrite !elem_of_cons; by auto).
Qed.

Context (post : nat → response).
Context (_parse_ai_insights : string → list Insight).

(** The seconds that can still be slept from [attempt] on. *)
Definition sleep_budget (self : Generator) (attempt : nat) : Z :=
  2 ^ Z.max (Z.of_nat attempt) (Z.of_nat (max_retries self) - 1)
  - 2 ^ Z.of_nat attempt.

Lemma sleep_budget_step self attempt :
  slept (backoff self attempt) + sleep_budget self (S attempt)
  ≤ sleep_budget self attempt ∧
  0 ≤ slept (backoff self attempt) ∧ 0 ≤ sleep_budget self (S attempt).
Proof.
  unfold backoff, sleep_budget. rewrite Nat2Z.inj_succ.
  set (a := Z.of_nat attempt). set (m := Z.of_nat (max_retries self)).
  assert (0 ≤ a) by lia.
  assert (2 ^ Z.succ a = 2 * 2 ^ a) as Hs by (apply Z.pow_succ_r; lia).
  case_bool_decide as Hlt.
  - assert (a < m - 1) as Hlt' by lia.
    rewrite (Z.max_r a (m - 1)) by lia.
    rewrite (Z.max_r (Z.succ a) (m - 1)) by lia.
    cbn [slept foldr]. rewrite Hs.
    assert (2 ^ Z.succ a ≤ 2 ^ (m - 1)) by (apply Z.pow_le_mono_r; lia).
    assert (0 < 2 ^ a) by (apply Z.pow_pos_nonneg; lia). lia.
  - assert (m - 1 ≤ a) as Hge by lia.
    rewrite (Z.max_l a (m - 1)) by lia.
    rewrite (Z.max_l (Z.succ a) (m - 1)) by lia.
    cbn [slept foldr]. lia.
Qed.

Lemma requests_backoff self attempt : requests (backoff self attempt) = 0%nat.
Proof. unfold backoff. by case_bool_decide. Qed.

Definition within (self : Generator) (left attempt : nat)
    (t : T (option (list Insight))) : Prop :=
  (requests (fst t) ≤ left)%nat ∧
  0 ≤ slept (fst t) ≤ sleep_budget self attempt ∧
  ∀ insights, snd t = Ret (Some insights) →
    ∃ text, insights = _parse_ai_insights text.

Lemma within_tbind self left attempt evs t :
  requests evs = 0%nat →
  slept evs + sleep_budget self (S attempt) ≤ sleep_budget self attempt →
  0 ≤ slept evs →
  within self left (S attempt) t →
  within self left attempt (tbind (emits evs) (λ _, t)).
Proof.
  intros Hr Hs H0 (Ht1 & Ht2 & Ht3). unfold within, tbind, emits.
  destruct t as [evs' o]. cbn [fst snd] in *.
  rewrite requests_app, slept_app, Hr. split_and!; [lia..|done].
Qed.

Lemma request_loop_within self left attempt :
  within self left attempt (request_loop post _parse_ai_insights self left attempt).
Proof.
  revert attempt. induction left as [|left IH]; intros attempt.
  { unfold within. cbn. unfold sleep_budget.
    assert (2 ^ Z.of_nat attempt ≤
            2 ^ Z.max (Z.of_nat attempt) (Z.of_nat (max_retries self) - 1))
      by (apply Z.pow_le_mono_r; lia).
    split_and!; [lia..|done]. }
  cbn [request_loop].
  pose proof (sleep_budget_step self attempt) as (Hstep & Hb0 & Hb1).
  pose proof (requests_backoff self attempt) as Hreq.
  assert (∀ t, within self left attempt t →
               within self (S left) attempt (tbind (emit (HttpPost attempt)) (λ _, t)))
    as Hpost.
  { intros [evs o] (H1 & H2 & H3). unfold within, tbind, emit. cbn [fst snd] in *.
    cbn [app requests slept foldr]. fold (requests evs). fold (slept evs).
    split_and!; [lia..|done]. }
  assert (0 ≤ sleep_budget self attempt) as Hpos by lia.
  assert (∀ msg, within self left attempt
                   (tbind (emits (LogWarning msg :: backoff self attempt))
                      (λ _, request_loop post _parse_ai_insights self left (S attempt))))
    as Hwarn.
  { intros msg.
    apply within_tbind; [by cbn [requests foldr]|by cbn [slept foldr]..|apply IH]. }
  assert (∀ msg, within self left attempt
                   (tbind (emits (LogError msg :: backoff self attempt))
                      (λ _, request_loop post _parse_ai_insights self left (S attempt))))
    as Herr.
  { intros msg.
    apply within_tbind; [by cbn [requests foldr]|by cbn [slept foldr]..|apply IH]. }
  apply Hpost.
  destruct (response_cases (post attempt)
              (λ text, tret (Some (_parse_ai_insights text)))
              (tlift (Raise (KeyError "choices")))
              (tbind (emits (LogWarning "Rate limit hit" :: backoff self attempt))
                 (λ _, request_loop post _parse_ai_insights self left (S attempt)))
              (tbind (emits (LogError "Request error" :: backoff self attempt))
                 (λ _, request_loop post _parse_ai_insights self left (S attempt)))
              (tbind (emit (LogError "OpenAI API error")) (λ _, tret None)))
    as [Hin|(text & _ & ->)].
  - rewrite !elem_of_cons in Hin.
    destruct Hin as [-> |[-> |[-> |[-> |Hin]]]];
      [|apply Hwarn|apply Herr| |by apply elem_of_nil in Hin].
    + unfold within. cbn. split_and!; [lia..|done].
    + unfold within. cbn. split_and!; [lia..|done].
  - unfold within. cbn. split_and!; [lia..|]. intros insights [= <-]. by exists text.
Qed.

(** What [_generate_ai_insights] does, whatever the replies are. *)
Lemma ai_insights_run (self : Generator) (data : value) :
  ∃ evs answer,
    _generate_ai_insights post _parse_ai_insights self data = (evs, Ret answer) ∧
    (requests evs ≤ max_retries self)%nat ∧
    0 ≤ slept evs ≤ sleep_budget self 0 ∧
    ∀ insights, answer = Some insights → ∃ text, insights = _parse_ai_insights text.
Proof.
  unfold _generate_ai_insights.
  destruct (_create_analysis_prompt data) as [[]|e].
  - pose proof (request_loop_within self (max_retries self) 0%nat) as (H1 & H2 & H3).
    unfold ttry, tbind, tlift, emit, tret.
    destruct (request_loop post _parse_ai_insights self (max_retries self) 0)
      as [evs [answer|e]]; cbn [fst snd app] in *.
    + exists evs, answer. split; [done|]. split; [done|]. split; [done|].
      intros insights ->. by apply H3.
    + eexists _, None. split; [done|]. rewrite requests_app, slept_app. cbn.
      split_and!; [lia..|done].
  - cbn. eexists _, None. split; [done|]. unfold sleep_budget.
    assert (2 ^ Z.of_nat 0 ≤ 2 ^ Z.max (Z.of_nat 0) (Z.of_nat (max_retries self) - 1))
      by (apply Z.pow_le_mono_r; lia).
    cbn [requests slept foldr]. split_and!; [lia..|done].
Qed.

(** The answer of the remote tier: [None] or a list of insights. *)
Local Abbreviation ai_insights' := (_generate_ai_insights post _parse_ai_insights).

(** X18.  The remote tier never raises and is bounded: whatever the replies
    of the network are, [_generate_ai_insights] returns, after at most
    [max_retries] requests and, in all, at most 2^(max_retries - 1)
    seconds of back-off; for a generator as [__init__] builds it, at most
    three requests and three seconds. *)
Theorem ai_insights_are_bounded (self : Generator) (data : value) :
  (∃ answer, snd (ai_insights' self data) = Ret answer) ∧
  (requests (fst (ai_insights' self data)) ≤ max_retries self)%nat ∧
  0 ≤ slept (fst (ai_insights' self data)) ∧
  slept (fst (ai_insights' self data)) ≤ 2 ^ (Z.of_nat (max_retries self) - 1) ∧
  (max_retries self = 3%nat →
   (requests (fst (ai_insights' self data)) ≤ 3)%nat ∧
   slept (fst (ai_insights' self data)) ≤ 3).
Proof.
  destruct (ai_insights_run self data) as (evs & answer & Hrun & Hreq & [Hs0 Hs] & _).
  rewrite Hrun. cbn [fst snd].
  assert (∃ answer0 : option (list Insight), Ret answer = Ret answer0) as Hret
    by (by eexists).
  unfold sleep_budget in Hs. change (2 ^ Z.of_nat 0) with 1 in Hs.
  split_and!; try done.
  - destruct (max_retries self) as [|m] eqn:E.
    + rewrite Z.max_l in Hs by lia. cbn in *. lia.
    + rewrite Z.max_r in Hs by lia. lia.
  - intros E. rewrite E in *. split; [done|].
    change (2 ^ Z.max (Z.of_nat 0) (Z.of_nat 3 - 1)) with 4 in Hs. lia.
Qed.

End RetryLoop.

(** ** The scanner of the reply text *)

Section ParsedReply.

Import InsightsGenerator.

(** A text that [strip] leaves as it is. *)
Definition stripped (s : string) : Prop := Text.strip s = s.

Lemma lstrip_head c s t :
  Text.lstrip s = String c t → Text.isspace c = false.
Proof.
  induction s as [|a s IH]; cbn [Text.lstrip]; [done|].
  destruct (Text.isspace a) eqn:E; [apply IH|]. by intros [= <- _].
Qed.

Lemma rstrip_cons_keep c s :
  Text.isspace c = false →
  ∃ t, Text.rstrip (String c s) = String c t.
Proof.
  intros Hc. cbn [Text.rstrip]. destruct (Text.rstrip s); rewrite ?Hc; by eexists.
Qed.

Lemma rstrip_idemp s : Text.rstrip (Text.rstrip s) = Text.rstrip s.
Proof.
  induction s as [|c s IH]; [done|]. cbn [Text.rstrip].
  destruct (Text.rstrip s) as [|a t] eqn:E.
  - destruct (Text.isspace c) eqn:Hc; [done|]. cbn. by rewrite Hc.
  - cbn [Text.rstrip] in *. by rewrite IH.
Qed.

Lemma strip_stripped s : stripped (Text.strip s).
Proof.
  unfold stripped, Text.strip.
  destruct (Text.lstrip s) as [|c t] eqn:E; [done|].
  apply lstrip_head in E.
  destruct (rstrip_cons_keep c t E) as [t' Ht']. rewrite Ht'.
  cbn [Text.lstrip]. rewrite E, <- Ht'. apply rstrip_idemp.
Qed.

(** An insight as the scanner may return it. *)
Definition titled (insight : Insight) : Prop :=
  title insight ≠ EmptyString ∧ stripped (title insight).

Lemma push_titled insights current_insight :
  Forall titled insights → stripped (title current_insight) →
  Forall titled (push insights current_insight).
Proof.
  intros H Hs. unfold push.
  destruct (String.eqb_spec (title current_insight) EmptyString) as [|Hne]; [done|].
  apply Forall_app. split; [done|]. by repeat constructor.
Qed.

Lemma parse_line_titled state line :
  Forall titled (fst state) ∧ stripped (title (snd state)) →
  Forall titled (fst (parse_line state line)) ∧
  stripped (title (snd (parse_line state line))).
Proof.
  destruct state as [insights current_insight]. cbn [fst snd]. intros [H Hs].
  unfold parse_line.
  destruct (_ && _).
  { cbn [fst snd title]. split; [by apply push_titled|apply strip_stripped]. }
  destruct (_ && _).
  { destruct (Text.split1 _ _) as [[? rest]|]; cbn [fst snd title].
    - split; [by apply push_titled|apply strip_stripped].
    - split; [by apply push_titled|done]. }
  by destruct (_ && _).
Qed.

Lemma foldl_parse_line_titled lines state :
  Forall titled (fst state) ∧ stripped (title (snd state)) →
  Forall titled (fst (foldl parse_line state lines)) ∧
  stripped (title (snd (foldl parse_line state lines))).
Proof.
  revert state. induction lines as [|line lines IH]; intros state H; [done|].
  cbn [foldl]. by apply IH, parse_line_titled.
Qed.

(** A line that opens an insight: a title between asterisks, or a numbered
    line. *)
Definition heading (line : string) : bool :=
  let line := Text.strip line in
  Text.startswith "**" line && Text.endswith "**" line ||
  negb (String.eqb line EmptyString) && numbered line.

Lemma foldl_parse_line_no_heading lines :
  Forall (λ line, heading line = false) lines →
  foldl parse_line ([], {| title := EmptyString; content := EmptyString |}) lines
  = ([], {| title := EmptyString; content := EmptyString |}).
Proof.
  induction 1 as [|line lines Hline _ IH]; [done|].
  cbn [foldl]. rewrite <- IH at 2. f_equal.
  unfold heading in Hline. apply orb_false_iff in Hline as [H1 H2].
  unfold parse_line. rewrite H1, H2. cbn [title].
  by rewrite andb_false_r.
Qed.

Lemma parsed_insights text :
  (length (_parse_ai_insights text) ≤ 4)%nat ∧
  Forall (λ insight, titled insight ∧ stripped (content insight))
         (_parse_ai_insights text).
Proof.
  unfold _parse_ai_insights.
  pose proof (foldl_parse_line_titled (Text.split "010" text)
                ([], {| title := EmptyString; content := EmptyString |})) as H.
  destruct (foldl parse_line _ _) as [insights current_insight].
  cbn [fst snd] in H. destruct H as [H Hs]; [by split|].
  split.
  - rewrite length_take. lia.
  - apply Forall_take, Forall_fmap.
    eapply Forall_impl; [by apply push_titled|].
    intros insight Ht. split; [done|]. apply strip_stripped.
Qed.

(** X19.  What the scanner of a reply returns: at most four insights, each
    with a title that is not empty and has no white space around it, and
    with a content that has no white space around it; a reply without a
    heading line (a line between double asterisks, or a line that starts
    with a digit from 1 to 9 and a point) yields no insight at all. *)
Theorem parsed_insights_are_titled (text : string) :
  (length (_parse_ai_insights text) ≤ 4)%nat ∧
  Forall (λ insight,
            title insight ≠ EmptyString ∧
            Text.strip (title insight) = title insight ∧
            Text.strip (content insight) = content insight)
         (_parse_ai_insights text) ∧
  (Forall (λ line, heading line = false) (Text.split "010" text) →
   _parse_ai_insights text = []).
Proof.
  destruct (parsed_insights text) as [Hlen Hall].
  split_and!; [done| |].
  - eapply Forall_impl; [done|]. by intros insight [[H1 H2] H3].
  - intros Hlines. unfold _parse_ai_insights.
    by rewrite (foldl_parse_line_no_heading _ Hlines).
Qed.

End ParsedReply.

(** ** A reply in the format that the prompt asks for *)

Section RequestedFormat.

Import InsightsGenerator.

Definition newline : ascii := "010".
Definition asterisk : ascii := "*".

(** No character of [s] is [c]. *)
Fixpoint without (c : ascii) (s : string) : bool :=
  match s with
  | EmptyString => true
  | String a s' => negb (Ascii.eqb a c) && without c s'
  end.

(** [s] has no white space at its ends. *)
Definition trimmed (s : string) : bool :=
  String.eqb (Text.lstrip s) s && String.eqb (Text.rstrip s) s.

(** An insight that can be written in the format of the prompt: a title on
    one line, without asterisks; a content on one line that is not itself
    a heading. *)
Definition plain (insight : Insight) : bool :=
  negb (String.eqb (title insight) EmptyString) &&
  trimmed (title insight) &&
  without newline (title insight) && without asterisk (title insight) &&
  trimmed (content insight) &&
  without newline (content insight) && negb (heading (content insight)).

(** The lines of an insight: the title between double asterisks, the
    content, an empty line. *)
Definition block (insight : Insight) : list string :=
  [("**" +:+ title insight +:+ "**")%string; content insight; EmptyString].

(** The reply that gives [insights] in the format of the prompt. *)
Definition reply_of (insights : list Insight) : string :=
  String.concat (String newline EmptyString) (concat (block <$> insights)).

Lemma split_without s : without newline s = true → Text.split newline s = [s].
Proof.
  induction s as [|c s IH]; [done|]. cbn [without Text.split].
  intros [Hc Hs]%andb_true_iff. apply negb_true_iff in Hc. rewrite Hc.
  by rewrite (IH Hs).
Qed.

Lemma split_line s rest :
  without newline s = true →
  Text.split newline (s +:+ String newline rest) = s :: Text.split newline rest.
Proof.
  induction s as [|c s IH]; intros H.
  - done.
  - cbn [without] in H. apply andb_true_iff in H as [Hc Hs].
    apply negb_true_iff in Hc.
    change (String c s +:+ String newline rest)%string
      with (String c (s +:+ String newline rest)).
    cbn [Text.split]. rewrite Hc. by rewrite (IH Hs).
Qed.

Lemma split_lines lines :
  lines ≠ [] → Forall (λ s, without newline s = true) lines →
  Text.split newline (String.concat (String newline EmptyString) lines) = lines.
Proof.
  induction lines as [|s lines IH]; [done|]. intros _ H.
  apply Forall_cons in H as [Hs H].
  destruct lines as [|s' lines].
  - cbn. by apply split_without.
  - change (String.concat (String newline EmptyString) (s :: s' :: lines))
      with (s +:+ String newline
              (String.concat (String newline EmptyString) (s' :: lines)))%string.
    rewrite split_line by done. rewrite IH; done.
Qed.

Lemma length_lstrip s : (String.length (Text.lstrip s) ≤ String.length s)%nat.
Proof.
  induction s as [|c s IH]; [done|]. cbn [Text.lstrip].
  destruct (Text.isspace c); cbn [String.length]; lia.
Qed.

Lemma lstrip_fixed c s :
  Text.lstrip (String c s) = String c s → Text.isspace c = false.
Proof.
  cbn [Text.lstrip]. destruct (Text.isspace c); [|done].
  intros H. pose proof (length_lstrip s) as Hlen. rewrite H in Hlen.
  cbn [String.length] in Hlen. lia.
Qed.

Lemma lstrip_kept c s :
  Text.isspace c = false → Text.lstrip (String c s) = String c s.
Proof. intros H. cbn [Text.lstrip]. by rewrite H. Qed.

Lemma rstrip_snoc s c :
  Text.isspace c = false →
  Text.rstrip (s +:+ String c EmptyString) = (s +:+ String c EmptyString)%string.
Proof.
  intros Hc. induction s as [|a s IH].
  - change (Text.rstrip (String c EmptyString) = String c EmptyString).
    cbn [Text.rstrip]. by rewrite Hc.
  - change (String a s +:+ String c EmptyString)%string
      with (String a (s +:+ String c EmptyString)).
    cbn [Text.rstrip]. rewrite IH. by destruct s.
Qed.

Lemma rstrip_space s : Text.rstrip (s +:+ " ") = Text.rstrip s.
Proof.
  induction s as [|a s IH]; [done|].
  change (String a s +:+ " ")%string with (String a (s +:+ " ")).
  cbn [Text.rstrip]. by rewrite IH.
Qed.

Lemma startswith_app p s : Text.startswith p (p +:+ s) = true.
Proof.
  unfold Text.startswith. induction p as [|c p IH]; [by destruct s|].
  change (String c p +:+ s)%string with (String c (p +:+ s)).
  cbn [String.prefix]. by destruct (Ascii.ascii_dec c c).
Qed.

Lemma substring_app s p :
  String.substring (String.length s) (String.length p) (s +:+ p) = p.
Proof.
  induction s as [|c s IH]; [|exact IH].
  change (String.substring 0 (String.length p) p = p).
  induction p as [|a p IHp]; [done|]. simpl. by rewrite IHp.
Qed.

Lemma length_append s p :
  String.length (s +:+ p) = (String.length s + String.length p)%nat.
Proof. induction s as [|c s IH]; [done|]. simpl. by rewrite IH. Qed.

Lemma endswith_app p s : Text.endswith p (s +:+ p) = true.
Proof.
  unfold Text.endswith. rewrite length_append.
  replace (String.length s + String.length p - String.length p)%nat
    with (String.length s) by lia.
  rewrite substring_app, String.eqb_refl, andb_true_r.
  apply Nat.leb_le. lia.
Qed.

Lemma remove_without old s :
  without asterisk s = true →
  Text.remove_from "**" 0 (s +:+ old) = (s +:+ Text.remove_from "**" 0 old)%string.
Proof.
  induction s as [|c s IH]; [done|]. cbn [without].
  intros [Hc Hs]%andb_true_iff. apply negb_true_iff, Ascii.eqb_neq in Hc.
  change (String c s +:+ old)%string with (String c (s +:+ old)).
  cbn [Text.remove_from String.prefix].
  destruct (Ascii.ascii_dec "*" c) as [<-|_]; [done|].
  by rewrite (IH Hs).
Qed.

Lemma append_empty s : (s +:+ EmptyString)%string = s.
Proof.
  induction s as [|c s IH]; [done|].
  change (String c (s +:+ EmptyString) = String c s). by rewrite IH.
Qed.

Lemma prefix_empty s : String.prefix EmptyString s = true.
Proof. by destruct s. Qed.

Lemma remove_asterisks s :
  without asterisk s = true → Text.remove "**" ("**" +:+ s +:+ "**") = s.
Proof.
  intros H. unfold Text.remove.
  change ("**" +:+ s +:+ "**")%string with (String "*" (String "*" (s +:+ "**"))).
  cbn [Text.remove_from String.prefix].
  destruct (Ascii.ascii_dec "*" "*") as [_|]; [|done].
  rewrite prefix_empty. cbn [String.length Nat.sub Text.remove_from].
  rewrite remove_without by done.
  change (Text.remove_from "**" 0 "**") with EmptyString.
  apply append_empty.
Qed.

Lemma rstrip_cons a s :
  Text.rstrip s = s → s ≠ EmptyString → Text.rstrip (String a s) = String a s.
Proof. intros H Hne. cbn [Text.rstrip]. rewrite H. by destruct s. Qed.

Lemma strip_trimmed s : trimmed s = true → Text.strip s = s.
Proof.
  unfold trimmed, Text.strip.
  intros [Hl%String.eqb_eq Hr%String.eqb_eq]%andb_true_iff. by rewrite Hl.
Qed.

Lemma without_app c s t :
  without c s = true → without c t = true → without c (s +:+ t) = true.
Proof.
  intros Hs Ht. induction s as [|a s IH]; [done|].
  cbn [without] in Hs. apply andb_true_iff in Hs as [Ha Hs].
  change (String a s +:+ t)%string with (String a (s +:+ t)).
  cbn [without]. by rewrite Ha, IH.
Qed.

Lemma strip_title_line s :
  Text.strip ("**" +:+ s +:+ "**") = ("**" +:+ s +:+ "**")%string.
Proof.
  unfold Text.strip.
  change ("**" +:+ s +:+ "**")%string with (String "*" (String "*" (s +:+ "**"))).
  rewrite lstrip_kept by done.
  assert (Text.rstrip (s +:+ "**") = (s +:+ "**")%string) as H.
  { induction s as [|a s IH]; [done|].
    change (String a s +:+ "**")%string with (String a (s +:+ "**")).
    apply rstrip_cons; [done|by destruct s]. }
  assert ((s +:+ "**")%string ≠ EmptyString) as Hne by (by destruct s).
  apply rstrip_cons; [|done]. by apply rstrip_cons.
Qed.

(** The insight while its block is read: the content with the blank that
    follows each of its lines. *)
Definition raw (insight : Insight) : Insight :=
  {| title := title insight;
     content := if String.eqb (content insight) EmptyString then EmptyString
                else (content insight +:+ " ")%string |}.

Lemma plain_inv insight :
  plain insight = true →
  String.eqb (title insight) EmptyString = false ∧
  trimmed (title insight) = true ∧
  without newline (title insight) = true ∧
  without asterisk (title insight) = true ∧
  trimmed (content insight) = true ∧
  without newline (content insight) = true ∧
  heading (content insight) = false.
Proof.
  unfold plain. rewrite !andb_true_iff, !negb_true_iff. tauto.
Qed.

Lemma title_line insights current_insight insight :
  plain insight = true →
  parse_line (insights, current_insight) ("**" +:+ title insight +:+ "**") =
  (push insights current_insight,
   {| title := title insight; content := EmptyString |}).
Proof.
  intros (_ & Htrim & _ & Hast & _)%plain_inv.
  unfold parse_line. rewrite strip_title_line.
  rewrite startswith_app.
  change ("**" +:+ title insight +:+ "**")%string
    with ((String "*" (String "*" (title insight))) +:+ "**")%string at 1.
  rewrite endswith_app. cbn [andb].
  rewrite remove_asterisks by done. by rewrite strip_trimmed.
Qed.

Lemma content_line insights insight :
  plain insight = true →
  parse_line (insights, {| title := title insight; content := EmptyString |})
    (content insight) = (insights, raw insight).
Proof.
  intros (Htitle & _ & _ & _ & Htrim & _ & Hhead)%plain_inv.
  unfold heading in Hhead. cbv zeta in Hhead.
  rewrite strip_trimmed in Hhead by done.
  apply orb_false_iff in Hhead as [H1 H2].
  unfold parse_line. rewrite strip_trimmed by done. rewrite H1, H2.
  cbn [title content]. unfold raw.
  destruct (String.eqb (content insight) EmptyString); [done|].
  rewrite Htitle. done.
Qed.

Lemma empty_line state : parse_line state EmptyString = state.
Proof. by destruct state. Qed.

Lemma block_lines insights current_insight insight :
  plain insight = true →
  foldl parse_line (insights, current_insight) (block insight) =
  (push insights current_insight, raw insight).
Proof.
  intros H. unfold block. cbn [foldl].
  by rewrite title_line, content_line, empty_line.
Qed.

Lemma push_raw insights insight :
  plain insight = true → push insights (raw insight) = insights ++ [raw insight].
Proof.
  intros (Htitle & _)%plain_inv.
  unfold push. cbn [raw title]. by rewrite Htitle.
Qed.

Lemma blocks_lines l insights current_insight :
  forallb plain l = true →
  let state :=
    foldl parse_line (insights, current_insight) (concat (block <$> l)) in
  push (fst state) (snd state) = push insights current_insight ++ (raw <$> l).
Proof.
  revert insights current_insight.
  induction l as [|insight l IH]; intros insights current_insight H; cbv zeta.
  - cbn. by rewrite app_nil_r.
  - cbn [forallb] in H. apply andb_true_iff in H as [Hi Hl].
    cbn [fmap list_fmap concat]. rewrite foldl_app, block_lines by done.
    rewrite (IH _ _ Hl). rewrite push_raw by done.
    by rewrite <- app_assoc.
Qed.

Lemma strip_raw insight :
  plain insight = true → Text.strip (content (raw insight)) = content insight.
Proof.
  intros (_ & _ & _ & _ & Htrim & _)%plain_inv.
  unfold raw. cbn [content].
  destruct (String.eqb_spec (content insight) EmptyString) as [->|Hne]; [done|].
  unfold trimmed in Htrim.
  apply andb_true_iff in Htrim as [Hl%String.eqb_eq Hr%String.eqb_eq].
  unfold Text.strip.
  destruct (content insight) as [|c s] eqn:E; [done|].
  pose proof (lstrip_fixed c s Hl) as Hc.
  change (String c s +:+ " ")%string with (String c (s +:+ " ")).
  rewrite lstrip_kept by done.
  change (String c (s +:+ " ")) with (String c s +:+ " ")%string.
  by rewrite rstrip_space.
Qed.

Lemma lines_without l :
  forallb plain l = true →
  Forall (λ s, without newline s = true) (concat (block <$> l)).
Proof.
  induction l as [|insight l IH]; [done|]. cbn [forallb].
  intros [Hi Hl]%andb_true_iff. cbn [fmap list_fmap concat].
  apply Forall_app. split; [|by apply IH].
  apply plain_inv in Hi as (_ & _ & Htitle & _ & _ & Hcontent & _).
  unfold block. repeat constructor; [|done].
  apply (without_app newline "**"); [done|]. by apply without_app.
Qed.

(** X20.  A reply in the format that the prompt asks for is read back as it
    was written: for insights with a title on one line without asterisks
    and a content on one line that is not a heading, both without white
    space around them, the scanner returns the first four of them from the
    reply that gives each as the title between double asterisks, the
    content and an empty line. *)
Theorem reply_in_the_requested_format (insights : list Insight) :
  forallb plain insights = true →
  _parse_ai_insights (reply_of insights) = take 4 insights.
Proof.
  intros H. destruct insights as [|insight insights]; [done|].
  unfold _parse_ai_insights, reply_of.
  rewrite split_lines; [|done|by apply lines_without].
  pose proof (blocks_lines (insight :: insights) []
                {| title := EmptyString; content := EmptyString |} H) as Hstate.
  cbv zeta in Hstate.
  destruct (foldl parse_line _ _) as [found current_insight].
  cbn [fst snd] in Hstate. rewrite Hstate.
  change (push [] {| title := EmptyString; content := EmptyString |}) with (@nil Insight).
  rewrite app_nil_l. f_equal.
  rewrite <- list_fmap_compose.
  rewrite <- (list_fmap_id (insight :: insights)) at 2.
  apply Forall_fmap_ext_1, Forall_forall. intros i Hi.
  assert (plain i = true) as Hp.
  { rewrite forallb_forall in H. apply H. by apply list_elem_of_In. }
  change ({| title := title (raw i); content := Text.strip (content (raw i)) |} = i).
  rewrite strip_raw by done. by destruct i.
Qed.

End RequestedFormat.

Lemma reply_in_the_requested_format_witness :
  InsightsGenerator._parse_ai_insights
    (reply_of [ {| InsightsGenerator.title := "Pricing";
                   InsightsGenerator.content := "Prices rise by 5% a week." |};
                {| InsightsGenerator.title := "Demand";
                   InsightsGenerator.content := "Weekend demand is strong." |} ])
  = [ {| InsightsGenerator.title := "Pricing";
         InsightsGenerator.content := "Prices rise by 5% a week." |};
      {| InsightsGenerator.title := "Demand";
         InsightsGenerator.content := "Weekend demand is strong." |} ].
Proof.
  apply (reply_in_the_requested_format
           [ {| InsightsGenerator.title := "Pricing";
                InsightsGenerator.content := "Prices rise by 5% a week." |};
             {| InsightsGenerator.title := "Demand";
                InsightsGenerator.content := "Weekend demand is strong." |} ]).
  vm_compute. reflexivity.
Defined.

(** ** The three tiers together *)

Section TieredInsights.

Import InsightsGenerator.

Context (py_repr : value → string) (post : nat → response) (current_month : Z).

Lemma prefix_app p s :
  String.prefix p s = true → ∃ t, s = (p +:+ t)%string.
Proof.
  revert s. induction p as [|c p IH]; intros s; [by exists s|].
  destruct s as [|a s]; [done|]. cbn [String.prefix].
  destruct (Ascii.ascii_dec c a) as [->|]; [|done].
  intros [t ->]%IH. by exists t.
Qed.

(** A numbered line has a point: the split at the first point has two
    parts. *)
Lemma numbered_has_point line :
  numbered line = true → Text.split1 "." line ≠ None.
Proof.
  unfold numbered. intros (i & Hi & H)%existsb_exists.
  apply prefix_app in H as [t ->].
  cbn in Hi.
  by destruct Hi as [<-|[<-|[<-|[<-|[<-|[<-|[<-|[<-|[<-|[]]]]]]]]]].
Qed.

Definition named (insight : Insight) : Prop := title insight ≠ EmptyString.

Lemma demand_insight_named demand_score insight :
  demand_insight py_repr demand_score = Ret insight → named insight.
Proof.
  unfold demand_insight, gt.
  destruct (number demand_score) as [x|]; [|done]. cbn [obind].
  destruct (Float.gtb x (Float.of_Z 75)); [by intros [= <-]|].
  by destruct (Float.gtb x (Float.of_Z 50)); intros [= <-].
Qed.

Lemma route_insight_named total_routes popular_routes insight :
  route_insight py_repr total_routes popular_routes = Ret insight →
  named insight.
Proof.
  unfold route_insight. intros H.
  apply obind_Ret in H as (bookings & _ & H).
  destruct (truthy bookings); [|by apply Ret_inj in H as <-].
  by obind_inv H.
Qed.

Lemma seasonal_insight_named seasonal_data insight :
  seasonal_insight py_repr seasonal_data = Ret insight → named insight.
Proof.
  unfold seasonal_insight. intros H.
  apply obind_Ret in H as (demand & _ & H).
  destruct (truthy demand); [|by apply Ret_inj in H as <-].
  by obind_inv H.
Qed.

Lemma rule_based_named data insights :
  _generate_rule_based_insights py_repr data = Ret insights →
  length insights = 4%nat ∧ Forall named insights.
Proof.
  unfold _generate_rule_based_insights. intros H.
  obind_inv H.
  split; [done|]. cbn [app].
  repeat constructor.
  - unfold named. by rewrite title_price_insight.
  - by eapply demand_insight_named.
  - by eapply route_insight_named.
  - by eapply seasonal_insight_named.
Qed.

(** The run of [generate_insights] with the scanner of the source. *)
Local Abbreviation run self market_analysis :=
  (generate_insights py_repr post _parse_ai_insights current_month
     self market_analysis).

Lemma fallback_named : Forall named (_generate_fallback_insights current_month).
Proof. by repeat constructor. Qed.

Lemma rule_based_tier evs (answer : option (list Insight)) market_analysis :
  answer = None ∨ answer = Some [] →
  ∃ insights evs',
    ttry (tbind (evs, Ret answer) (λ ai_insights,
            match ai_insights with
            | Some (i :: l) =>
                tbind (emit (LogInfo "Generated AI-powered insights successfully"))
                      (λ _, tret (i :: l))
            | _ =>
                tbind (emit (LogInfo "Using rule-based insights generation")) (λ _,
                tlift (_generate_rule_based_insights py_repr market_analysis))
            end))
         (λ _, tbind (emit (LogError "Insights generation error"))
                  (λ _, tret (_generate_fallback_insights current_month)))
    = (evs ++ evs', Ret insights) ∧
    requests evs' = 0%nat ∧
    length insights = 4%nat ∧ Forall named insights.
Proof.
  intros Hanswer.
  assert (∃ insights evs',
    ttry (tbind (evs, Ret tt) (λ _,
            tbind (emit (LogInfo "Using rule-based insights generation")) (λ _,
            tlift (_generate_rule_based_insights py_repr market_analysis))))
         (λ _, tbind (emit (LogError "Insights generation error"))
                  (λ _, tret (_generate_fallback_insights current_month)))
    = (evs ++ evs', Ret insights) ∧
    requests evs' = 0%nat ∧
    length insights = 4%nat ∧ Forall named insights) as H.
  { unfold ttry, tbind, emit, tlift, tret.
    destruct (_generate_rule_based_insights py_repr market_analysis)
      as [insights|e] eqn:E.
    - apply rule_based_named in E as [H1 H2].
      eexists insights, _. split; [done|]. by split_and!.
    - eexists _, _. cbn [app]. rewrite <- app_assoc. split; [done|].
      split_and!; [done..|apply fallback_named]. }
  by destruct Hanswer as [-> | ->].
Qed.

(** X21.  The generator always answers: whatever the analysis, the key and
    the replies of the network are, [generate_insights] returns (it never
    raises) between one and four insights, each with a title that is not
    empty, after at most [max_retries] requests. *)
Theorem insights_are_always_produced (self : Generator) (market_analysis : value) :
  ∃ insights,
    snd (run self market_analysis) = Ret insights ∧
    (1 ≤ length insights ≤ 4)%nat ∧
    Forall (λ insight, title insight ≠ EmptyString) insights ∧
    (requests (fst (run self market_analysis)) ≤ max_retries self)%nat.
Proof.
  unfold generate_insights.
  destruct (negb (truthy market_analysis) || negb (is_dict market_analysis)).
  { exists (_generate_fallback_insights current_month).
    unfold ttry, tbind, emit, tret. cbn [fst snd app requests foldr].
    split; [done|]. split; [cbn [length _generate_fallback_insights]; lia|].
    split; [apply fallback_named|lia]. }
  assert (∃ evs answer,
    (if _is_openai_configured self
     then _generate_ai_insights post _parse_ai_insights self market_analysis
     else tret None) = (evs, Ret answer) ∧
    (requests evs ≤ max_retries self)%nat ∧
    ∀ insights, answer = Some insights →
      ∃ text, insights = _parse_ai_insights text)
    as (evs & answer & -> & Hreq & Hparse).
  { destruct (_is_openai_configured self).
    - destruct (ai_insights_run post _parse_ai_insights self market_analysis)
        as (evs & answer & -> & Hreq & _ & Hparse).
      by exists evs, answer.
    - exists [], None. split_and!; [done|cbn; lia|done]. }
  destruct answer as [[|i l]|].
  - destruct (rule_based_tier evs (Some []) market_analysis)
      as (insights & evs' & -> & H0 & Hlen & Hnamed); [by right|].
    exists insights. cbn [fst snd]. rewrite requests_app, H0, Hlen.
    split_and!; [done|lia|lia|done|lia].
  - destruct (Hparse _ eq_refl) as [text Htext].
    destruct (parsed_insights text) as [Hlen Hall]. rewrite <- Htext in *.
    exists (i :: l). cbn [ttry tbind emit tret fst snd].
    rewrite requests_app. cbn [requests foldr app].
    split_and!; [done|cbn; lia|done| |lia].
    eapply Forall_impl; [done|]. by intros insight [[H1 _] _].
  - destruct (rule_based_tier evs None market_analysis)
      as (insights & evs' & -> & H0 & Hlen & Hnamed); [by left|].
    exists insights. cbn [fst snd]. rewrite requests_app, H0, Hlen.
    split_and!; [done|lia|lia|done|lia].
Qed.

(** X22.  Without a configured key (no key, an empty one, the placeholder
    or one of at most twenty characters) the generator stays off the
    network: [generate_insights] sends no request and never sleeps,
    whatever the analysis is. *)
Theorem no_request_without_a_key (self : Generator) (market_analysis : value) :
  _is_openai_configured self = false →
  requests (fst (run self market_analysis)) = 0%nat ∧
  slept (fst (run self market_analysis)) = 0.
Proof.
  intros Hkey. unfold generate_insights. rewrite Hkey.
  destruct (negb (truthy market_analysis) || negb (is_dict market_analysis));
    [done|].
  unfold ttry, tbind, tret, emit, tlift.
  by destruct (_generate_rule_based_insights py_repr market_analysis).
Qed.

End TieredInsights.

Lemma no_request_without_a_key_witness :
  InsightsGenerator._is_openai_configured
    (InsightsGenerator.init (Some "YOUR_OPENAI_API_KEY"%string) None) = false ∧
  requests (fst (InsightsGenerator.generate_insights no_py_repr no_network
                   InsightsGenerator._parse_ai_insights 12
                   (InsightsGenerator.init (Some "YOUR_OPENAI_API_KEY"%string) None)
                   (InsightsGenerator.VDict ∅))) = 0%nat.
Proof.
  assert (InsightsGenerator._is_openai_configured
            (InsightsGenerator.init (Some "YOUR_OPENAI_API_KEY"%string) None) = false)
    as E by reflexivity.
  exact (conj E (proj1 (no_request_without_a_key no_py_repr no_network 12
                          (InsightsGenerator.init (Some "YOUR_OPENAI_API_KEY"%string) None)
                          (InsightsGenerator.VDict ∅) E))).
Defined.

(** ** The insights of an analysis of the analyzer *)

Section InsightsOfTheAnalysis.

Import MarketAnalyzer InsightsGenerator App.

Context (py_repr : value → string).

(** The insights of the rule-based tier that read a key which the
    dictionary of the analyzer does not have: each is the text of the branch
    for the default. *)
Definition insights_without_data : list Insight :=
  [ {| title := "Demand Assessment";
       content := "Lower demand score of 50% indicates market challenges requiring strategic intervention. Consider promotional campaigns, route optimization, partnership opportunities, or service differentiation to stimulate demand." |};
    {| title := "Route Network Analysis";
       content := "Current network spans 20 routes with varying performance levels. Route optimization opportunities exist through data-driven capacity allocation and strategic partnerships on secondary routes." |};
    {| title := "Strategic Growth Opportunities";
       content := "Market analysis reveals opportunities in dynamic pricing implementation, capacity optimization, and strategic route development. Focus on data-driven decision making and customer experience enhancement to drive sustainable growth." |} ].

Lemma statistics_read (s : Statistics) dflt :
  get (statistics_dict s) "demand_score" dflt = Ret dflt ∧
  get (statistics_dict s) "total_routes" dflt = Ret dflt ∧
  get (statistics_dict s) "avg_price" dflt = Ret (VInt (st_avg_price s)) ∧
  get (statistics_dict s) "price_change" dflt = Ret (VStr (st_price_change s)).
Proof. by split_and!. Qed.

Lemma analysis_read (a : Analysis Sections) dflt :
  get (analysis_dict a) "statistics" dflt = Ret (statistics_dict (an_statistics a)) ∧
  get (analysis_dict a) "popular_routes" dflt
    = Ret (popular_routes_dict (an_popular_routes a)) ∧
  get (analysis_dict a) "seasonal_trends" dflt
    = Ret (seasonal_trends_dict (an_seasonal_trends a)).
Proof. by split_and!. Qed.

Lemma sections_read (a : Analysis Sections) dflt :
  get (popular_routes_dict (an_popular_routes a)) "bookings" dflt = Ret dflt ∧
  get (seasonal_trends_dict (an_seasonal_trends a)) "demand" dflt = Ret dflt.
Proof. by split_and!. Qed.

Lemma analysis_truthy (a : Analysis Sections) :
  truthy (analysis_dict a) = true ∧ is_dict (analysis_dict a) = true.
Proof.
  split; [|done]. unfold analysis_dict, dict, truthy.
  apply negb_true_iff, bool_decide_eq_false. intros Hdom.
  by apply dom_empty_inv_L in Hdom.
Qed.

(** The rule-based tier on the dictionary of an analysis. *)
Lemma rule_based_of_analysis (a : Analysis Sections) :
  _generate_rule_based_insights py_repr (analysis_dict a) =
    Ret (price_insight py_repr (VStr (st_price_change (an_statistics a)))
                               (VInt (st_avg_price (an_statistics a)))
         :: insights_without_data).
Proof.
  unfold _generate_rule_based_insights.
  destruct (analysis_read a (VDict ∅)) as (-> & -> & ->). cbn [obind].
  destruct (statistics_read (an_statistics a) (VInt 400)) as (_ & _ & -> & _).
  destruct (statistics_read (an_statistics a) (VStr "+0%")) as (_ & _ & _ & ->).
  destruct (statistics_read (an_statistics a) (VInt 50)) as (-> & _).
  destruct (statistics_read (an_statistics a) (VInt 20)) as (_ & -> & _).
  cbn [obind].
  unfold route_insight, seasonal_insight.
  destruct (sections_read a VNone) as (-> & ->).
  done.
Qed.

(** X23.  On the dictionary of every analysis that the analyzer returns,
    whatever the flight data were, [get_market_sentiment] answers
    "Neutral - Balanced market conditions": the statistics of the analyzer
    have no [demand_score], and the default of 50 is in no other class. *)
Theorem sentiment_of_an_analysis (a : Analysis Sections) :
  get_market_sentiment py_repr (analysis_dict a)
  = "Neutral - Balanced market conditions"%string.
Proof.
  unfold get_market_sentiment, sentiment_body.
  destruct (analysis_read a (VDict ∅)) as (-> & _). cbn [obind].
  destruct (statistics_read (an_statistics a) (VInt 50)) as (-> & _).
  destruct (statistics_read (an_statistics a) (VStr "+0%")) as (_ & _ & _ & ->).
  cbn [obind]. unfold gt, lt. cbn [number obind].
  assert (Float.gtb (Float.of_Z 50) (Float.of_Z 70) = false) as -> by done.
  assert (Float.gtb (Float.of_Z 50) (Float.of_Z 60) = false) as -> by done.
  assert (Float.ltb (Float.of_Z 50) (Float.of_Z 40) = false) as -> by done.
  assert (Float.ltb (Float.of_Z 50) (Float.of_Z 50) = false) as -> by done.
  done.
Qed.

Context (parse_datetime : string → option Calendar.Timestamp).
Context (parse_numeric : string → option Q).
Context (repr_float : float → string).
Context (std : list float → float).
Context (now : Calendar.Timestamp).
Context (post : nat → response).
Context (current_month : Z).

Local Abbreviation get_market_data' :=
  (get_market_data parse_datetime parse_numeric repr_float std now
     py_repr post current_month).

(** X24.  Without a configured key, the insights that [get_market_data]
    gets for any flight data are the four rule-based ones, and only the
    first depends on the data: it reports the price change and the average
    price of the statistics.  The three others are fixed texts, because the
    analyzer's dictionary has none of the keys they read ([demand_score],
    [total_routes], the [bookings] of the popular routes and the [demand]
    of the seasonal trends): a demand score of 50%, a network of 20 routes
    and the strategic growth opportunities. *)
Theorem insights_of_an_analysis (analyzer : Analyzer) (insights_gen : Generator)
    (flight_data : ref) (h : store) :
  _is_openai_configured insights_gen = false →
  ∃ analysis,
    get_market_data' analyzer insights_gen flight_data h =
      ([LogInfo "Using rule-based insights generation"],
       Ret (analysis_dict analysis,
            price_insight py_repr
              (VStr (st_price_change (an_statistics analysis)))
              (VInt (st_avg_price (an_statistics analysis)))
            :: insights_without_data)).
Proof.
  intros Hkey.
  destruct (analyze_market_trends_run parse_datetime parse_numeric repr_float
              std now Sections (sections std now) (default_sections now)
              analyzer h flight_data)
    as (a & self' & h' & Hrun & _).
  exists a. unfold get_market_data. rewrite Hrun.
  unfold generate_insights.
  destruct (analysis_truthy a) as [-> ->]. cbn [negb orb].
  rewrite Hkey. unfold ttry, tbind, tret, emit, tlift.
  by rewrite rule_based_of_analysis.
Qed.

End InsightsOfTheAnalysis.

Lemma insights_of_an_analysis_witness :
  InsightsGenerator._is_openai_configured without_credential = false ∧
  ∃ analysis,
    App.get_market_data no_datetime no_numeric no_repr no_std 19723
      no_py_repr no_network 12
      fresh_analyzer without_credential 0%nat [single_flight]
    = ([InsightsGenerator.LogInfo "Using rule-based insights generation"],
       Ret (App.analysis_dict analysis,
            InsightsGenerator.price_insight no_py_repr
              (InsightsGenerator.VStr
                 (MarketAnalyzer.st_price_change (MarketAnalyzer.an_statistics analysis)))
              (InsightsGenerator.VInt
                 (MarketAnalyzer.st_avg_price (MarketAnalyzer.an_statistics analysis)))
            :: insights_without_data)).
Proof.
  split; [reflexivity|].
  apply (insights_of_an_analysis no_py_repr no_datetime no_numeric
           no_repr no_std 19723 no_network 12).
  reflexivity.
Defined.

(** ** The recommendations *)

Section Recommendations.

Import MarketAnalyzer InsightsGenerator App.

(** An insight that [generate_recommendations] can read: a dictionary whose
    [content], when it has one, is a string. *)
Definition readable (insight : value) : bool :=
  match insight with
  | VDict d =>
      match d !! "content"%string with
      | Some (VStr _) | None => true
      | Some _ => false
      end
  | _ => false
  end.

(** The themes of a readable insight. *)
Definition themes_in (insight : value) : list string :=
  match insight with
  | VDict d =>
      match d !! "content"%string with
      | Some (VStr s) => themes_of (Text.lower s)
      | _ => []
      end
  | _ => []
  end.

Local Abbreviation scan :=
  (λ insight : value,
     obind (get insight "content" (VStr EmptyString)) (λ c,
     obind (lower c) (λ content, Ret (themes_of content)))).

Lemma scan_readable insight :
  readable insight = true → scan insight = Ret (themes_in insight).
Proof.
  destruct insight as [| | | | | |d]; try done. cbn.
  by destruct (d !! "content"%string) as [[]|].
Qed.

Lemma scan_unreadable insight :
  readable insight = false → ∃ e, scan insight = Raise e.
Proof.
  destruct insight as [| | | | | |d]; try (by eexists). cbn.
  destruct (d !! "content"%string) as [[]|]; try done; by eexists.
Qed.

Lemma scan_all insights :
  match omapM scan insights with
  | Ret found => forallb readable insights = true ∧ found = themes_in <$> insights
  | Raise _ => forallb readable insights = false
  end.
Proof.
  induction insights as [|insight insights IH]; [done|].
  cbn [omapM forallb].
  destruct (readable insight) eqn:E.
  - rewrite (scan_readable _ E). cbn [obind andb].
    destruct (omapM scan insights); [|done].
    destruct IH as [-> ->]. done.
  - by destruct (scan_unreadable _ E) as [e ->].
Qed.

(** The recommendations for the themes that were found. *)
Definition recommended (pricing demand network seasonal : bool) : list string :=
  take 5
    ((if pricing
      then ["Implement dynamic pricing algorithms to optimize revenue based on demand patterns"%string]
      else []) ++
     (if demand
      then ["Develop targeted marketing campaigns for underperforming routes and time periods"%string]
      else []) ++
     (if network
      then ["Conduct comprehensive route profitability analysis and consider network optimization"%string]
      else []) ++
     (if seasonal
      then ["Create seasonal capacity plans and advance booking incentive programs"%string]
      else []) ++
     general_recommendations).

Lemma recommendations_run insights :
  forallb readable insights = true →
  generate_recommendations insights =
    Ret (recommended
           (bool_decide ("pricing"%string ∈ concat (themes_in <$> insights)))
           (bool_decide ("demand"%string ∈ concat (themes_in <$> insights)))
           (bool_decide ("network"%string ∈ concat (themes_in <$> insights)))
           (bool_decide ("seasonal"%string ∈ concat (themes_in <$> insights)))).
Proof.
  intros H. unfold generate_recommendations.
  pose proof (scan_all insights) as Hscan.
  destruct (omapM scan insights) as [found|]; [|congruence].
  destruct Hscan as [_ ->]. done.
Qed.

Lemma recommended_listing pricing demand network seasonal :
  let recs := recommended pricing demand network seasonal in
  (3 ≤ length recs ≤ 5)%nat ∧
  "Monitor competitor pricing and adjust strategies accordingly"%string ∈ recs ∧
  NoDup recs.
Proof.
  destruct pricing, demand, network, seasonal; cbn;
    (split_and!; [lia|lia|rewrite !elem_of_cons; tauto|
                  by apply (bool_decide_unpack _); vm_compute]).
Qed.

(** X25.  [generate_recommendations] raises exactly when one of the
    insights is not a dictionary or has a [content] that is not a string.
    When it returns, it lists between three and five recommendations,
    without repetition, and "Monitor competitor pricing and adjust
    strategies accordingly" is always one of them; for no insight at all
    they are the three general ones. *)
Theorem recommendations_listing (insights : list value) :
  match generate_recommendations insights with
  | Ret recommendations =>
      forallb readable insights = true ∧
      (3 ≤ length recommendations ≤ 5)%nat ∧
      "Monitor competitor pricing and adjust strategies accordingly"%string
        ∈ recommendations ∧
      NoDup recommendations ∧
      (insights = [] → recommendations = general_recommendations)
  | Raise _ => forallb readable insights = false
  end.
Proof.
  destruct (forallb readable insights) eqn:E.
  - rewrite (recommendations_run _ E).
    destruct (recommended_listing
                (bool_decide ("pricing"%string ∈ concat (themes_in <$> insights)))
                (bool_decide ("demand"%string ∈ concat (themes_in <$> insights)))
                (bool_decide ("network"%string ∈ concat (themes_in <$> insights)))
                (bool_decide ("seasonal"%string ∈ concat (themes_in <$> insights))))
      as (H1 & H2 & H3).
    split_and!; try done; [apply H1..|]. by intros ->.
  - unfold generate_recommendations.
    pose proof (scan_all insights) as Hscan.
    destruct (omapM scan insights) as [found|]; [|done].
    destruct Hscan as [Hscan _]. congruence.
Qed.

End Recommendations.

(** ** The recommendations for an analysis of the analyzer *)

Section RecommendationsOfTheAnalysis.

Import MarketAnalyzer InsightsGenerator App.

Context (py_repr : value → string).

Lemma lower_app a b :
  Text.lower (a +:+ b) = (Text.lower a +:+ Text.lower b)%string.
Proof. induction a as [|c a IH]; [done|]. simpl. by rewrite IH. Qed.

Lemma prefix_app_l p a b :
  String.prefix p a = true → String.prefix p (a +:+ b) = true.
Proof.
  revert a. induction p as [|c p IH]; intros a; [by destruct (a +:+ b)|].
  destruct a as [|x a]; [done|]. simpl.
  destruct (Ascii.ascii_dec c x); [apply IH|done].
Qed.

Lemma contains_app_l needle a b :
  Text.contains needle a = true → Text.contains needle (a +:+ b) = true.
Proof.
  induction a as [|x a IH].
  - simpl. rewrite orb_false_r. intros H.
    destruct needle; [by destruct b|done].
  - change (String x a +:+ b)%string with (String x (a +:+ b)).
    cbn [Text.contains]. intros [H|H]%orb_true_iff.
    + apply (prefix_app_l _ _ b) in H.
      change (String x a +:+ b)%string with (String x (a +:+ b)) in H.
      by rewrite H.
    + rewrite (IH H). apply orb_true_r.
Qed.

Lemma themes_of_price_insight price_change avg_price :
  "pricing"%string ∈
    themes_in (insight_dict (price_insight py_repr price_change avg_price)).
Proof.
  assert (∀ rest, "pricing"%string ∈
            themes_of (Text.lower ("Market prices have " +:+ rest))) as H.
  { intros rest. unfold themes_of. rewrite lower_app.
    assert (Text.contains "price"
              (Text.lower "Market prices have " +:+ Text.lower rest) = true) as E
      by (by apply contains_app_l).
    destruct (Text.contains "price" _); [|done]. cbn [orb].
    apply elem_of_app. left. apply list_elem_of_here. }
  unfold price_insight. destruct (contains _ _); apply H.
Qed.

(** X26.  The recommendations for the rule-based insights of an analysis,
    whatever the flight data were: [generate_recommendations] returns five
    of them, which start with the ones for pricing, for demand and for the
    network; the two last are the seasonal one and the first general one,
    or the first two general ones. *)
Theorem recommendations_of_an_analysis (a : Analysis Sections) :
  ∃ r4 r5,
    obind (_generate_rule_based_insights py_repr (analysis_dict a))
      (λ insights, generate_recommendations (insight_dict <$> insights)) =
    Ret ["Implement dynamic pricing algorithms to optimize revenue based on demand patterns";
         "Develop targeted marketing campaigns for underperforming routes and time periods";
         "Conduct comprehensive route profitability analysis and consider network optimization";
         r4; r5]%string ∧
    ((r4 = "Create seasonal capacity plans and advance booking incentive programs"%string ∧
      r5 = "Monitor competitor pricing and adjust strategies accordingly"%string) ∨
     (r4 = "Monitor competitor pricing and adjust strategies accordingly"%string ∧
      r5 = "Invest in customer experience improvements to drive loyalty and premium pricing"%string)).
Proof.
  rewrite rule_based_of_analysis. cbn [obind].
  rewrite recommendations_run by done.
  set (first := price_insight _ _ _).
  pose proof (themes_of_price_insight
                (VStr (st_price_change (an_statistics a)))
                (VInt (st_avg_price (an_statistics a)))) as Hfirst.
  fold first in Hfirst.
  assert (bool_decide ("pricing"%string ∈
            concat (themes_in <$> (insight_dict <$> first :: insights_without_data)))
          = true) as ->.
  { apply bool_decide_eq_true. cbn [fmap list_fmap concat].
    apply elem_of_app. by left. }
  assert (bool_decide ("demand"%string ∈
            concat (themes_in <$> (insight_dict <$> first :: insights_without_data)))
          = true) as ->.
  { apply bool_decide_eq_true. cbn [fmap list_fmap concat].
    apply elem_of_app. right. by apply (bool_decide_unpack _); vm_compute. }
  assert (bool_decide ("network"%string ∈
            concat (themes_in <$> (insight_dict <$> first :: insights_without_data)))
          = true) as ->.
  { apply bool_decide_eq_true. cbn [fmap list_fmap concat].
    apply elem_of_app. right. by apply (bool_decide_unpack _); vm_compute. }
  destruct (bool_decide _); eexists _, _; (split; [done|]); [by left|by right].
Qed.

End RecommendationsOfTheAnalysis.
